(** * Loot and encounter generators: a shallow embedding of
      [lootgen.py] and [encountergen.py]

    Conventions of the embedding.

    - In [lootgen] and [encountergen] a Python float is read as the exact
      rational it stands for ([Q]) and float arithmetic as exact arithmetic;
      [int(x)] on a float is truncation towards zero.  What is proved on this
      reading does not depend on rounding: which draws are taken, which list
      a returned entry comes from, what the returned records are made of,
      which table entry explains an error.  The coin loop is embedded a
      second time in the machine's arithmetic, in [binary64], for what
      depends on rounding.
    - Strings are ASCII.
    - Input tables are records whose optional keys are [option] fields: [None]
      is an absent key.  A present key is taken to hold a value of the JSON type
      the schema gives it.  Values the code only copies into its output are
      kept as [json].
    - Python dicts are association lists in insertion order with unique keys.
    - Output records are [json] values, so that their keys can be inspected.
    - [self.rng] is threaded explicitly: a computation is a function from the
      state of the random stream to a result (a value or a raised exception)
      and the state afterwards. *)

From Stdlib Require Import ZArith QArith Qround List String Ascii Bool Lia.
From Stdlib Require Import DecimalString Permutation Lqa.
Import ListNotations.

Open Scope string_scope.
Open Scope Z_scope.

Set Warnings "-register-all".

(** ** JSON values *)

Inductive json : Type :=
| JNull
| JBool (b : bool)
| JInt (z : Z)
| JFloat (q : Q)
| JStr (s : string)
| JList (l : list json)
| JDict (kv : list (string * json)).

(** ** Python dicts as insertion-ordered association lists *)

Fixpoint dict_get {V : Type} (k : string) (d : list (string * V)) : option V :=
  match d with
  | [] => None
  | (k', v) :: rest => if String.eqb k k' then Some v else dict_get k rest
  end.

(** [d[k] = v]: an existing key keeps its position, a new key goes last. *)
Fixpoint dict_set {V : Type} (k : string) (v : V) (d : list (string * V))
  : list (string * V) :=
  match d with
  | [] => [(k, v)]
  | (k', v') :: rest =>
      if String.eqb k k' then (k, v) :: rest else (k', v') :: dict_set k v rest
  end.

Definition dict_keys {V : Type} (d : list (string * V)) : list string :=
  map fst d.

Definition json_keys (j : json) : list string :=
  match j with
  | JDict kv => dict_keys kv
  | _ => []
  end.

Definition json_get (k : string) (j : json) : option json :=
  match j with
  | JDict kv => dict_get k kv
  | _ => None
  end.

Definition opt_json {A : Type} (f : A -> json) (o : option A) : json :=
  match o with
  | Some a => f a
  | None => JNull
  end.

Definition json_strs (l : list string) : json := JList (map JStr l).

(** [x.get(k) or d] on a list-valued key. *)
Definition or_list {A : Type} (o : option (list A)) (d : list A) : list A :=
  match o with
  | Some (x :: l) => x :: l
  | _ => d
  end.

Definition get_default {A : Type} (o : option A) (d : A) : A :=
  match o with
  | Some a => a
  | None => d
  end.

Definition str_in (s : string) (l : list string) : bool :=
  existsb (String.eqb s) l.

(** Python's [str(n)] on an [int]. *)
Definition str (z : Z) : string := NilZero.string_of_int (Z.to_int z).

(** ** Numbers *)

Definition Qltb (x y : Q) : bool := negb (Qle_bool y x).

(** [int(x)] on a float: truncation towards zero. *)
Definition py_int (x : Q) : Z :=
  if Qle_bool 0 x then Qfloor x else Qceiling x.

Definition round_half_even (x : Q) : Z :=
  let f := Qfloor x in
  let d := (x - inject_Z f)%Q in
  if Qltb d (1 # 2) then f
  else if Qltb (1 # 2) d then f + 1
  else if Z.even f then f else f + 1.

(** [round(x, 2)], on the exact value. *)
Definition py_round2 (x : Q) : Q :=
  (inject_Z (round_half_even (x * 100)) / 100)%Q.

(** ** Exceptions, one constructor per raise site *)

Inductive PyError : Type :=
| LevelNotFound (level : Z)
    (* lootgen.generate: "Level ... not found in level_budgets_gp" *)
| KeyError (key : string)
    (* [item["id"]] and the like on a dict without the key *)
| ZeroDivisionError
    (* [remaining / value] with [value == 0] *)
| ChoicesTotalNotPositive
    (* random.choices: "Total of weights must be greater than zero" *)
| IndexError
    (* [items[0]] or [random.choice] on an empty sequence *)
| EmptyRange
    (* random.randint(a, b) with [b < a] *)
| NoTemplatesDefined
    (* "No combat encounter templates defined in encounter_tables.json" *)
| NoTemplatesMatch (level : Z) (biome slot : string)
    (* "No combat encounter templates match level=..., biome=..., slot=..." *)
| MissingEnemyGroupId
    (* "Combat template missing enemy_group_id" *)
| EnemyGroupNotFound (group_id : string)
    (* "Enemy group not found: ..." *)
| FloatInfinityToInt
    (* OverflowError: "cannot convert float infinity to integer" *)
| FloatNaNToInt
    (* ValueError: "cannot convert float NaN to integer" *)
| IntTooLargeForFloat
    (* OverflowError: "int too large to convert to float" *)
.

Inductive result (A : Type) : Type :=
| Ok (a : A)
| Err (e : PyError).
Arguments Ok {A} a.
Arguments Err {A} e.

(** ** The random stream

    [random.Random]: the generator algorithm is a fixed function of the seed.
    Nothing is assumed of it beyond the ranges of its two primitives. *)

Class RandomSource : Type := {
  Random : Type;
  Random_seed : Z -> Random;                      (* random.Random(seed) *)
  rng_random : Random -> Q * Random;              (* rng.random() *)
  rng_randbelow : Z -> Random -> Z * Random;      (* rng._randbelow(n) *)
  rng_random_range :
    forall r, (0 <= fst (rng_random r))%Q /\ (fst (rng_random r) < 1)%Q;
  rng_randbelow_range :
    forall n r, 0 < n -> 0 <= fst (rng_randbelow n r) < n
}.

(** What differs from one interpreter process to the next: the iteration order
    of a set of strings (CPython salts string hashes per process) and the
    state of the module-level generator used when no seed is passed. *)
Class Interpreter : Type := {
  set_order : list string -> list string;         (* list(set(xs)) *)
  set_order_perm :
    forall xs, Permutation (set_order xs) (nodup string_dec xs);
  unseeded_randint : Z                            (* random.randint(0, 999_999) *)
}.

Section Monad.
Context {RS : RandomSource}.

(** A computation over [self.rng]; an exception leaves the stream where it
    was when raised. *)
Definition M (A : Type) : Type := Random -> result A * Random.

Definition ret {A : Type} (a : A) : M A := fun r => (Ok a, r).

Definition raise {A : Type} (e : PyError) : M A := fun r => (Err e, r).

Definition bind {A B : Type} (m : M A) (f : A -> M B) : M B :=
  fun r =>
    match m r with
    | (Ok a, r') => f a r'
    | (Err e, r') => (Err e, r')
    end.

Definition random : M Q :=
  fun r => let (u, r') := rng_random r in (Ok u, r').

Definition _randbelow (n : Z) : M Z :=
  fun r => let (k, r') := rng_randbelow n r in (Ok k, r').

(** [rng.randint(a, b)]: [a + _randbelow(b - a + 1)]. *)
Definition randint (a b : Z) : M Z :=
  if b <? a then raise EmptyRange
  else bind (_randbelow (b - a + 1)) (fun k => ret (a + k)).

(** [rng.choice(seq)]: [seq[_randbelow(len(seq))]]. *)
Definition choice {A : Type} (seq : list A) : M A :=
  match seq with
  | [] => raise IndexError
  | _ =>
      bind (_randbelow (Z.of_nat (List.length seq))) (fun i =>
        match nth_error seq (Z.to_nat i) with
        | Some x => ret x
        | None => raise IndexError
        end)
  end.

(** [itertools.accumulate(weights)]. *)
Fixpoint accumulate_from (acc : Q) (ws : list Q) : list Q :=
  match ws with
  | [] => []
  | w :: rest => (acc + w)%Q :: accumulate_from (acc + w)%Q rest
  end.

Definition accumulate (ws : list Q) : list Q :=
  match ws with
  | [] => []
  | w :: rest => w :: accumulate_from w rest
  end.

(** [bisect.bisect_right(a, x, lo, hi)]. *)
Fixpoint bisect (fuel : nat) (a : list Q) (x : Q) (lo hi : nat) : nat :=
  match fuel with
  | O => lo
  | S fuel' =>
      if (lo <? hi)%nat then
        let mid := ((lo + hi) / 2)%nat in
        if Qltb x (nth mid a 0%Q) then bisect fuel' a x lo mid
        else bisect fuel' a x (mid + 1)%nat hi
      else lo
  end.

(** [rng.choices(population, weights=weights, k=1)[0]] (CPython 3.9 and
    later, where a non-positive total is rejected). *)
Definition choices {A : Type} (population : list A) (weights : list Q) : M A :=
  let cum_weights := accumulate weights in
  let n := List.length population in
  match cum_weights with
  | [] => raise IndexError
  | _ =>
      let total := last cum_weights 0%Q in
      if Qle_bool total 0 then raise ChoicesTotalNotPositive
      else
        bind random (fun u =>
          let i := bisect (S n) cum_weights (u * total)%Q 0 (n - 1) in
          match nth_error population i with
          | Some x => ret x
          | None => raise IndexError
          end)
  end.

End Monad.

Declare Scope py_scope.
Delimit Scope py_scope with py.
Notation "x <- m ;; k" := (bind m (fun x => k))
  (at level 100, m at next level, right associativity) : py_scope.
Notation "' p <- m ;; k" := (bind m (fun p => k))
  (at level 100, p pattern, m at next level, right associativity) : py_scope.
Open Scope py_scope.

(** * lootgen.py *)

Module lootgen.

Record LootItem : Type := {
  item_id : option json;
  item_name : option json;
  item_rarity : option json;
  item_gp_value : option Q;
  item_weight : option Q;
  item_min_level : option Z;
  item_max_level : option Z
}.

(** The loaded [loot_data.json]. *)
Record LootData : Type := {
  coin_values_gp : list (string * Q);
  level_budgets_gp : list (string * Q);
  magic_items : list LootItem;
  mundane_goods : list LootItem
}.

(** The empty dict [{}] as an item. *)
Definition no_item : LootItem :=
  {| item_id := None; item_name := None; item_rarity := None;
     item_gp_value := None; item_weight := None;
     item_min_level := None; item_max_level := None |}.

Definition magic_level_ok (level : Z) (it : LootItem) : bool :=
  let lo := get_default (item_min_level it) 1 in
  let hi := get_default (item_max_level it) 20 in
  (lo <=? level) && (level <=? hi).

Definition _filter_magic_by_level (items : list LootItem) (level : Z)
  : list LootItem :=
  filter (magic_level_ok level) items.

(** [sorted(coin_values.items(), key=lambda x: -x[1])]: stable, descending
    by value. *)
Fixpoint insert_coin (c : string * Q) (l : list (string * Q))
  : list (string * Q) :=
  match l with
  | [] => [c]
  | d :: rest =>
      if Qltb (snd c) (snd d) then d :: insert_coin c rest else c :: d :: rest
  end.

Definition coins_sorted (coin_values : list (string * Q))
  : list (string * Q) :=
  fold_right insert_coin [] coin_values.

(** The state of the loop of [_generate_coins]. *)
Record CoinState : Type := {
  remaining : Q;
  output : list (string * Z)
}.

Inductive loop_ctl : Type :=
| Break
| Next (st : CoinState).

(** Value of a coin mixture, as [_calculate_parcel_value] sums it. *)
Fixpoint coins_value (coin_values : list (string * Q))
    (coins : list (string * Z)) : Q :=
  match coins with
  | [] => 0%Q
  | (denom, count) :: rest =>
      (get_default (dict_get denom coin_values) 0 * inject_Z count
       + coins_value coin_values rest)%Q
  end.

Definition item_gp (j : json) : Q :=
  match json_get "gp_value" j with
  | Some (JFloat q) => q
  | Some (JInt z) => inject_Z z
  | _ => 0%Q
  end.

Definition items_value (items : list json) : Q :=
  fold_left (fun total it => (total + item_gp it)%Q) items 0%Q.

(** A parcel under construction. *)
Record Parcel : Type := {
  coins : list (string * Z);
  parcel_magic_items : list json;
  parcel_mundane_items : list json
}.

Definition _calculate_parcel_value (parcel : Parcel)
    (coin_values : list (string * Q)) : Q :=
  (coins_value coin_values (coins parcel)
   + items_value (parcel_magic_items parcel)
   + items_value (parcel_mundane_items parcel))%Q.

Definition parcel_json (p : Parcel) (total_value_gp : Q) : json :=
  JDict [("coins", JDict (map (fun c => (fst c, JInt (snd c))) (coins p)));
         ("magic_items", JList (parcel_magic_items p));
         ("mundane_items", JList (parcel_mundane_items p));
         ("total_value_gp", JFloat total_value_gp)].

(** [d[key]] on a dict that may lack the key. *)
Definition subscript {A : Type} {RS : RandomSource}
    (o : option A) (key : string) : M A :=
  match o with
  | Some a => ret a
  | None => raise (KeyError key)
  end.

Record LootGenerator : Type := {
  loot_data : LootData;
  seed : Z
}.

Section Generator.
Context {RS : RandomSource} {PY : Interpreter}.

Definition _weighted_choice (items : list LootItem) : M LootItem :=
  match items with
  | [] => ret no_item
  | _ =>
      let weights := map (fun it => get_default (item_weight it) 1%Q) items in
      choices items weights
  end.

(** The body of the loop of [_generate_coins] for one denomination. *)
Definition _generate_coins_body (cv : string * Q) (st : CoinState)
  : M loop_ctl :=
  let (coin, value) := cv in
  if Qle_bool (remaining st) 0 then ret Break
  else if Qeq_bool value 0 then raise ZeroDivisionError
  else
    let max_qty := py_int (remaining st / value) in
    if max_qty <=? 0 then ret (Next st)
    else
      qty <- randint 0 max_qty ;;
      if 0 <? qty then
        ret (Next {| remaining := (remaining st - inject_Z qty * value)%Q;
                     output := dict_set coin qty (output st) |})
      else ret (Next st).

Fixpoint _generate_coins_loop (sorted : list (string * Q)) (st : CoinState)
  : M CoinState :=
  match sorted with
  | [] => ret st
  | cv :: rest =>
      c <- _generate_coins_body cv st ;;
      match c with
      | Break => ret st
      | Next st' => _generate_coins_loop rest st'
      end
  end.

Definition _generate_coins (coin_values : list (string * Q)) (budget_gp : Q)
  : M (list (string * Z)) :=
  st <- _generate_coins_loop (coins_sorted coin_values)
          {| remaining := budget_gp; output := [] |} ;;
  ret (output st).

(** [LootGenerator(loot_data, seed)]: the generator and the initial state
    of its stream. *)
Definition __init__ (data : LootData) (seed_arg : option Z)
  : LootGenerator * Random :=
  let s := get_default seed_arg unseeded_randint in
  ({| loot_data := data; seed := s |}, Random_seed s).

Definition _generate_parcel (self : LootGenerator) (level : Z)
    (base_budget : Q) (magic_pool : list LootItem) : M json :=
  let coin_budget := (base_budget * (2 # 10))%Q in
  cs <- _generate_coins (coin_values_gp (loot_data self)) coin_budget ;;
  u <- random ;;
  parcel <-
    (if Qltb u (4 # 10) && negb (List.length magic_pool =? 0)%nat then
       item <- _weighted_choice magic_pool ;;
       i <- subscript (item_id item) "id" ;;
       n <- subscript (item_name item) "name" ;;
       v <- subscript (item_gp_value item) "gp_value" ;;
       ret {| coins := cs;
              parcel_magic_items :=
                [JDict [("id", i); ("name", n);
                        ("rarity", get_default (item_rarity item)
                                     (JStr "common"));
                        ("gp_value", JFloat v)]];
              parcel_mundane_items := [] |}
     else
       item <- _weighted_choice (mundane_goods (loot_data self)) ;;
       i <- subscript (item_id item) "id" ;;
       n <- subscript (item_name item) "name" ;;
       v <- subscript (item_gp_value item) "gp_value" ;;
       ret {| coins := cs;
              parcel_magic_items := [];
              parcel_mundane_items :=
                [JDict [("id", i); ("name", n); ("gp_value", JFloat v)]] |}) ;;
  ret (parcel_json parcel
         (py_round2 (_calculate_parcel_value parcel
                       (coin_values_gp (loot_data self))))).

(** [for _ in range(rolls): parcels.append(self._generate_parcel(...))]. *)
Fixpoint parcels_loop (self : LootGenerator) (level : Z) (base_budget : Q)
    (magic_pool : list LootItem) (n : nat) (parcels : list json)
  : M (list json) :=
  match n with
  | O => ret parcels
  | S n' =>
      parcel <- _generate_parcel self level base_budget magic_pool ;;
      parcels_loop self level base_budget magic_pool n' (parcels ++ [parcel])
  end.

Definition generate (self : LootGenerator) (level : Z) (rolls : Z) : M json :=
  let rolls := Z.max 1 rolls in
  match dict_get (str level) (level_budgets_gp (loot_data self)) with
  | None => raise (LevelNotFound level)
  | Some base_budget =>
      let magic_pool :=
        _filter_magic_by_level (magic_items (loot_data self)) level in
      parcels <- parcels_loop self level base_budget magic_pool
                   (Z.to_nat rolls) [] ;;
      ret (JDict [("schema", JStr "loot.v1");
                  ("seed", JInt (seed self));
                  ("encounter_level", JInt level);
                  ("rolls", JInt rolls);
                  ("parcels", JList parcels)])
  end.

(** The library entry point once [_load_loot_data] has returned [data];
    the loading itself, which exits or raises on a missing or malformed
    file, is [loading._load_loot_data]. *)
Definition generate_loot (data : LootData) (level : Z) (rolls : Z)
    (seed_arg : option Z) : result json :=
  let (gen, rng) := __init__ data seed_arg in
  fst (generate gen level rolls rng).

End Generator.

End lootgen.

(** * lootgen.py: the coin loop in binary64

    [_generate_coins] and the coin budget of [_generate_parcel] once more,
    this time in the machine's arithmetic: a Python float is an IEEE 754
    binary64 number (Rocq's primitive [float]), a JSON number loads as an
    [int] or a [float], and arithmetic between the two follows Python's
    rules.  A table value that is NaN is outside this model: Python's sort
    promises nothing on keys that do not compare. *)

From Stdlib Require PrimFloat FloatOps SpecFloat.

Module binary64.
Import PrimFloat FloatOps SpecFloat.

Set Warnings "-inexact-float".

(** A number of a loaded JSON table. *)
Inductive number : Type :=
| NInt (z : Z)
| NFloat (f : float).

(** [float(n)] on an [int], also where Python converts an [int] operand of
    float arithmetic: round to nearest, ties to even. *)
Definition float_of_int (z : Z) : result float :=
  let f := SF2Prim (binary_normalize prec emax z 0 false) in
  if is_infinity f then Err IntTooLargeForFloat else Ok f.

Definition to_float (x : number) : result float :=
  match x with
  | NInt z => float_of_int z
  | NFloat f => Ok f
  end.

(** [int(x)] on a float: truncation towards zero. *)
Definition int_of_float (x : float) : result Z :=
  match Prim2SF x with
  | S754_zero _ => Ok 0
  | S754_finite s m e =>
      let n := if 0 <=? e then Z.pos m * 2 ^ e else Z.pos m / 2 ^ (- e) in
      Ok (if s then - n else n)
  | S754_infinity _ => Err FloatInfinityToInt
  | S754_nan => Err FloatNaNToInt
  end.

Definition neg (x : number) : number :=
  match x with
  | NInt z => NInt (- z)
  | NFloat f => NFloat (- f)
  end.

(** [n < x] and [x < n] for an [int] and a float: Python compares the exact
    values. *)
Definition int_lt_float (z : Z) (x : float) : bool :=
  match Prim2SF x with
  | S754_nan => false
  | S754_infinity s => negb s
  | S754_zero _ => z <? 0
  | S754_finite s m e =>
      let n := if s then Z.neg m else Z.pos m in
      if 0 <=? e then z <? n * 2 ^ e else z * 2 ^ (- e) <? n
  end.

Definition float_lt_int (x : float) (z : Z) : bool :=
  match Prim2SF x with
  | S754_nan => false
  | S754_infinity s => s
  | S754_zero _ => 0 <? z
  | S754_finite s m e =>
      let n := if s then Z.neg m else Z.pos m in
      if 0 <=? e then n * 2 ^ e <? z else n <? z * 2 ^ (- e)
  end.

Definition lt (a b : number) : bool :=
  match a, b with
  | NInt x, NInt y => x <? y
  | NFloat x, NFloat y => (x <? y)%float
  | NInt x, NFloat y => int_lt_float x y
  | NFloat x, NInt y => float_lt_int x y
  end.

(** [x / value] for a float [x]. *)
Definition truediv (x : float) (value : number) : result float :=
  match to_float value with
  | Err e => Err e
  | Ok v => if (v =? 0)%float then Err ZeroDivisionError else Ok (x / v)%float
  end.

(** [qty * value] for an [int] [qty]. *)
Definition int_mul (qty : Z) (value : number) : result number :=
  match value with
  | NInt v => Ok (NInt (qty * v))
  | NFloat v =>
      match float_of_int qty with
      | Err e => Err e
      | Ok q => Ok (NFloat (q * v)%float)
      end
  end.

(** [x - y] and [x + y] for a float [x]. *)
Definition float_sub (x : float) (y : number) : result float :=
  match to_float y with
  | Err e => Err e
  | Ok v => Ok (x - v)%float
  end.

Definition float_add (x : float) (y : number) : result float :=
  match to_float y with
  | Err e => Err e
  | Ok v => Ok (x + v)%float
  end.

(** The exact value of a float that has one. *)
Definition exact (x : float) : Q :=
  match Prim2SF x with
  | S754_finite s m e =>
      let v := (inject_Z (Z.pos m) * Qpower 2 e)%Q in
      if s then (- v)%Q else v
  | _ => 0%Q
  end.

Definition exact_number (x : number) : Q :=
  match x with
  | NInt z => inject_Z z
  | NFloat f => exact f
  end.

(** [sorted(coin_values.items(), key=lambda x: -x[1])]: stable, ascending in
    the key. *)
Fixpoint insert_coin (c : string * number) (l : list (string * number))
  : list (string * number) :=
  match l with
  | [] => [c]
  | d :: rest =>
      if lt (neg (snd d)) (neg (snd c)) then d :: insert_coin c rest
      else c :: d :: rest
  end.

Definition coins_sorted (coin_values : list (string * number))
  : list (string * number) :=
  fold_right insert_coin [] coin_values.

Record CoinState : Type := {
  remaining : float;
  output : list (string * Z)
}.

Inductive loop_ctl : Type :=
| Break
| Next (st : CoinState).

(** [coin_budget = base_budget * 0.20], with
    [base_budget = float(self.level_budgets[str(level)])]. *)
Definition coin_budget (level_budget : number) : result float :=
  match to_float level_budget with
  | Err e => Err e
  | Ok base_budget => Ok (base_budget * 0.20)%float
  end.

(** The exact value of a coin mixture: the sum of count times value. *)
Fixpoint mixture_value (coin_values : list (string * number))
    (coins : list (string * Z)) : Q :=
  match coins with
  | [] => 0%Q
  | (denom, count) :: rest =>
      (inject_Z count
       * exact_number (get_default (dict_get denom coin_values) (NFloat 0))
       + mixture_value coin_values rest)%Q
  end.

Section Generator.
Context {RS : RandomSource}.

Definition lift {A : Type} (x : result A) : M A := fun r => (x, r).

(** The body of the loop of [_generate_coins] for one denomination. *)
Definition _generate_coins_body (cv : string * number) (st : CoinState)
  : M loop_ctl :=
  let (coin, value) := cv in
  if (remaining st <=? 0)%float then ret Break
  else
    quotient <- lift (truediv (remaining st) value) ;;
    max_qty <- lift (int_of_float quotient) ;;
    if max_qty <=? 0 then ret (Next st)
    else
      qty <- randint 0 max_qty ;;
      if 0 <? qty then
        spent <- lift (int_mul qty value) ;;
        rest <- lift (float_sub (remaining st) spent) ;;
        ret (Next {| remaining := rest;
                     output := dict_set coin qty (output st) |})
      else ret (Next st).

Fixpoint _generate_coins_loop (sorted : list (string * number))
    (st : CoinState) : M CoinState :=
  match sorted with
  | [] => ret st
  | cv :: rest =>
      c <- _generate_coins_body cv st ;;
      match c with
      | Break => ret st
      | Next st' => _generate_coins_loop rest st'
      end
  end.

Definition _generate_coins (coin_values : list (string * number))
    (budget_gp : float) : M (list (string * Z)) :=
  st <- _generate_coins_loop (coins_sorted coin_values)
          {| remaining := budget_gp; output := [] |} ;;
  ret (output st).

End Generator.

(** The coins of [_calculate_parcel_value]: [total = 0.0] and, for each
    denomination, [total += value * int(count)]. *)
Fixpoint coins_total (coin_values : list (string * number))
    (coins : list (string * Z)) (total : float) : result float :=
  match coins with
  | [] => Ok total
  | (denom, count) :: rest =>
      match int_mul count
              (get_default (dict_get denom coin_values) (NFloat 0)) with
      | Err e => Err e
      | Ok v =>
          match float_add total v with
          | Err e => Err e
          | Ok total' => coins_total coin_values rest total'
          end
      end
  end.

(** A table with one denomination, and a level budget. *)
Definition copper_only : list (string * number) := [("cp", NFloat 0.01)].

Definition small_budget : number := NFloat 4.1.

Definition is_less (x y : float) : bool := (x <? y)%float.

End binary64.

(** * encountergen.py *)

Module encountergen.

(** ** The tables.  Each field of [Tables] holds the one key the code reads
    from the loaded file ([None]: the file or the key is absent). *)

Record TypeRow : Type := {
  row_min : option Z;
  row_max : option Z;
  row_type : option string
}.

Record TypeTable : Type := {
  tt_biomes : option (list string);
  tt_slots : option (list string);
  tt_die : option Z;
  tt_rows : option (list TypeRow)
}.

Record SlotDef : Type := {
  difficulty_delta : option Z
}.

Record Progression : Type := {
  prog_slots : option (list (string * SlotDef));
  default_order : option (list string)
}.

Record CombatTemplate : Type := {
  tpl_id : option json;
  tpl_biomes : option (list string);
  tpl_slots : option (list string);
  tpl_min_level : option Z;
  tpl_max_level : option Z;
  tpl_weight : option Q;
  tpl_factions : option (list string);
  tpl_enemy_group_id : option string;
  tpl_environment_tags : option (list string);
  tpl_tags : option (list string);
  tpl_loot_rolls : option Z;
  tpl_notes : option json
}.

Record CountCfg : Type := {
  count_min : option Z;
  count_max : option Z
}.

Record EnemyEntry : Type := {
  entry_monster_id : option string;
  entry_count : option CountCfg
}.

Record EnemyGroup : Type := {
  group_id : option string;
  group_faction : option json;
  group_enemies : option (list EnemyEntry)
}.

Record Monster : Type := {
  monster_id : option string;
  monster_name : option json;
  monster_cr : option json;
  monster_faction : option json;
  monster_tags : option json
}.

Record WeightModifiers : Type := {
  wm_biomes : option (list (string * Q));
  wm_slots : option (list (string * Q))
}.

Record Faction : Type := {
  faction_id : option string;
  weight_modifiers : option WeightModifiers
}.

Record EnvPreset : Type := {
  env_id : option string;
  env_description : option json;
  env_biomes : option (list string);
  env_tags : option (list string);
  env_mechanical_effects : option json
}.

Record NoncombatEntry : Type := {
  nc_id : option json;
  nc_biomes : option (list string);
  nc_slots : option (list string);
  nc_min_level : option Z;
  nc_max_level : option Z;
  nc_weight : option Q;
  nc_environment_preset_id : option string;
  nc_environment_tags : option (list string);
  nc_tags : option (list string);
  nc_award_loot : option bool;
  nc_loot_rolls : option Z;
  nc_notes : option json
}.

Record Tables : Type := {
  encounter_types : option (list TypeTable);          (* "tables" *)
  five_room_progression : Progression;
  combat_budgets : option (list (string * Q));        (* "budgets" *)
  encounter_templates : option (list CombatTemplate); (* "encounter_tables" *)
  enemy_groups : option (list EnemyGroup);            (* "groups" *)
  monsters : option (list Monster);                   (* "monsters" *)
  factions : option (list Faction);                   (* "factions" *)
  environment_presets : option (list EnvPreset);      (* "presets" *)
  puzzle_tables : option (list NoncombatEntry);       (* "entries" *)
  social_tables : option (list NoncombatEntry);       (* "entries" *)
  exploration_tables : option (list NoncombatEntry)   (* "entries" *)
}.

(** ** Utilities *)

Definition is_space (c : ascii) : bool :=
  let n := nat_of_ascii c in
  ((9 <=? n) && (n <=? 13) || (28 <=? n) && (n <=? 32))%nat.

Fixpoint lstrip (cs : list ascii) : list ascii :=
  match cs with
  | c :: rest => if is_space c then lstrip rest else cs
  | [] => []
  end.

Definition digit_val (c : ascii) : option Z :=
  let n := nat_of_ascii c in
  if ((48 <=? n) && (n <=? 57))%nat then Some (Z.of_nat n - 48) else None.

Fixpoint parse_digits (acc : Z) (after_digit : bool) (cs : list ascii)
  : option Z :=
  match cs with
  | [] => if after_digit then Some acc else None
  | c :: rest =>
      match digit_val c with
      | Some d => parse_digits (acc * 10 + d) true rest
      | None =>
          if Ascii.eqb c "_" && after_digit then parse_digits acc false rest
          else None
      end
  end.

(** [int(s)] on an ASCII string, base 10: surrounding white space, a sign,
    digits with single underscores between them.  [None] is a [ValueError].
    (Python also reads the decimal digits of other scripts.) *)
Definition int_of_str (s : string) : option Z :=
  let cs := rev (lstrip (rev (lstrip (list_ascii_of_string s)))) in
  match cs with
  | "-"%char :: ds => option_map Z.opp (parse_digits 0 false ds)
  | "+"%char :: ds => parse_digits 0 false ds
  | ds => parse_digits 0 false ds
  end.

(** [[int(k) for k in ...keys()]] inside [try]: one bad key empties the
    list. *)
Fixpoint int_keys (ks : list string) : option (list Z) :=
  match ks with
  | [] => Some []
  | k :: rest =>
      match int_of_str k, int_keys rest with
      | Some z, Some zs => Some (z :: zs)
      | _, _ => None
      end
  end.

Definition _clamp_level (level : Z) (budgets : option (list (string * Q)))
  : Z :=
  let keys := get_default (int_keys (dict_keys (get_default budgets []))) [] in
  match keys with
  | [] => Z.max 1 level
  | k :: ks =>
      let min_lvl := fold_left Z.min ks k in
      let max_lvl := fold_left Z.max ks k in
      if level <? min_lvl then min_lvl
      else if max_lvl <? level then max_lvl
      else level
  end.

Definition Qmax0 (w : Q) : Q := if Qle_bool 0 w then w else 0%Q.

Definition total_weight {A : Type} (items : list (A * Q)) : Q :=
  fold_left (fun t iw => (t + Qmax0 (snd iw))%Q) items 0%Q.

(** The scan of [_weighted_choice]; [None]: the loop ran to its end. *)
Fixpoint scan {A : Type} (r : Q) (acc : Q) (items : list (A * Q)) : option A :=
  match items with
  | [] => None
  | (item, weight) :: rest =>
      let acc' := (acc + Qmax0 weight)%Q in
      if Qle_bool r acc' then Some item else scan r acc' rest
  end.

Definition _index_by_id {A : Type} (key : A -> option string) (items : list A)
  : list (string * A) :=
  fold_left (fun out it =>
               match key it with
               | Some id_val => dict_set id_val it out
               | None => out
               end) items [].

(** The gates shared by the three candidate loops. *)
Definition gate_ok (req : string) (listed : option (list string)) : bool :=
  let l := or_list listed ["any"] in
  str_in "any" l || str_in req l.

Definition level_ok (level : Z) (lo hi : option Z) : bool :=
  (get_default lo 1 <=? level) && (level <=? get_default hi 99).

Definition combat_candidate (level : Z) (biome slot : string)
    (tpl : CombatTemplate) : bool :=
  gate_ok biome (tpl_biomes tpl) && gate_ok slot (tpl_slots tpl)
  && level_ok level (tpl_min_level tpl) (tpl_max_level tpl).

Definition noncombat_candidate (level : Z) (biome slot : string)
    (tpl : NoncombatEntry) : bool :=
  gate_ok biome (nc_biomes tpl) && gate_ok slot (nc_slots tpl)
  && level_ok level (nc_min_level tpl) (nc_max_level tpl).

(** The table a non-combat type draws from; [None]: no such type. *)
Definition noncombat_table (t : Tables) (enc_type : string)
  : option (option (list NoncombatEntry)) :=
  if String.eqb enc_type "puzzle" then Some (puzzle_tables t)
  else if String.eqb enc_type "social" then Some (social_tables t)
  else if String.eqb enc_type "exploration" then Some (exploration_tables t)
  else None.

(** The environment descriptor of an encounter. *)
Record Environment : Type := {
  preset_id : json;
  description : json;
  environment_tags : list string;
  mechanical_effects : json
}.

Definition neutral_environment : Environment :=
  {| preset_id := JNull; description := JStr "";
     environment_tags := []; mechanical_effects := JDict [] |}.

Definition environment_of (env : EnvPreset) : Environment :=
  {| preset_id := opt_json JStr (env_id env);
     description := get_default (env_description env) (JStr "");
     environment_tags := get_default (env_tags env) [];
     mechanical_effects := get_default (env_mechanical_effects env) (JDict []) |}.

Definition environment_json (e : Environment) : json :=
  JDict [("preset_id", preset_id e);
         ("description", description e);
         ("tags", json_strs (environment_tags e));
         ("mechanical_effects", mechanical_effects e)].

Definition encounter_json (difficulty : Z) (type slot biome : string)
    (enemies : list json) (environment : Environment) (tags : list string)
    (loot : json) (template_id noncombat_id notes : json) : json :=
  JDict [("difficulty", JInt difficulty);
         ("type", JStr type);
         ("slot", JStr slot);
         ("biome", JStr biome);
         ("enemies", JList enemies);
         ("environment", environment_json environment);
         ("tags", json_strs tags);
         ("loot", loot);
         ("meta", JDict [("template_id", template_id);
                         ("noncombat_id", noncombat_id);
                         ("notes", notes)])].

Definition _generate_empty_encounter (level : Z) (biome slot : string) : json :=
  encounter_json level "empty" slot biome [] neutral_environment [] JNull
    JNull JNull (JStr "").

Record EncounterGenerator : Type := {
  tables : Tables;
  seed : Z;
  loot_data : lootgen.LootData;      (* what loot_data_dir/loot_data_file hold *)
  _monster_index : list (string * Monster);
  _enemy_group_index : list (string * EnemyGroup);
  _faction_index : list (string * Faction);
  _env_index : list (string * EnvPreset)
}.

Section Generator.
Context {RS : RandomSource} {PY : Interpreter}.

Definition _weighted_choice {A : Type} (items : list (A * Q)) : M A :=
  let total := total_weight items in
  if Qle_bool total 0 then
    match items with
    | (item, _) :: _ => ret item
    | [] => raise IndexError
    end
  else
    u <- random ;;
    let r := (u * total)%Q in
    match scan r 0%Q items with
    | Some item => ret item
    | None =>
        match rev items with
        | (item, _) :: _ => ret item
        | [] => raise IndexError
        end
    end.

Definition __init__ (t : Tables) (seed_arg : option Z)
    (data : lootgen.LootData) : EncounterGenerator * Random :=
  let s := get_default seed_arg unseeded_randint in
  ({| tables := t;
      seed := s;
      loot_data := data;
      _monster_index := _index_by_id monster_id (get_default (monsters t) []);
      _enemy_group_index :=
        _index_by_id group_id (get_default (enemy_groups t) []);
      _faction_index := _index_by_id faction_id (get_default (factions t) []);
      _env_index :=
        _index_by_id env_id (get_default (environment_presets t) []) |},
   Random_seed s).

(** *** Encounter type selection *)

Fixpoint find_row (roll : Z) (rows : list TypeRow) : string :=
  match rows with
  | [] => "combat"
  | row :: rest =>
      let rmin := get_default (row_min row) (get_default (row_max row) 1) in
      let rmax := get_default (row_max row) rmin in
      if (rmin <=? roll) && (roll <=? rmax)
      then get_default (row_type row) "combat"
      else find_row roll rest
  end.

Definition _choose_encounter_type (self : EncounterGenerator)
    (slot biome : string) : M string :=
  match or_list (encounter_types (tables self)) [] with
  | [] => ret "combat"
  | tbls =>
      let candidates :=
        filter (fun t => gate_ok biome (tt_biomes t)
                         && gate_ok slot (tt_slots t)) tbls in
      let candidates :=
        match candidates with [] => tbls | _ => candidates end in
      table <- choice candidates ;;
      let die := get_default (tt_die table) 20 in
      roll <- randint 1 (Z.max 1 die) ;;
      ret (find_row roll (or_list (tt_rows table) []))
  end.

(** *** Combat generation *)

Definition faction_step (self : EncounterGenerator) (slot biome : string)
    (weight : Q) (fid : string) : Q :=
  match dict_get fid (_faction_index self) with
  | None => weight
  | Some f =>
      let biome_mods :=
        match weight_modifiers f with
        | Some m => get_default (wm_biomes m) []
        | None => []
        end in
      let slot_mods :=
        match weight_modifiers f with
        | Some m => get_default (wm_slots m) []
        | None => []
        end in
      let weight :=
        match dict_get biome biome_mods with
        | Some x => (weight * x)%Q
        | None => weight
        end in
      match dict_get slot slot_mods with
      | Some x => (weight * x)%Q
      | None => weight
      end
  end.

Definition _compute_faction_weight (self : EncounterGenerator)
    (template : CombatTemplate) (slot biome : string) : Q :=
  match or_list (tpl_factions template) [], _faction_index self with
  | [], _ => 1%Q
  | _, [] => 1%Q
  | fs, _ =>
      let weight := fold_left (faction_step self slot biome) fs 1%Q in
      if Qltb 0 weight then weight else 1%Q
  end.

Definition enemy_json (group : EnemyGroup) (mid : option string)
    (monster : option Monster) (count : Z) : json :=
  let field {A : Type} (f : Monster -> option A) : option A :=
    match monster with Some m => f m | None => None end in
  JDict [("monster_id", opt_json JStr mid);
         ("name", get_default (field monster_name) (opt_json JStr mid));
         ("count", JInt count);
         ("cr", opt_json (fun j => j) (field monster_cr));
         ("faction", get_default (field monster_faction)
                       (opt_json (fun j => j) (group_faction group)));
         ("tags", get_default (field monster_tags) (JList []))].

Fixpoint enemies_loop (self : EncounterGenerator) (group : EnemyGroup)
    (entries : list EnemyEntry) (out : list json) : M (list json) :=
  match entries with
  | [] => ret out
  | entry :: rest =>
      let mid := entry_monster_id entry in
      let cmin :=
        get_default
          (match entry_count entry with Some c => count_min c | None => None end)
          1 in
      let cmax :=
        get_default
          (match entry_count entry with Some c => count_max c | None => None end)
          cmin in
      let cmax := if cmax <? cmin then cmin else cmax in
      count <- randint cmin cmax ;;
      if count <=? 0 then enemies_loop self group rest out
      else
        let monster :=
          match mid with
          | Some m => dict_get m (_monster_index self)
          | None => None
          end in
        enemies_loop self group rest
          (out ++ [enemy_json group mid monster count])
  end.

Definition _instantiate_enemy_group (self : EncounterGenerator)
    (gid : option string) (room_level : Z) : M (list json) :=
  match gid with
  | None => raise MissingEnemyGroupId
  | Some EmptyString => raise MissingEnemyGroupId
  | Some g =>
      match dict_get g (_enemy_group_index self) with
      | None => raise (EnemyGroupNotFound g)
      | Some group =>
          enemies_loop self group (or_list (group_enemies group) []) []
      end
  end.

(** *** Environment selection *)

Definition env_candidate (biome : string) (tags : list string)
    (env : EnvPreset) : bool :=
  let etags := or_list (env_tags env) [] in
  gate_ok biome (env_biomes env)
  && match tags with
     | [] => true
     | _ => existsb (fun t => str_in t etags) tags
     end.

Definition _select_environment (self : EncounterGenerator) (biome : string)
    (tags : list string) (specific_id : option string) : M Environment :=
  match or_list (environment_presets (tables self)) [] with
  | [] => ret neutral_environment
  | presets =>
      let specific :=
        match specific_id with
        | None => None
        | Some EmptyString => None
        | Some sid => dict_get sid (_env_index self)
        end in
      match specific with
      | Some env => ret (environment_of env)
      | None =>
          let candidates := filter (env_candidate biome tags) presets in
          let candidates :=
            match candidates with [] => presets | _ => candidates end in
          env <- choice candidates ;;
          ret (environment_of env)
      end
  end.

(** [generate_loot(level=..., rolls=..., seed=self.rng.randint(0, 999_999),
    ...)]: the loot generator runs on a stream of its own, on the loot data
    the file of the generator holds ([loot_data]). *)
Definition sub_loot (self : EncounterGenerator) (level rolls : Z) : M json :=
  sub_seed <- randint 0 999999 ;;
  match lootgen.generate_loot (loot_data self) level rolls (Some sub_seed) with
  | Ok loot => ret loot
  | Err e => raise e
  end.

Definition _generate_combat_encounter (self : EncounterGenerator)
    (level : Z) (biome slot : string) : M json :=
  match or_list (encounter_templates (tables self)) [] with
  | [] => raise NoTemplatesDefined
  | templates =>
      match filter (combat_candidate level biome slot) templates with
      | [] => raise (NoTemplatesMatch level biome slot)
      | candidates =>
          let weighted :=
            map (fun tpl =>
                   let base_weight := get_default (tpl_weight tpl) 1%Q in
                   let weight :=
                     (base_weight
                      * _compute_faction_weight self tpl slot biome)%Q in
                   (tpl, if Qltb 0 weight then weight else 0%Q))
                candidates in
          template <- _weighted_choice weighted ;;
          enemies <- _instantiate_enemy_group self
                       (tpl_enemy_group_id template) level ;;
          env <- _select_environment self biome
                   (or_list (tpl_environment_tags template) []) None ;;
          let tags :=
            set_order (or_list (tpl_tags template) []
                       ++ environment_tags env) in
          loot <- sub_loot self level
                    (get_default (tpl_loot_rolls template) 1) ;;
          ret (encounter_json level "combat" slot biome enemies env tags loot
                 (opt_json (fun j => j) (tpl_id template)) JNull
                 (get_default (tpl_notes template) (JStr "")))
      end
  end.

(** *** Non-combat generation *)

Definition _generate_noncombat_encounter (self : EncounterGenerator)
    (level : Z) (biome slot enc_type : string) : M json :=
  match noncombat_table (tables self) enc_type with
  | None => ret (_generate_empty_encounter level biome slot)
  | Some table =>
      match or_list table [] with
      | [] => ret (_generate_empty_encounter level biome slot)
      | entries =>
          match filter (noncombat_candidate level biome slot) entries with
          | [] => ret (_generate_empty_encounter level biome slot)
          | candidates =>
              let weighted :=
                map (fun tpl => (tpl, get_default (nc_weight tpl) 1%Q))
                    candidates in
              template <- _weighted_choice weighted ;;
              env <- _select_environment self biome
                       (or_list (nc_environment_tags template) [])
                       (nc_environment_preset_id template) ;;
              let tags :=
                set_order (or_list (nc_tags template) []
                           ++ environment_tags env) in
              loot <-
                (if get_default (nc_award_loot template) false
                 then sub_loot self level
                        (get_default (nc_loot_rolls template) 1)
                 else ret JNull) ;;
              ret (encounter_json level enc_type slot biome [] env tags loot
                     JNull (opt_json (fun j => j) (nc_id template))
                     (get_default (nc_notes template) (JStr "")))
          end
      end
  end.

(** *** Dispatch and orchestration *)

Definition _generate_encounter_internal (self : EncounterGenerator)
    (level : Z) (biome slot : string) : M json :=
  enc_type <- _choose_encounter_type self slot biome ;;
  if String.eqb enc_type "combat" then
    _generate_combat_encounter self level biome slot
  else if str_in enc_type ["puzzle"; "social"; "exploration"] then
    _generate_noncombat_encounter self level biome slot enc_type
  else ret (_generate_empty_encounter level biome slot).

Definition generate_single_encounter (self : EncounterGenerator)
    (level : Z) (biome slot : string) : M json :=
  encounter <- _generate_encounter_internal self level biome slot ;;
  ret (JDict [("schema", JStr "encounter.v1");
              ("seed", JInt (seed self));
              ("encounter", encounter)]).

Definition slot_defs (self : EncounterGenerator) : list (string * SlotDef) :=
  get_default (prog_slots (five_room_progression (tables self))) [].

(** [room_level] of the loop body. *)
Definition room_level (self : EncounterGenerator) (base_level : Z)
    (slot : string) : Z :=
  let delta :=
    match dict_get slot (slot_defs self) with
    | Some cfg => get_default (difficulty_delta cfg) 0
    | None => 0
    end in
  _clamp_level (base_level + delta) (combat_budgets (tables self)).

(** [for idx, slot in enumerate(slots, start=1): ... rooms.append(...)]. *)
Fixpoint rooms_loop (self : EncounterGenerator) (base_level : Z)
    (biome : string) (idx : Z) (slots : list string) (rooms : list json)
  : M (list json) :=
  match slots with
  | [] => ret rooms
  | slot :: rest =>
      encounter <- _generate_encounter_internal self
                     (room_level self base_level slot) biome slot ;;
      rooms_loop self base_level biome (idx + 1) rest
        (rooms ++ [JDict [("slot", JStr slot);
                          ("room_index", JInt idx);
                          ("encounter", encounter)]])
  end.

Definition generate_five_room_dungeon (self : EncounterGenerator)
    (base_level : Z) (biome : string) (slots : option (list string))
  : M json :=
  let slots :=
    match slots with
    | Some l => l
    | None =>
        match default_order (five_room_progression (tables self)) with
        | Some (s :: l) => s :: l
        | _ => dict_keys (slot_defs self)
        end
    end in
  rooms <- rooms_loop self base_level biome 1 slots [] ;;
  ret (JDict [("schema", JStr "dungeon.5room.v1");
              ("seed", JInt (seed self));
              ("biome", JStr biome);
              ("base_level", JInt base_level);
              ("rooms", JList rooms)]).

End Generator.

(** ** The module-level entry points, on loaded tables *)

Module api.
Section Api.
Context {RS : RandomSource} {PY : Interpreter}.

Definition generate_five_room_dungeon (t : Tables)
    (data : lootgen.LootData) (base_level : Z) (biome : string)
    (seed_arg : option Z) : result json :=
  let (gen, rng) := __init__ t seed_arg data in
  fst (encountergen.generate_five_room_dungeon gen base_level biome None rng).

Definition generate_single_encounter (t : Tables)
    (data : lootgen.LootData) (level : Z) (biome slot : string)
    (seed_arg : option Z) : result json :=
  let (gen, rng) := __init__ t seed_arg data in
  fst (encountergen.generate_single_encounter gen level biome slot rng).

End Api.
End api.

End encountergen.

(** * A concrete stream and two interpreters, to run the generators *)

Module lcg.

Definition modulus : Z := 2 ^ 32.

Definition next (s : Z) : Z := (s * 1664525 + 1013904223) mod modulus.

Definition lcg_random (s : Z) : Q * Z :=
  (Qmake (next s) (Z.to_pos modulus), next s).

Definition lcg_randbelow (n : Z) (s : Z) : Z * Z :=
  ((next s / 65536) mod n, next s).

Lemma next_range (s : Z) : 0 <= next s < modulus.
Proof. unfold next. apply Z.mod_pos_bound. reflexivity. Qed.

Lemma lcg_random_range (s : Z) :
  (0 <= fst (lcg_random s))%Q /\ (fst (lcg_random s) < 1)%Q.
Proof.
  pose proof (next_range s) as H. unfold modulus in H.
  unfold lcg_random, Qle, Qlt, modulus. simpl. lia.
Qed.

Lemma lcg_randbelow_range (n s : Z) :
  0 < n -> 0 <= fst (lcg_randbelow n s) < n.
Proof. intros Hn. simpl. apply Z.mod_pos_bound. exact Hn. Qed.

Definition source : RandomSource :=
  {| Random := Z;
     Random_seed := fun seed => seed mod modulus;
     rng_random := lcg_random;
     rng_randbelow := lcg_randbelow;
     rng_random_range := lcg_random_range;
     rng_randbelow_range := lcg_randbelow_range |}.

End lcg.

Module interpreters.

Lemma rev_nodup_perm (xs : list string) :
  Permutation (rev (nodup string_dec xs)) (nodup string_dec xs).
Proof. apply Permutation_sym, Permutation_rev. Qed.

(** Two processes whose string hashes order a set in opposite ways. *)
Definition process_a : Interpreter :=
  {| set_order := nodup string_dec;
     set_order_perm := fun xs => Permutation_refl _;
     unseeded_randint := 271828 |}.

Definition process_b : Interpreter :=
  {| set_order := fun xs => rev (nodup string_dec xs);
     set_order_perm := rev_nodup_perm;
     unseeded_randint := 314159 |}.

End interpreters.

(** * Sample tables *)

Module samples.
Import lootgen encountergen.

Definition item (id name : string) (gp : Q) (weight : option Q)
    (lo hi : option Z) : LootItem :=
  {| item_id := Some (JStr id); item_name := Some (JStr name);
     item_rarity := None; item_gp_value := Some gp; item_weight := weight;
     item_min_level := lo; item_max_level := hi |}.

Definition coin_table : list (string * Q) :=
  [("cp", 1 # 100); ("gp", 1%Q); ("sp", 1 # 10); ("pp", 10%Q)].

Definition loot_tables : LootData :=
  {| coin_values_gp := coin_table;
     level_budgets_gp :=
       [("4", 500%Q); ("5", 750%Q); ("6", 1000%Q); ("7", 1500%Q)];
     magic_items := [item "wand" "Wand of Sparks" 250 (Some 3%Q) (Some 5) (Some 10);
                     item "ring" "Ring of Warmth" 400 None None None];
     mundane_goods := [item "rope" "Silk Rope" 1 None None None;
                       item "gem" "Garnet" 50 (Some 2%Q) None None] |}.

(** A table whose only mundane item has no ["id"]. *)
Definition nameless_goods : LootData :=
  {| coin_values_gp := coin_table;
     level_budgets_gp := [("5", 750%Q)];
     magic_items := [];
     mundane_goods :=
       [{| item_id := None; item_name := Some (JStr "Silk Rope");
           item_rarity := None; item_gp_value := Some 1%Q;
           item_weight := None; item_min_level := None;
           item_max_level := None |}] |}.

(** Two entries that both carry weight 0. *)
Definition weightless (id : string) : LootItem :=
  item id id 1 (Some 0%Q) None None.

Definition row (lo hi : Z) (type : string) : TypeRow :=
  {| row_min := Some lo; row_max := Some hi; row_type := Some type |}.

Definition type_table : TypeTable :=
  {| tt_biomes := None; tt_slots := None; tt_die := Some 20;
     tt_rows := Some [row 1 12 "combat"; row 13 16 "puzzle";
                      row 17 18 "social"; row 19 20 "rest"] |}.

Definition goblins_ambush : CombatTemplate :=
  {| tpl_id := Some (JStr "goblins_ambush");
     tpl_biomes := Some ["dungeon"]; tpl_slots := None;
     tpl_min_level := Some 1; tpl_max_level := Some 10;
     tpl_weight := Some 5%Q; tpl_factions := None;
     tpl_enemy_group_id := Some "goblin_pack";
     tpl_environment_tags := None;
     tpl_tags := Some ["ambush"; "raiders"];
     tpl_loot_rolls := None; tpl_notes := None |}.

Definition goblin_pack : EnemyGroup :=
  {| group_id := Some "goblin_pack";
     group_faction := Some (JStr "goblin_tribe");
     group_enemies :=
       Some [{| entry_monster_id := Some "goblin";
                entry_count := Some {| count_min := Some 2;
                                       count_max := Some 4 |} |}] |}.

Definition goblin : Monster :=
  {| monster_id := Some "goblin"; monster_name := Some (JStr "Goblin");
     monster_cr := Some (JFloat (1 # 4)); monster_faction := None;
     monster_tags := Some (JList [JStr "humanoid"]) |}.

Definition locked_door : NoncombatEntry :=
  {| nc_id := Some (JStr "puzzle_locked_door");
     nc_biomes := None; nc_slots := None;
     nc_min_level := Some 5; nc_max_level := Some 10;
     nc_weight := None; nc_environment_preset_id := None;
     nc_environment_tags := None; nc_tags := Some ["riddle"];
     nc_award_loot := Some true; nc_loot_rolls := None; nc_notes := None |}.

Definition progression : Progression :=
  {| prog_slots :=
       Some [("entrance", {| difficulty_delta := Some 0 |});
             ("puzzle", {| difficulty_delta := None |});
             ("setback", {| difficulty_delta := Some 1 |});
             ("climax", {| difficulty_delta := Some 2 |});
             ("aftermath", {| difficulty_delta := Some (-1) |})];
     default_order :=
       Some ["entrance"; "puzzle"; "setback"; "climax"; "aftermath"] |}.

Definition dungeon_tables : Tables :=
  {| encounter_types := Some [type_table];
     five_room_progression := progression;
     combat_budgets := Some [("1", 50%Q); ("10", 5000%Q)];
     encounter_templates := Some [goblins_ambush];
     enemy_groups := Some [goblin_pack];
     monsters := Some [goblin];
     factions := None;
     environment_presets := None;
     puzzle_tables := Some [locked_door];
     social_tables := None;
     exploration_tables := None |}.

(** The same tables with no encounter-type table: every room is combat. *)
Definition combat_only : Tables :=
  {| encounter_types := None;
     five_room_progression := progression;
     combat_budgets := Some [("1", 50%Q); ("10", 5000%Q)];
     encounter_templates := Some [goblins_ambush];
     enemy_groups := Some [goblin_pack];
     monsters := Some [goblin];
     factions := None;
     environment_presets := None;
     puzzle_tables := Some [locked_door];
     social_tables := None;
     exploration_tables := None |}.

End samples.

(** * Predicates and reference definitions of the statements *)

Import lootgen encountergen.

(** ** Which exceptions a computation can raise *)

(** [m] never raises the unknown-level error of [generate]. *)
Definition no_level_error {RS : RandomSource} {A : Type} (m : M A) : Prop :=
  forall r e r', m r = (Err e, r') -> forall l, e <> LevelNotFound l.

(** [m] raises no error outside [P]. *)
Definition raises_only {RS : RandomSource} {A : Type} (P : PyError -> Prop)
    (m : M A) : Prop :=
  forall r e r', m r = (Err e, r') -> P e.

(** ** The shape of an encounter record *)

Definition encounter_keys : list string :=
  ["difficulty"; "type"; "slot"; "biome"; "enemies"; "environment"; "tags";
   "loot"; "meta"].

Definition meta_keys : list string := ["template_id"; "noncombat_id"; "notes"].

Definition enemy_count_ok (enemy : json) : Prop :=
  exists c, json_get "count" enemy = Some (JInt c) /\ 1 <= c.

Definition encounter_ok (enc : json) : Prop :=
  json_keys enc = encounter_keys
  /\ (exists meta, json_get "meta" enc = Some meta /\ json_keys meta = meta_keys)
  /\ (exists enemies,
         json_get "enemies" enc = Some (JList enemies)
         /\ (json_get "type" enc <> Some (JStr "combat") -> enemies = [])
         /\ Forall enemy_count_ok enemies).

(** ** The optional fields of a loot entry *)

(** An entry with its optional fields written out: weight 1.0, rarity
    "common", min_level 1 and max_level 20 where the entry has none. *)
Definition with_defaults (it : LootItem) : LootItem :=
  {| item_id := item_id it;
     item_name := item_name it;
     item_rarity := Some (get_default (item_rarity it) (JStr "common"));
     item_gp_value := item_gp_value it;
     item_weight := Some (get_default (item_weight it) 1%Q);
     item_min_level := Some (get_default (item_min_level it) 1);
     item_max_level := Some (get_default (item_max_level it) 20) |}.

Definition data_with_defaults (data : LootData) : LootData :=
  {| coin_values_gp := coin_values_gp data;
     level_budgets_gp := level_budgets_gp data;
     magic_items := map with_defaults (magic_items data);
     mundane_goods := map with_defaults (mundane_goods data) |}.

(** The entry has no field [key], for the three fields a parcel reads by
    subscript. *)
Definition lacks (key : string) (it : LootItem) : Prop :=
  (key = "id" /\ item_id it = None)
  \/ (key = "name" /\ item_name it = None)
  \/ (key = "gp_value" /\ item_gp_value it = None).

Definition weight_positive (it : LootItem) : Prop :=
  forall w, item_weight it = Some w -> (0 < w)%Q.

(** ** Dungeon generation read as sequential single-encounter calls *)

(** The difficulty delta the progression table configures for [slot]; 0 for
    a slot, or a delta, it does not configure. *)
Definition configured_delta (self : EncounterGenerator) (slot : string) : Z :=
  match dict_get slot
          (get_default (prog_slots (five_room_progression (tables self))) [])
  with
  | Some cfg => get_default (difficulty_delta cfg) 0
  | None => 0
  end.








(** ** Sample runs *)

Definition sample_generator : EncounterGenerator :=
  fst (__init__ (RS := lcg.source) (PY := interpreters.process_a)
         samples.dungeon_tables (Some 1234) samples.loot_tables).

Definition sample_run : result json * Z :=
  _generate_encounter_internal (RS := lcg.source)
    (PY := interpreters.process_a) sample_generator 5 "dungeon" "entrance" 1234.

Definition sample_encounter : json :=
  match fst sample_run with
  | Ok enc => enc
  | Err _ => JNull
  end.

Definition sample_loot_generator : LootGenerator :=
  {| lootgen.loot_data := samples.loot_tables; lootgen.seed := 1001 |}.

(** * Properties *)

(** ** The monad *)

Lemma bind_ok {RS : RandomSource} {A B : Type} (m : M A) (f : A -> M B)
    (r r' : Random) (a : A) :
  m r = (Ok a, r') -> bind m f r = f a r'.
Proof. intros H. unfold bind. rewrite H. reflexivity. Qed.

Lemma bind_err {RS : RandomSource} {A B : Type} (m : M A) (f : A -> M B)
    (r r' : Random) (e : PyError) :
  m r = (Err e, r') -> bind m f r = (Err e, r').
Proof. intros H. unfold bind. rewrite H. reflexivity. Qed.

Lemma bind_inv_ok {RS : RandomSource} {A B : Type} (m : M A) (f : A -> M B)
    (r r' : Random) (b : B) :
  bind m f r = (Ok b, r') ->
  exists a r1, m r = (Ok a, r1) /\ f a r1 = (Ok b, r').
Proof.
  unfold bind. destruct (m r) as [[a | e] r1]; intros H.
  - exists a, r1. split; [reflexivity | exact H].
  - discriminate H.
Qed.

Lemma bind_inv_err {RS : RandomSource} {A B : Type} (m : M A) (f : A -> M B)
    (r r' : Random) (e : PyError) :
  bind m f r = (Err e, r') ->
  m r = (Err e, r') \/ exists a r1, m r = (Ok a, r1) /\ f a r1 = (Err e, r').
Proof.
  unfold bind. destruct (m r) as [[a | e1] r1]; intros H.
  - right. exists a, r1. split; [reflexivity | exact H].
  - left. inversion H; subst. reflexivity.
Qed.

Lemma random_ok {RS : RandomSource} (r : Random) :
  random r = (Ok (fst (rng_random r)), snd (rng_random r)).
Proof. unfold random. destruct (rng_random r). reflexivity. Qed.

Lemma randint_ok {RS : RandomSource} (a b : Z) (r : Random) :
  a <= b ->
  exists k r', randint a b r = (Ok k, r') /\ a <= k <= b.
Proof.
  intros Hab. unfold randint.
  destruct (b <? a) eqn:E; [apply Z.ltb_lt in E; lia |].
  pose proof (rng_randbelow_range (b - a + 1) r ltac:(lia)) as Hk.
  unfold bind, _randbelow, ret.
  destruct (rng_randbelow (b - a + 1) r) as [k r']. simpl in Hk.
  exists (a + k), r'. split; [reflexivity | lia].
Qed.

(** ** The weighted selectors *)

Lemma encounter_choice_fallback {RS : RandomSource} {A : Type}
    (item : A) (w : Q) (rest : list (A * Q)) (r : Random) :
  (total_weight ((item, w) :: rest) <= 0)%Q ->
  encountergen._weighted_choice ((item, w) :: rest) r = (Ok item, r).
Proof.
  intros H. apply Qle_bool_iff in H.
  unfold encountergen._weighted_choice. rewrite H. reflexivity.
Qed.

Lemma last_accumulate_zero (ws : list Q) :
  Forall (fun w => w = 0%Q) ws ->
  last (accumulate_from 0%Q ws) 0%Q = 0%Q.
Proof.
  induction 1 as [| w ws Hw _ IH]; [reflexivity |].
  subst w. cbn [accumulate_from].
  change (0 + 0)%Q with 0%Q.
  destruct ws as [| w' ws']; [reflexivity |].
  cbn [accumulate_from last] in *. exact IH.
Qed.

Lemma loot_choice_rejects_zero_weights {RS : RandomSource}
    (it : LootItem) (rest : list LootItem) (r : Random) :
  Forall (fun x => item_weight x = Some 0%Q) (it :: rest) ->
  lootgen._weighted_choice (it :: rest) r = (Err ChoicesTotalNotPositive, r).
Proof.
  intros H. inversion H as [| x l Hit Hrest]; subst.
  unfold lootgen._weighted_choice, choices.
  cbn [map accumulate]. rewrite Hit. cbn [get_default].
  assert (Hz : Forall (fun w => w = 0%Q)
                 (map (fun x => get_default (item_weight x) 1%Q) rest)).
  { clear -Hrest. induction Hrest as [| y l Hy _ IH]; constructor.
    - rewrite Hy. reflexivity.
    - exact IH. }
  pose proof (last_accumulate_zero _ Hz) as Hl.
  destruct (map (fun x => get_default (item_weight x) 1%Q) rest) as [| w ws] eqn:E.
  - reflexivity.
  - cbn [last accumulate_from] in *. rewrite Hl. reflexivity.
Qed.

(** C2.  On a pool of two candidates that both weigh 0 the selector of
    encountergen returns the first candidate and leaves the stream where it
    was; the selector of lootgen passes the same weights to [random.choices],
    which raises "Total of weights must be greater than zero" instead of
    returning the first candidate. *)
Theorem zero_weight_pool_selectors (RS : RandomSource) (r : Random) :
  encountergen._weighted_choice
    [(samples.weightless "a", 0%Q); (samples.weightless "b", 0%Q)] r
  = (Ok (samples.weightless "a"), r)
  /\ lootgen._weighted_choice
       [samples.weightless "a"; samples.weightless "b"] r
     = (Err ChoicesTotalNotPositive, r).
Proof.
  split.
  - apply encounter_choice_fallback. vm_compute. discriminate.
  - apply loot_choice_rejects_zero_weights. repeat constructor.
Qed.

(** ** Combat generation without candidates *)

(** C5.  When the biome, slot and level gates leave no combat template,
    [_generate_combat_encounter] raises one of its two "No combat encounter
    templates ..." errors, without drawing from the stream; it does not return
    an encounter. *)
Theorem combat_without_candidates_raises (RS : RandomSource) (PY : Interpreter)
    (self : EncounterGenerator) (level : Z) (biome slot : string) (r : Random) :
  filter (combat_candidate level biome slot)
         (or_list (encounter_templates (tables self)) []) = [] ->
  exists e,
    _generate_combat_encounter self level biome slot r = (Err e, r)
    /\ (e = NoTemplatesDefined \/ e = NoTemplatesMatch level biome slot).
Proof.
  intros H. unfold _generate_combat_encounter.
  destruct (or_list (encounter_templates (tables self)) []) as [| t ts].
  - exists NoTemplatesDefined. split; [reflexivity | left; reflexivity].
  - rewrite H. exists (NoTemplatesMatch level biome slot).
    split; [reflexivity | right; reflexivity].
Qed.

Lemma combat_without_candidates_raises_witness :
  exists e,
    _generate_combat_encounter (RS := lcg.source) (PY := interpreters.process_a)
      (fst (__init__ (RS := lcg.source) (PY := interpreters.process_a)
              samples.dungeon_tables (Some 1234) samples.loot_tables))
      11 "dungeon" "climax" 7
    = (Err e, 7)
    /\ (e = NoTemplatesDefined \/ e = NoTemplatesMatch 11 "dungeon" "climax").
Proof.
  apply (combat_without_candidates_raises lcg.source interpreters.process_a).
  reflexivity.
Defined.

(** ** Level gates *)

Lemma level_ok_iff (level : Z) (lo hi : option Z) :
  level_ok level lo hi = true
  <-> get_default lo 1 <= level <= get_default hi 99.
Proof.
  unfold level_ok. rewrite andb_true_iff, !Z.leb_le. reflexivity.
Qed.

Lemma magic_level_ok_iff (level : Z) (it : LootItem) :
  magic_level_ok level it = true
  <-> get_default (item_min_level it) 1 <= level
      <= get_default (item_max_level it) 20.
Proof.
  unfold magic_level_ok. rewrite andb_true_iff, !Z.leb_le. reflexivity.
Qed.

(** C6, as stated, fails for magic items: an item without [max_level] is
    dropped at level 21 although 1 <= 21 <= 99. *)
Lemma magic_item_default_max_level_counterexample :
  ~ (In no_item (_filter_magic_by_level [no_item] 21)
     <-> get_default (item_min_level no_item) 1 <= 21
         <= get_default (item_max_level no_item) 99).
Proof.
  intros [_ H]. simpl in H. apply H. lia.
Qed.

(** C6, amended.  A magic item is kept iff [min_level <= level <= max_level]
    with defaults 1 and 20; a combat or non-combat template is kept iff its
    biome and slot gates pass and [min_level <= level <= max_level] with
    defaults 1 and 99. *)
Theorem level_gates (level : Z) (biome slot : string) :
  (forall (items : list LootItem) (it : LootItem),
      In it (_filter_magic_by_level items level)
      <-> In it items
          /\ get_default (item_min_level it) 1 <= level
             <= get_default (item_max_level it) 20)
  /\ (forall (templates : list CombatTemplate) (tpl : CombatTemplate),
         In tpl (filter (combat_candidate level biome slot) templates)
         <-> In tpl templates
             /\ gate_ok biome (tpl_biomes tpl) = true
             /\ gate_ok slot (tpl_slots tpl) = true
             /\ get_default (tpl_min_level tpl) 1 <= level
                <= get_default (tpl_max_level tpl) 99)
  /\ (forall (entries : list NoncombatEntry) (tpl : NoncombatEntry),
         In tpl (filter (noncombat_candidate level biome slot) entries)
         <-> In tpl entries
             /\ gate_ok biome (nc_biomes tpl) = true
             /\ gate_ok slot (nc_slots tpl) = true
             /\ get_default (nc_min_level tpl) 1 <= level
                <= get_default (nc_max_level tpl) 99).
Proof.
  repeat split; intros.
  - apply filter_In in H. tauto.
  - apply filter_In in H. apply magic_level_ok_iff. tauto.
  - apply filter_In in H. apply magic_level_ok_iff. tauto.
  - apply filter_In. rewrite magic_level_ok_iff. tauto.
  - apply filter_In in H. tauto.
  - apply filter_In in H. destruct H as [_ H].
    unfold combat_candidate in H. rewrite !andb_true_iff in H. tauto.
  - apply filter_In in H. destruct H as [_ H].
    unfold combat_candidate in H. rewrite !andb_true_iff in H. tauto.
  - apply filter_In in H. destruct H as [_ H].
    unfold combat_candidate in H. rewrite !andb_true_iff, level_ok_iff in H. tauto.
  - apply filter_In in H. destruct H as [_ H].
    unfold combat_candidate in H. rewrite !andb_true_iff, level_ok_iff in H. tauto.
  - apply filter_In. unfold combat_candidate.
    rewrite !andb_true_iff, level_ok_iff. tauto.
  - apply filter_In in H. tauto.
  - apply filter_In in H. destruct H as [_ H].
    unfold noncombat_candidate in H. rewrite !andb_true_iff in H. tauto.
  - apply filter_In in H. destruct H as [_ H].
    unfold noncombat_candidate in H. rewrite !andb_true_iff in H. tauto.
  - apply filter_In in H. destruct H as [_ H].
    unfold noncombat_candidate in H.
    rewrite !andb_true_iff, level_ok_iff in H. tauto.
  - apply filter_In in H. destruct H as [_ H].
    unfold noncombat_candidate in H.
    rewrite !andb_true_iff, level_ok_iff in H. tauto.
  - apply filter_In. unfold noncombat_candidate.
    rewrite !andb_true_iff, level_ok_iff. tauto.
Qed.

(** The gates of the specification's example: [min_level=5, max_level=10] at
    levels 4, 5, 7, 10 and 11, for a magic item, a combat template and a
    non-combat entry; and an entry without [max_level] at the two ends. *)
Example gate_5_10_magic_item :
  map (fun level =>
         _filter_magic_by_level
           [samples.item "wand" "Wand of Sparks" 250 None (Some 5) (Some 10)]
           level)
      [4; 5; 7; 10; 11]
  = [[]; [samples.item "wand" "Wand of Sparks" 250 None (Some 5) (Some 10)];
     [samples.item "wand" "Wand of Sparks" 250 None (Some 5) (Some 10)];
     [samples.item "wand" "Wand of Sparks" 250 None (Some 5) (Some 10)]; []].
Proof. reflexivity. Qed.

Example gate_5_10_noncombat_entry :
  map (fun level =>
         filter (noncombat_candidate level "dungeon" "puzzle")
                [samples.locked_door])
      [4; 5; 7; 10; 11]
  = [[]; [samples.locked_door]; [samples.locked_door]; [samples.locked_door];
     []].
Proof. reflexivity. Qed.

Example gate_1_10_combat_template :
  map (fun level =>
         filter (combat_candidate level "dungeon" "climax")
                [samples.goblins_ambush])
      [0; 1; 10; 11]
  = [[]; [samples.goblins_ambush]; [samples.goblins_ambush]; []].
Proof. reflexivity. Qed.

Example no_max_level_ends :
  map (fun level => level_ok level None None) [0; 1; 20; 21; 99; 100]
  = [false; true; true; true; true; false]
  /\ map (fun level => magic_level_ok level no_item) [0; 1; 20; 21; 99; 100]
     = [false; true; true; false; false; false].
Proof. split; reflexivity. Qed.

(** ** Non-combat generation without candidates *)

(** C9.  For a non-combat type whose table is absent, has no entries, or has
    no entry passing the biome, slot and level gates,
    [_generate_noncombat_encounter] returns, without raising and without
    drawing, the fixed empty record: type "empty", no enemies, no tags, the
    neutral environment and null loot. *)
Theorem noncombat_degrades_to_empty (RS : RandomSource) (PY : Interpreter)
    (self : EncounterGenerator) (level : Z) (biome slot enc_type : string)
    (table : option (list NoncombatEntry)) (r : Random) :
  noncombat_table (tables self) enc_type = Some table ->
  table = None \/ table = Some []
  \/ filter (noncombat_candidate level biome slot) (or_list table []) = [] ->
  _generate_noncombat_encounter self level biome slot enc_type r
  = (Ok (JDict [("difficulty", JInt level);
                ("type", JStr "empty");
                ("slot", JStr slot);
                ("biome", JStr biome);
                ("enemies", JList []);
                ("environment", JDict [("preset_id", JNull);
                                       ("description", JStr "");
                                       ("tags", JList []);
                                       ("mechanical_effects", JDict [])]);
                ("tags", JList []);
                ("loot", JNull);
                ("meta", JDict [("template_id", JNull);
                                ("noncombat_id", JNull);
                                ("notes", JStr "")])]), r).
Proof.
  intros Ht H. unfold _generate_noncombat_encounter. rewrite Ht.
  assert (Hf : filter (noncombat_candidate level biome slot) (or_list table [])
               = []).
  { destruct H as [-> | [-> | H]]; [reflexivity | reflexivity | exact H]. }
  destruct (or_list table []) as [| e es]; [reflexivity |].
  rewrite Hf. reflexivity.
Qed.

Lemma noncombat_degrades_to_empty_witness :
  _generate_noncombat_encounter (RS := lcg.source) (PY := interpreters.process_a)
    (fst (__init__ (RS := lcg.source) (PY := interpreters.process_a)
            samples.dungeon_tables (Some 1234) samples.loot_tables))
    5 "dungeon" "setback" "social" 7
  = (Ok (JDict [("difficulty", JInt 5);
                ("type", JStr "empty");
                ("slot", JStr "setback");
                ("biome", JStr "dungeon");
                ("enemies", JList []);
                ("environment", JDict [("preset_id", JNull);
                                       ("description", JStr "");
                                       ("tags", JList []);
                                       ("mechanical_effects", JDict [])]);
                ("tags", JList []);
                ("loot", JNull);
                ("meta", JDict [("template_id", JNull);
                                ("noncombat_id", JNull);
                                ("notes", JStr "")])]), 7).
Proof.
  apply (noncombat_degrades_to_empty lcg.source interpreters.process_a
           _ 5 "dungeon" "setback" "social" None 7).
  - reflexivity.
  - left. reflexivity.
Defined.

(** ** Which exceptions a computation can raise *)

Lemma nle_ret {RS : RandomSource} {A : Type} (a : A) : no_level_error (ret a).
Proof. intros r e r' H. discriminate H. Qed.

Lemma nle_raise {RS : RandomSource} {A : Type} (e : PyError) :
  (forall l, e <> LevelNotFound l) -> no_level_error (@raise _ A e).
Proof. intros He r e' r' H. inversion H; subst. exact He. Qed.

Lemma nle_bind {RS : RandomSource} {A B : Type} (m : M A) (f : A -> M B) :
  no_level_error m -> (forall a, no_level_error (f a)) ->
  no_level_error (bind m f).
Proof.
  intros Hm Hf r e r' H. apply bind_inv_err in H.
  destruct H as [H | (a & r1 & _ & H)].
  - exact (Hm _ _ _ H).
  - exact (Hf a _ _ _ H).
Qed.

Lemma nle_random {RS : RandomSource} : no_level_error random.
Proof. intros r e r' H. rewrite random_ok in H. discriminate H. Qed.

Lemma nle_randint {RS : RandomSource} (a b : Z) : no_level_error (randint a b).
Proof.
  unfold randint. destruct (b <? a).
  - apply nle_raise. discriminate.
  - apply nle_bind; [| intros; apply nle_ret].
    intros r e r' H. unfold _randbelow in H.
    destruct (rng_randbelow (b - a + 1) r). discriminate H.
Qed.

Lemma nle_choices {RS : RandomSource} {A : Type} (p : list A) (ws : list Q) :
  no_level_error (choices p ws).
Proof.
  unfold choices. destruct (accumulate ws); [apply nle_raise; discriminate |].
  destruct (Qle_bool _ 0); [apply nle_raise; discriminate |].
  apply nle_bind; [apply nle_random |]. intros u.
  destruct (nth_error p _); [apply nle_ret | apply nle_raise; discriminate].
Qed.

Lemma nle_subscript {RS : RandomSource} {A : Type} (o : option A) (k : string) :
  no_level_error (subscript o k).
Proof. destruct o; [apply nle_ret | apply nle_raise; discriminate]. Qed.

Lemma nle_loot_choice {RS : RandomSource} (items : list LootItem) :
  no_level_error (lootgen._weighted_choice items).
Proof. destruct items; [apply nle_ret | apply nle_choices]. Qed.

Lemma nle_coins_body {RS : RandomSource} (cv : string * Q) (st : CoinState) :
  no_level_error (_generate_coins_body cv st).
Proof.
  destruct cv as [coin value]. unfold _generate_coins_body.
  destruct (Qle_bool (remaining st) 0); [apply nle_ret |].
  destruct (Qeq_bool value 0); [apply nle_raise; discriminate |].
  destruct (py_int _ <=? 0); [apply nle_ret |].
  apply nle_bind; [apply nle_randint |]. intros qty.
  destruct (0 <? qty); apply nle_ret.
Qed.

Lemma nle_coins_loop {RS : RandomSource} (sorted : list (string * Q)) :
  forall st, no_level_error (_generate_coins_loop sorted st).
Proof.
  induction sorted as [| cv rest IH]; intros st; cbn [_generate_coins_loop].
  - apply nle_ret.
  - apply nle_bind; [apply nle_coins_body |].
    intros [| st']; [apply nle_ret | apply IH].
Qed.

Lemma nle_parcel {RS : RandomSource} (self : LootGenerator) (level : Z)
    (base : Q) (pool : list LootItem) :
  no_level_error (_generate_parcel self level base pool).
Proof.
  unfold _generate_parcel, _generate_coins.
  apply nle_bind.
  { apply nle_bind; [apply nle_coins_loop | intros; apply nle_ret]. }
  intros cs. apply nle_bind; [apply nle_random |]. intros u.
  apply nle_bind; [| intros; apply nle_ret].
  destruct (Qltb u (4 # 10) && negb (List.length pool =? 0)%nat);
    (apply nle_bind; [apply nle_loot_choice |]; intros it;
     repeat (apply nle_bind; [apply nle_subscript |]; intros);
     apply nle_ret).
Qed.

Lemma nle_parcels_loop {RS : RandomSource} (self : LootGenerator) (level : Z)
    (base : Q) (pool : list LootItem) (n : nat) :
  forall parcels, no_level_error (parcels_loop self level base pool n parcels).
Proof.
  induction n as [| n IH]; intros parcels; cbn [parcels_loop].
  - apply nle_ret.
  - apply nle_bind; [apply nle_parcel | intros; apply IH].
Qed.

(** ** The level check of [generate] *)

(** C4.  [generate] raises its unknown-level error exactly when [str(level)]
    is not a key of [level_budgets_gp]; it then raises it for the level asked,
    returns no record, and leaves the random stream where it was. *)
Theorem generate_unknown_level (RS : RandomSource) (self : LootGenerator)
    (level rolls : Z) (r : Random) :
  ((exists l r', generate self level rolls r = (Err (LevelNotFound l), r'))
   <-> dict_get (str level) (level_budgets_gp (lootgen.loot_data self)) = None)
  /\ (forall l r',
         generate self level rolls r = (Err (LevelNotFound l), r') ->
         l = level /\ r' = r).
Proof.
  unfold generate.
  destruct (dict_get (str level) (level_budgets_gp (lootgen.loot_data self)))
    as [base |] eqn:E.
  - assert (Hno : forall l r',
               bind (parcels_loop self level base
                       (_filter_magic_by_level (magic_items (lootgen.loot_data self)) level)
                       (Z.to_nat (Z.max 1 rolls)) [])
                    (fun parcels =>
                       ret (JDict [("schema", JStr "loot.v1");
                                   ("seed", JInt (lootgen.seed self));
                                   ("encounter_level", JInt level);
                                   ("rolls", JInt (Z.max 1 rolls));
                                   ("parcels", JList parcels)])) r
               <> (Err (LevelNotFound l), r')).
    { intros l r' H.
      refine (nle_bind _ _ (nle_parcels_loop _ _ _ _ _ _) _ _ _ _ H l eq_refl).
      intros a. apply nle_ret. }
    split.
    + split; [intros (l & r' & H); exfalso; exact (Hno _ _ H) | discriminate].
    + intros l r' H. exfalso. exact (Hno _ _ H).
  - split.
    + split; [reflexivity |]. intros _. exists level, r. reflexivity.
    + intros l r' H. inversion H. split; reflexivity.
Qed.

(** ** The shape of an encounter record *)

Lemma encounter_json_ok (difficulty : Z) (type slot biome : string)
    (enemies : list json) (env : Environment) (tags : list string)
    (loot template_id noncombat_id notes : json) :
  (type <> "combat" -> enemies = []) ->
  Forall enemy_count_ok enemies ->
  encounter_ok (encounter_json difficulty type slot biome enemies env tags loot
                  template_id noncombat_id notes).
Proof.
  intros Htype Hcount. repeat split.
  - eexists. split; reflexivity.
  - exists enemies. repeat split; [| exact Hcount].
    intros Hne. apply Htype. intros ->. apply Hne. reflexivity.
Qed.

Lemma empty_encounter_ok (level : Z) (biome slot : string) :
  encounter_ok (_generate_empty_encounter level biome slot).
Proof.
  apply encounter_json_ok; [reflexivity | constructor].
Qed.

Lemma enemies_loop_counts {RS : RandomSource} (self : EncounterGenerator)
    (group : EnemyGroup) (entries : list EnemyEntry) :
  forall (out out' : list json) (r r' : Random),
    Forall enemy_count_ok out ->
    enemies_loop self group entries out r = (Ok out', r') ->
    Forall enemy_count_ok out'.
Proof.
  induction entries as [| entry rest IH]; intros out out' r r' Hout H;
    cbn [enemies_loop] in H.
  - inversion H; subst. exact Hout.
  - apply bind_inv_ok in H. destruct H as (count & r1 & _ & H).
    destruct (count <=? 0) eqn:E.
    + exact (IH _ _ _ _ Hout H).
    + refine (IH _ _ _ _ _ H). apply Forall_app. split; [exact Hout |].
      constructor; [| constructor].
      exists count. split; [reflexivity |]. apply Z.leb_gt in E. lia.
Qed.

Lemma instantiate_enemy_group_counts {RS : RandomSource}
    (self : EncounterGenerator) (gid : option string) (level : Z)
    (out : list json) (r r' : Random) :
  _instantiate_enemy_group self gid level r = (Ok out, r') ->
  Forall enemy_count_ok out.
Proof.
  unfold _instantiate_enemy_group.
  destruct gid as [[| c g] |]; try discriminate.
  destruct (dict_get _ _) as [group |]; [| discriminate].
  apply enemies_loop_counts. constructor.
Qed.

Lemma combat_encounter_ok {RS : RandomSource} {PY : Interpreter}
    (self : EncounterGenerator) (level : Z) (biome slot : string)
    (enc : json) (r r' : Random) :
  _generate_combat_encounter self level biome slot r = (Ok enc, r') ->
  encounter_ok enc.
Proof.
  unfold _generate_combat_encounter.
  destruct (or_list _ _) as [| t ts]; [discriminate |].
  destruct (filter _ _) as [| c cs]; [discriminate |].
  intros H.
  apply bind_inv_ok in H. destruct H as (template & r1 & _ & H).
  apply bind_inv_ok in H. destruct H as (enemies & r2 & Hen & H).
  apply bind_inv_ok in H. destruct H as (env & r3 & _ & H).
  apply bind_inv_ok in H. destruct H as (loot & r4 & _ & H).
  inversion H; subst.
  apply encounter_json_ok.
  - intros Hne. exfalso. apply Hne. reflexivity.
  - exact (instantiate_enemy_group_counts _ _ _ _ _ _ Hen).
Qed.

Lemma noncombat_encounter_ok {RS : RandomSource} {PY : Interpreter}
    (self : EncounterGenerator) (level : Z) (biome slot enc_type : string)
    (enc : json) (r r' : Random) :
  _generate_noncombat_encounter self level biome slot enc_type r = (Ok enc, r') ->
  encounter_ok enc.
Proof.
  unfold _generate_noncombat_encounter.
  destruct (noncombat_table _ _) as [table |];
    [| intros H; inversion H; apply empty_encounter_ok].
  destruct (or_list table []) as [| e es];
    [intros H; inversion H; apply empty_encounter_ok |].
  destruct (filter _ _) as [| c cs];
    [intros H; inversion H; apply empty_encounter_ok |].
  intros H.
  apply bind_inv_ok in H. destruct H as (template & r1 & _ & H).
  apply bind_inv_ok in H. destruct H as (env & r2 & _ & H).
  apply bind_inv_ok in H. destruct H as (loot & r3 & _ & H).
  inversion H; subst.
  apply encounter_json_ok; [reflexivity | constructor].
Qed.

Lemma encounter_internal_ok {RS : RandomSource} {PY : Interpreter}
    (self : EncounterGenerator) (level : Z) (biome slot : string)
    (enc : json) (r r' : Random) :
  _generate_encounter_internal self level biome slot r = (Ok enc, r') ->
  encounter_ok enc.
Proof.
  unfold _generate_encounter_internal. intros H.
  apply bind_inv_ok in H. destruct H as (enc_type & r1 & _ & H).
  destruct (String.eqb enc_type "combat").
  - exact (combat_encounter_ok _ _ _ _ _ _ _ H).
  - destruct (str_in enc_type _).
    + exact (noncombat_encounter_ok _ _ _ _ _ _ _ _ H).
    + inversion H. apply empty_encounter_ok.
Qed.

(** C10.  An encounter record returned by the combat path, the non-combat
    path, the empty path or the dispatcher has exactly the keys difficulty,
    type, slot, biome, enemies, environment, tags, loot, meta; its meta has
    exactly template_id, noncombat_id, notes; its enemies list is empty unless
    its type is "combat"; and every enemy listed has a count of at least 1. *)
Theorem encounter_record_shape (RS : RandomSource) (PY : Interpreter)
    (self : EncounterGenerator) (level : Z) (biome slot enc_type : string)
    (enc : json) (r r' : Random) :
  _generate_combat_encounter self level biome slot r = (Ok enc, r')
  \/ _generate_noncombat_encounter self level biome slot enc_type r = (Ok enc, r')
  \/ _generate_empty_encounter level biome slot = enc
  \/ _generate_encounter_internal self level biome slot r = (Ok enc, r') ->
  json_keys enc = encounter_keys
  /\ (exists meta, json_get "meta" enc = Some meta /\ json_keys meta = meta_keys)
  /\ (exists enemies,
         json_get "enemies" enc = Some (JList enemies)
         /\ (json_get "type" enc <> Some (JStr "combat") -> enemies = [])
         /\ Forall enemy_count_ok enemies).
Proof.
  intros [H | [H | [H | H]]].
  - exact (combat_encounter_ok _ _ _ _ _ _ _ H).
  - exact (noncombat_encounter_ok _ _ _ _ _ _ _ _ H).
  - subst enc. apply empty_encounter_ok.
  - exact (encounter_internal_ok _ _ _ _ _ _ _ H).
Qed.

Lemma encounter_record_shape_witness :
  sample_run = (Ok sample_encounter, snd sample_run)
  /\ json_keys sample_encounter = encounter_keys
  /\ (exists meta,
         json_get "meta" sample_encounter = Some meta
         /\ json_keys meta = meta_keys)
  /\ (exists enemies,
         json_get "enemies" sample_encounter = Some (JList enemies)
         /\ (json_get "type" sample_encounter <> Some (JStr "combat") ->
             enemies = [])
         /\ Forall enemy_count_ok enemies).
Proof.
  split; [vm_compute; reflexivity |].
  apply (encounter_record_shape lcg.source interpreters.process_a
           sample_generator 5 "dungeon" "entrance" "puzzle"
           sample_encounter 1234 (snd sample_run)).
  right. right. right. vm_compute. reflexivity.
Defined.

(** ** Coin generation *)

Lemma insert_coin_perm (c : string * Q) (l : list (string * Q)) :
  Permutation (insert_coin c l) (c :: l).
Proof.
  induction l as [| d rest IH]; cbn [insert_coin]; [reflexivity |].
  destruct (Qltb (snd c) (snd d)); [| reflexivity].
  rewrite IH. apply perm_swap.
Qed.

Lemma coins_sorted_perm (coin_values : list (string * Q)) :
  Permutation (coins_sorted coin_values) coin_values.
Proof.
  induction coin_values as [| c l IH]; [reflexivity |].
  unfold coins_sorted in *. cbn [fold_right].
  rewrite insert_coin_perm. constructor. exact IH.
Qed.

Lemma dict_get_nodup_in {V : Type} (d : list (string * V)) (k : string) (v : V) :
  NoDup (dict_keys d) -> In (k, v) d -> dict_get k d = Some v.
Proof.
  induction d as [| [k' v'] rest IH]; intros Hnd Hin; [contradiction |].
  cbn [dict_get]. inversion Hnd as [| x l Hnot Hrest]; subst.
  destruct Hin as [Heq | Hin].
  - inversion Heq; subst. rewrite String.eqb_refl. reflexivity.
  - destruct (String.eqb_spec k k') as [-> | _].
    + exfalso. apply Hnot. apply (in_map fst) in Hin. exact Hin.
    + exact (IH Hrest Hin).
Qed.

Lemma dict_set_keys_fresh {V : Type} (k : string) (v : V) (d : list (string * V)) :
  ~ In k (dict_keys d) -> dict_keys (dict_set k v d) = (dict_keys d ++ [k])%list.
Proof.
  induction d as [| [k' v'] rest IH]; intros Hnot; [reflexivity |].
  cbn [dict_set]. destruct (String.eqb_spec k k') as [-> | Hne].
  - exfalso. apply Hnot. left. reflexivity.
  - cbn. f_equal. apply IH. intros Hin. apply Hnot. right. exact Hin.
Qed.

Lemma coins_value_dict_set (coin_values : list (string * Q)) (coin : string)
    (qty : Z) (out : list (string * Z)) :
  ~ In coin (dict_keys out) ->
  (coins_value coin_values (dict_set coin qty out)
   == coins_value coin_values out
      + get_default (dict_get coin coin_values) 0 * inject_Z qty)%Q.
Proof.
  induction out as [| [k c] rest IH]; intros Hnot.
  - cbn. ring.
  - cbn [dict_set]. destruct (String.eqb_spec coin k) as [-> | Hne].
    + exfalso. apply Hnot. left. reflexivity.
    + cbn [coins_value]. rewrite IH; [ring |].
      intros Hin. apply Hnot. right. exact Hin.
Qed.

Lemma spend_within_remaining (rem value : Q) (qty : Z) :
  (0 < value)%Q -> (0 < rem)%Q -> 0 <= qty <= py_int (rem / value) ->
  (0 <= rem - inject_Z qty * value)%Q
  /\ (rem - inject_Z qty * value <= rem)%Q.
Proof.
  intros Hv Hr [Hq0 Hq].
  assert (Hdiv : (0 <= rem / value)%Q).
  { apply Qle_shift_div_l; [exact Hv | lra]. }
  unfold py_int in Hq. apply Qle_bool_iff in Hdiv. rewrite Hdiv in Hq.
  assert (H1 : (inject_Z qty <= rem / value)%Q).
  { apply Qle_trans with (inject_Z (Qfloor (rem / value))).
    - rewrite <- Zle_Qle. exact Hq.
    - apply Qfloor_le. }
  assert (H2 : (inject_Z qty * value <= rem)%Q).
  { apply Qle_trans with (rem / value * value)%Q.
    - apply Qmult_le_compat_r; [exact H1 | lra].
    - rewrite Qmult_comm, Qmult_div_r; [lra | lra]. }
  assert (H3 : (0 <= inject_Z qty * value)%Q).
  { apply Qmult_le_0_compat; [| lra]. rewrite <- (Zle_Qle 0). exact Hq0. }
  split; lra.
Qed.

Lemma coins_body_step {RS : RandomSource} (coin : string) (value : Q)
    (st : CoinState) (r : Random) :
  (0 < value)%Q -> (0 <= remaining st)%Q ->
  exists c r',
    _generate_coins_body (coin, value) st r = (Ok c, r')
    /\ match c with
       | Break => True
       | Next st' =>
           (0 <= remaining st')%Q /\ (remaining st' <= remaining st)%Q
           /\ (st' = st
               \/ exists qty,
                   st' = {| remaining :=
                              (remaining st - inject_Z qty * value)%Q;
                            output := dict_set coin qty (output st) |})
       end.
Proof.
  intros Hv Hr. unfold _generate_coins_body.
  destruct (Qle_bool (remaining st) 0) eqn:E0.
  { exists Break, r. split; [reflexivity | exact I]. }
  assert (Hpos : (0 < remaining st)%Q).
  { apply Qnot_le_lt. intros H. apply Qle_bool_iff in H. congruence. }
  destruct (Qeq_bool value 0) eqn:Ev.
  { apply Qeq_bool_iff in Ev. lra. }
  destruct (py_int (remaining st / value) <=? 0) eqn:Em.
  { exists (Next st), r. split; [reflexivity |].
    repeat split; [exact Hr | lra | left; reflexivity]. }
  apply Z.leb_gt in Em.
  destruct (randint_ok 0 (py_int (remaining st / value)) r ltac:(lia))
    as (qty & r' & Hrun & Hq).
  rewrite (bind_ok _ _ _ _ _ Hrun).
  destruct (0 <? qty) eqn:Eq.
  - eexists. exists r'. split; [reflexivity |].
    destruct (spend_within_remaining _ _ _ Hv Hpos Hq) as [H1 H2].
    cbn [remaining]. repeat split; [exact H1 | exact H2 |].
    right. exists qty. reflexivity.
  - exists (Next st), r'. split; [reflexivity |].
    repeat split; [exact Hr | lra | left; reflexivity].
Qed.

Lemma coins_loop_depleted {RS : RandomSource} (sorted : list (string * Q))
    (st : CoinState) (r : Random) :
  Qle_bool (remaining st) 0 = true ->
  _generate_coins_loop sorted st r = (Ok st, r).
Proof.
  intros H. destruct sorted as [| [coin value] rest]; [reflexivity |].
  cbn [_generate_coins_loop]. unfold bind, _generate_coins_body.
  rewrite H. reflexivity.
Qed.

(** What one run of the loop preserves. *)
Lemma coins_loop_invariant {RS : RandomSource} (coin_values : list (string * Q))
    (budget : Q) (sorted : list (string * Q)) :
  forall (st : CoinState) (r : Random),
    NoDup (dict_keys sorted) ->
    (forall c v, In (c, v) sorted ->
                 (0 < v)%Q /\ dict_get c coin_values = Some v) ->
    (forall k, In k (dict_keys (output st)) -> ~ In k (dict_keys sorted)) ->
    (0 <= remaining st)%Q ->
    (coins_value coin_values (output st) + remaining st == budget)%Q ->
    exists st' r',
      _generate_coins_loop sorted st r = (Ok st', r')
      /\ (0 <= remaining st')%Q
      /\ (remaining st' <= remaining st)%Q
      /\ (coins_value coin_values (output st') + remaining st' == budget)%Q
      /\ (forall k, In k (dict_keys (output st')) ->
                    In k (dict_keys (output st)) \/ In k (dict_keys sorted)).
Proof.
  induction sorted as [| [coin value] rest IH];
    intros st r Hnd Hval Hfresh Hrem Hsum.
  - exists st, r. repeat split; try assumption; [lra | tauto].
  - cbn [_generate_coins_loop].
    destruct (Hval coin value (or_introl eq_refl)) as [Hv Hget].
    destruct (coins_body_step coin value st r Hv Hrem) as (c & r1 & Hrun & Hc).
    rewrite (bind_ok _ _ _ _ _ Hrun).
    inversion Hnd as [| x l Hnot Hnd']; subst.
    destruct c as [| st1].
    { exists st, r1. repeat split; try assumption; [lra | tauto]. }
    destruct Hc as (H0 & Hle & Hst).
    assert (Hkeys : forall k, In k (dict_keys (output st1)) ->
                              In k (dict_keys (output st)) \/ k = coin).
    { destruct Hst as [-> | (qty & ->)]; [tauto |].
      cbn [output]. intros k Hk.
      rewrite dict_set_keys_fresh in Hk.
      - apply in_app_or in Hk. destruct Hk as [Hk | [Hk | []]]; auto.
      - intros Hin. apply (Hfresh _ Hin). left. reflexivity. }
    assert (Hsum1 : (coins_value coin_values (output st1) + remaining st1
                     == budget)%Q).
    { destruct Hst as [-> | (qty & ->)]; [exact Hsum |].
      cbn [output remaining]. rewrite coins_value_dict_set.
      - rewrite Hget. cbn [get_default]. rewrite <- Hsum. ring.
      - intros Hin. apply (Hfresh _ Hin). left. reflexivity. }
    destruct (IH st1 r1 Hnd') as (st' & r' & Hloop & H0' & Hle' & Hsum' & Hk').
    + intros c v Hin. apply Hval. right. exact Hin.
    + intros k Hk Hin. destruct (Hkeys k Hk) as [Hold | ->].
      * apply (Hfresh _ Hold). right. exact Hin.
      * apply Hnot. exact Hin.
    + exact H0.
    + exact Hsum1.
    + exists st', r'. repeat split; try assumption; [lra |].
      intros k Hk. destruct (Hk' k Hk) as [H1 | H1].
      * destruct (Hkeys k H1) as [H2 | ->]; [left; exact H2 |].
        right. left. reflexivity.
      * right. right. exact H1.
Qed.

Lemma coins_sorted_valid (coin_values : list (string * Q)) :
  (forall c v, In (c, v) coin_values -> (0 < v)%Q) ->
  NoDup (dict_keys coin_values) ->
  NoDup (dict_keys (coins_sorted coin_values))
  /\ (forall c v, In (c, v) (coins_sorted coin_values) ->
                  (0 < v)%Q /\ dict_get c coin_values = Some v).
Proof.
  intros Hpos Hnd. pose proof (coins_sorted_perm coin_values) as Hp. split.
  - apply (Permutation_NoDup (l := dict_keys coin_values)); [| exact Hnd].
    apply Permutation_sym. unfold dict_keys. apply Permutation_map. exact Hp.
  - intros c v Hin. apply (Permutation_in _ Hp) in Hin. split.
    + exact (Hpos _ _ Hin).
    + exact (dict_get_nodup_in _ _ _ Hnd Hin).
Qed.

(** In exact arithmetic the mixture stays within the budget: the bound
    [int(remaining / value)] on each count is there to keep it so.  In
    binary64 the quotient and the product round, and the bound can be
    missed. *)
Lemma generate_coins_within_budget {RS : RandomSource}
    (coin_values : list (string * Q)) (budget : Q) (r : Random) :
  (forall c v, In (c, v) coin_values -> (0 < v)%Q) ->
  NoDup (dict_keys coin_values) ->
  (0 <= budget)%Q ->
  exists coins r',
    _generate_coins coin_values budget r = (Ok coins, r')
    /\ (coins_value coin_values coins <= budget)%Q.
Proof.
  intros Hpos Hnd Hb.
  destruct (coins_sorted_valid _ Hpos Hnd) as [Hnd' Hval].
  destruct (coins_loop_invariant coin_values budget
              (coins_sorted coin_values)
              {| remaining := budget; output := [] |} r Hnd' Hval)
    as (st' & r' & Hloop & H0 & _ & Hsum & _).
  - intros k [].
  - exact Hb.
  - cbn. lra.
  - exists (output st'), r'. split.
    + unfold _generate_coins. rewrite (bind_ok _ _ _ _ _ Hloop). reflexivity.
    + lra.
Qed.

(** C7.  In binary64 the coins of a parcel can be worth more than the coin
    budget.  With the one denomination cp worth 0.01 and a level budget of
    4.1, the coin budget [4.1 * 0.20] is the float 0.81999999999999995 and
    [int(budget / 0.01)] is 82; on a stream whose first draw is that maximum,
    [_generate_coins] returns 82 cp and leaves a negative remaining budget.
    The value of the 82 coins exceeds the budget as [_calculate_parcel_value]
    sums it in floats (0.82000000000000006), as the exact sum of count times
    value, and against the exact fifth of the level budget. *)
Theorem coins_exceed_budget_in_binary64 :
  exists budget st r' total,
    binary64.coin_budget binary64.small_budget = Ok budget
    /\ binary64._generate_coins_loop (RS := lcg.source)
         (binary64.coins_sorted binary64.copper_only)
         {| binary64.remaining := budget; binary64.output := [] |}
         (Random_seed 100)
       = (Ok st, r')
    /\ binary64._generate_coins (RS := lcg.source) binary64.copper_only budget
         (Random_seed 100)
       = (Ok [("cp", 82)], r')
    /\ binary64.output st = [("cp", 82)]
    /\ binary64.is_less (binary64.remaining st) PrimFloat.zero = true
    /\ binary64.coins_total binary64.copper_only [("cp", 82)] PrimFloat.zero
       = Ok total
    /\ binary64.is_less budget total = true
    /\ (binary64.exact budget
        < binary64.mixture_value binary64.copper_only [("cp", 82%Z)])%Q
    /\ (binary64.exact_number binary64.small_budget * (2 # 10)
        < binary64.mixture_value binary64.copper_only [("cp", 82%Z)])%Q.
Proof.
  set (budget := match binary64.coin_budget binary64.small_budget with
                 | Ok b => b
                 | Err _ => PrimFloat.zero
                 end).
  set (run := binary64._generate_coins_loop (RS := lcg.source)
                (binary64.coins_sorted binary64.copper_only)
                {| binary64.remaining := budget; binary64.output := [] |}
                (Random_seed 100)).
  exists budget,
    (match fst run with
     | Ok st => st
     | Err _ => {| binary64.remaining := budget; binary64.output := [] |}
     end),
    (snd run),
    (match binary64.coins_total binary64.copper_only [("cp", 82)]
             PrimFloat.zero with
     | Ok total => total
     | Err _ => PrimFloat.zero
     end).
  repeat split; vm_compute; reflexivity.
Qed.

(** ** The optional fields of a loot entry *)

Lemma bisect_range (fuel : nat) (a : list Q) (x : Q) :
  forall lo hi, (lo <= hi)%nat -> (lo <= bisect fuel a x lo hi <= hi)%nat.
Proof.
  induction fuel as [| fuel IH]; intros lo hi Hle; cbn [bisect]; [lia |].
  destruct (lo <? hi)%nat eqn:E; [| lia].
  apply Nat.ltb_lt in E.
  assert (Hmid : (lo <= (lo + hi) / 2 < hi)%nat).
  { split.
    - apply Nat.div_le_lower_bound; lia.
    - apply Nat.Div0.div_lt_upper_bound; lia. }
  destruct (Qltb x (nth ((lo + hi) / 2) a 0%Q)).
  - specialize (IH lo ((lo + hi) / 2)%nat ltac:(lia)). lia.
  - specialize (IH ((lo + hi) / 2 + 1)%nat hi ltac:(lia)). lia.
Qed.

Lemma last_accumulate_positive (ws : list Q) :
  forall acc d, (0 < acc)%Q -> Forall (fun w => 0 < w)%Q ws -> ws <> [] ->
                (0 < last (accumulate_from acc ws) d)%Q.
Proof.
  induction ws as [| w rest IH]; intros acc d Hacc Hws Hne; [contradiction |].
  inversion Hws as [| x l Hw Hrest]; subst.
  cbn [accumulate_from].
  assert (Hsum : (0 < acc + w)%Q) by lra.
  destruct rest as [| w' rest']; [exact Hsum |].
  specialize (IH (acc + w)%Q d Hsum Hrest ltac:(discriminate)).
  cbn [accumulate_from last] in *. exact IH.
Qed.

Lemma choices_in {RS : RandomSource} {A : Type} (population : list A)
    (weights : list Q) (y : A) (r r' : Random) :
  choices population weights r = (Ok y, r') ->
  In y population /\ r' = snd (rng_random r).
Proof.
  unfold choices. destruct (accumulate weights); [discriminate |].
  destruct (Qle_bool _ 0); [discriminate |].
  intros H. rewrite (bind_ok _ _ _ _ _ (random_ok r)) in H.
  destruct (nth_error population _) as [x |] eqn:E; inversion H; subst.
  split; [exact (nth_error_In _ _ E) | reflexivity].
Qed.

Lemma loot_choice_in {RS : RandomSource} (items : list LootItem)
    (y : LootItem) (r r' : Random) :
  lootgen._weighted_choice items r = (Ok y, r') ->
  (items = [] /\ y = no_item) \/ In y items.
Proof.
  unfold lootgen._weighted_choice. destruct items as [| it rest].
  - intros H. inversion H. left. split; reflexivity.
  - intros H. right. exact (proj1 (choices_in _ _ _ _ _ H)).
Qed.

Lemma subscript_inv {RS : RandomSource} {A : Type} (o : option A) (k : string)
    (a : A) (r r' : Random) :
  subscript o k r = (Ok a, r') -> o = Some a /\ r' = r.
Proof.
  destruct o; intros H; inversion H. split; reflexivity.
Qed.

(** *** Errors through [bind] *)

Lemma ro_ret {RS : RandomSource} {A : Type} (P : PyError -> Prop) (a : A) :
  raises_only P (ret a).
Proof. intros r e r' H. discriminate H. Qed.

Lemma ro_raise {RS : RandomSource} {A : Type} (P : PyError -> Prop)
    (e : PyError) :
  P e -> raises_only P (@raise _ A e).
Proof. intros He r e' r' H. inversion H; subst. exact He. Qed.

Lemma ro_bind {RS : RandomSource} {A B : Type} (P : PyError -> Prop)
    (m : M A) (f : A -> M B) :
  raises_only P m ->
  (forall a r r', m r = (Ok a, r') -> raises_only P (f a)) ->
  raises_only P (bind m f).
Proof.
  intros Hm Hf r e r' H. apply bind_inv_err in H.
  destruct H as [H | (a & r1 & Ha & H)].
  - exact (Hm _ _ _ H).
  - exact (Hf a _ _ Ha _ _ _ H).
Qed.

Lemma ro_total {RS : RandomSource} {A : Type} (P : PyError -> Prop) (m : M A) :
  (forall r, exists a r', m r = (Ok a, r')) -> raises_only P m.
Proof.
  intros Hm r e r' H. destruct (Hm r) as (a & r1 & Ha). congruence.
Qed.

Lemma ro_weaken {RS : RandomSource} {A : Type} (P Q : PyError -> Prop)
    (m : M A) :
  (forall e, P e -> Q e) -> raises_only P m -> raises_only Q m.
Proof. intros HPQ Hm r e r' H. exact (HPQ _ (Hm _ _ _ H)). Qed.

Lemma weights_positive_or_not (ws : list Q) :
  Forall (fun w => 0 < w)%Q ws \/ Exists (fun w => w <= 0)%Q ws.
Proof.
  induction ws as [| w ws [IH | IH]].
  - left. constructor.
  - destruct (Qlt_le_dec 0 w) as [Hw | Hw].
    + left. constructor; assumption.
    + right. left. exact Hw.
  - right. right. exact IH.
Qed.

(** [choices] rejects the weights only when one of them is not positive,
    and raises nothing else. *)
Lemma ro_choices {RS : RandomSource} {A : Type} (x : A) (l : list A)
    (ws : list Q) :
  List.length ws = List.length (x :: l) ->
  raises_only (fun e => e = ChoicesTotalNotPositive
                        /\ Exists (fun w => w <= 0)%Q ws)
    (choices (x :: l) ws).
Proof.
  intros Hlen. unfold choices.
  destruct ws as [| w ws']; [discriminate Hlen |]. cbn [accumulate].
  destruct (Qle_bool _ 0) eqn:E.
  { apply ro_raise. split; [reflexivity |].
    destruct (weights_positive_or_not (w :: ws')) as [Hall | Hex];
      [| exact Hex].
    exfalso. inversion Hall as [| w0 l0 Hw Hrest]; subst.
    assert (Htotal : (0 < last (w :: accumulate_from w ws') 0%Q)%Q).
    { destruct ws' as [| w' ws'']; [exact Hw |].
      pose proof (last_accumulate_positive (w' :: ws'') w 0%Q Hw Hrest
                    ltac:(discriminate)) as H.
      cbn [accumulate_from last] in *. exact H. }
    apply Qle_bool_iff in E. lra. }
  apply ro_bind; [apply ro_total; intros r; rewrite random_ok; eauto |].
  intros u r r' _.
  set (i := bisect _ _ _ _ _).
  assert (Hi : (i < List.length (x :: l))%nat).
  { pose proof (bisect_range (S (List.length (x :: l)))
                  (w :: accumulate_from w ws')
                  (u * last (w :: accumulate_from w ws') 0%Q)%Q
                  0 (List.length (x :: l) - 1) ltac:(lia)) as H.
    fold i in H. cbn [List.length] in *. lia. }
  destruct (nth_error (x :: l) i) eqn:En; [apply ro_ret |].
  apply nth_error_None in En. lia.
Qed.

Lemma ro_loot_choice {RS : RandomSource} (items : list LootItem) :
  raises_only (fun e => e = ChoicesTotalNotPositive
                        /\ exists it w,
                             In it items /\ item_weight it = Some w
                             /\ (w <= 0)%Q)
    (lootgen._weighted_choice items).
Proof.
  destruct items as [| it rest]; [apply ro_ret |].
  unfold lootgen._weighted_choice.
  apply (ro_weaken
           (fun e => e = ChoicesTotalNotPositive
                     /\ Exists (fun w => w <= 0)%Q
                          (map (fun x => get_default (item_weight x) 1%Q)
                             (it :: rest)))).
  - intros e [-> Hex]. split; [reflexivity |].
    apply Exists_exists in Hex. destruct Hex as (w & Hin & Hw).
    apply in_map_iff in Hin. destruct Hin as (y & Hy & Hin).
    exists y. destruct (item_weight y) as [wy |] eqn:Ew; cbn in Hy.
    + exists wy. subst wy. repeat split; assumption.
    + subst w. exfalso. revert Hw. apply Qlt_not_le. reflexivity.
  - apply ro_choices. rewrite length_map. reflexivity.
Qed.

(** The coin loop raises only on a division by a value of 0. *)
Lemma ro_coins_body {RS : RandomSource} (cv : string * Q) (st : CoinState) :
  raises_only (fun e => e = ZeroDivisionError /\ (snd cv == 0)%Q)
    (_generate_coins_body cv st).
Proof.
  destruct cv as [coin value]. unfold _generate_coins_body.
  destruct (Qle_bool (remaining st) 0); [apply ro_ret |].
  destruct (Qeq_bool value 0) eqn:Ev.
  { apply ro_raise. split; [reflexivity |]. apply Qeq_bool_iff. exact Ev. }
  destruct (py_int _ <=? 0) eqn:E; [apply ro_ret |].
  apply Z.leb_gt in E.
  apply ro_bind.
  - apply ro_total. intros r.
    destruct (randint_ok 0 (py_int (remaining st / value)) r ltac:(lia))
      as (k & r' & H & _).
    eauto.
  - intros qty r r' _. destruct (0 <? qty); apply ro_ret.
Qed.

Lemma ro_coins_loop {RS : RandomSource} (sorted : list (string * Q)) :
  forall st,
    raises_only (fun e => e = ZeroDivisionError
                          /\ exists c v, In (c, v) sorted /\ (v == 0)%Q)
      (_generate_coins_loop sorted st).
Proof.
  induction sorted as [| [c v] rest IH]; intros st;
    cbn [_generate_coins_loop].
  - apply ro_ret.
  - apply ro_bind.
    + eapply ro_weaken; [| apply (ro_coins_body (c, v) st)].
      intros e [-> Hz]. split; [reflexivity |].
      exists c, v. split; [left; reflexivity | exact Hz].
    + intros [| st'] r r' _; [apply ro_ret |].
      eapply ro_weaken; [| apply (IH st')].
      intros e [-> (c' & v' & Hin & Hz)]. split; [reflexivity |].
      exists c', v'. split; [right; exact Hin | exact Hz].
Qed.

Lemma ro_subscript {RS : RandomSource} {A : Type} (P : PyError -> Prop)
    (o : option A) (k : string) :
  (o = None -> P (KeyError k)) -> raises_only P (subscript o k).
Proof.
  intros H. destruct o; [apply ro_ret | apply ro_raise; exact (H eq_refl)].
Qed.

(** *** The defaults *)

Lemma choices_map {RS : RandomSource} {A B : Type} (f : A -> B)
    (population : list A) (weights : list Q) (r : Random) :
  choices (map f population) weights r
  = bind (choices population weights) (fun y => ret (f y)) r.
Proof.
  unfold choices. rewrite length_map.
  destruct (accumulate weights) as [| c cs]; [reflexivity |].
  destruct (Qle_bool _ 0); [reflexivity |].
  unfold bind. rewrite random_ok. rewrite nth_error_map.
  destruct (nth_error population _); reflexivity.
Qed.

Lemma loot_choice_with_defaults {RS : RandomSource} (it : LootItem)
    (items : list LootItem) (r : Random) :
  lootgen._weighted_choice (map with_defaults (it :: items)) r
  = bind (lootgen._weighted_choice (it :: items))
         (fun y => ret (with_defaults y)) r.
Proof.
  unfold lootgen._weighted_choice. cbn [map].
  change (with_defaults it :: map with_defaults items)
    with (map with_defaults (it :: items)).
  rewrite map_map.
  replace (get_default (item_weight (with_defaults it)) 1%Q
           :: map (fun x => get_default (item_weight (with_defaults x)) 1%Q)
                items)
    with (get_default (item_weight it) 1%Q
          :: map (fun x => get_default (item_weight x) 1%Q) items)
    by reflexivity.
  apply choices_map.
Qed.

Lemma bind_loot_choice_with_defaults {RS : RandomSource} {B : Type}
    (it : LootItem) (items : list LootItem) (k : LootItem -> M B)
    (r : Random) :
  bind (lootgen._weighted_choice (map with_defaults (it :: items))) k r
  = bind (lootgen._weighted_choice (it :: items))
         (fun y => k (with_defaults y)) r.
Proof.
  unfold bind at 1. rewrite loot_choice_with_defaults. unfold bind, ret.
  destruct (lootgen._weighted_choice (it :: items) r) as [[y | e] r'];
    reflexivity.
Qed.

Lemma filter_magic_with_defaults (items : list LootItem) (level : Z) :
  _filter_magic_by_level (map with_defaults items) level
  = map with_defaults (_filter_magic_by_level items level).
Proof.
  unfold _filter_magic_by_level.
  induction items as [| it rest IH]; [reflexivity |].
  cbn [map filter].
  change (magic_level_ok level (with_defaults it))
    with (magic_level_ok level it).
  destruct (magic_level_ok level it); cbn [map]; rewrite IH; reflexivity.
Qed.

Lemma bind_cong {RS : RandomSource} {A B : Type} (m1 m2 : M A)
    (f1 f2 : A -> M B) (r : Random) :
  m1 r = m2 r ->
  (forall a r', m2 r = (Ok a, r') -> f1 a r' = f2 a r') ->
  bind m1 f1 r = bind m2 f2 r.
Proof.
  intros Hm Hf. unfold bind. rewrite Hm.
  destruct (m2 r) as [[a | e] r']; [apply Hf; reflexivity | reflexivity].
Qed.

Lemma parcel_with_defaults {RS : RandomSource} (self : LootGenerator)
    (level : Z) (base : Q) (pool : list LootItem) (r : Random) :
  _generate_parcel
    {| lootgen.loot_data := data_with_defaults (lootgen.loot_data self);
       lootgen.seed := lootgen.seed self |}
    level base (map with_defaults pool) r
  = _generate_parcel self level base pool r.
Proof.
  unfold _generate_parcel.
  cbn [lootgen.loot_data data_with_defaults coin_values_gp mundane_goods].
  apply bind_cong; [reflexivity |]. intros cs r1 _.
  apply bind_cong; [reflexivity |]. intros u r2 _.
  apply bind_cong; [| reflexivity].
  rewrite length_map.
  destruct (Qltb u (4 # 10) && negb (List.length pool =? 0)%nat) eqn:E.
  - destruct pool as [| it pool'];
      [rewrite andb_false_r in E; discriminate |].
    rewrite bind_loot_choice_with_defaults. reflexivity.
  - destruct (mundane_goods (lootgen.loot_data self)) as [| it goods];
      [reflexivity |].
    rewrite bind_loot_choice_with_defaults. reflexivity.
Qed.

Lemma parcels_loop_with_defaults {RS : RandomSource} (self : LootGenerator)
    (level : Z) (base : Q) (pool : list LootItem) (n : nat) :
  forall parcels r,
    parcels_loop
      {| lootgen.loot_data := data_with_defaults (lootgen.loot_data self);
         lootgen.seed := lootgen.seed self |}
      level base (map with_defaults pool) n parcels r
    = parcels_loop self level base pool n parcels r.
Proof.
  induction n as [| n IH]; intros parcels r; [reflexivity |].
  cbn [parcels_loop]. unfold bind. rewrite parcel_with_defaults.
  destruct (_generate_parcel self level base pool r) as [[p | e] r1];
    [apply IH | reflexivity].
Qed.

(** *** Where a [KeyError] comes from *)

(** A [KeyError] of loot generation on [data] names id, name or gp_value and
    is explained by an entry that lacks the field, or by an empty list of
    mundane goods. *)
Definition key_error_explained (data : LootData) (e : PyError) : Prop :=
  forall k,
    e = KeyError k ->
    In k ["id"; "name"; "gp_value"]
    /\ (mundane_goods data = []
        \/ exists it,
             (In it (magic_items data) \/ In it (mundane_goods data))
             /\ lacks k it).

Lemma ro_item_fields {RS : RandomSource} {A : Type} (data : LootData)
    (it : LootItem) (k : json -> json -> Q -> M A) :
  (mundane_goods data = []
   \/ In it (magic_items data) \/ In it (mundane_goods data)) ->
  (forall i n v, raises_only (key_error_explained data) (k i n v)) ->
  raises_only (key_error_explained data)
    (i <- subscript (item_id it) "id" ;;
     n <- subscript (item_name it) "name" ;;
     v <- subscript (item_gp_value it) "gp_value" ;;
     k i n v).
Proof.
  intros Hit Hk.
  assert (Hexp : forall key, lacks key it ->
                             In key ["id"; "name"; "gp_value"] ->
                             key_error_explained data (KeyError key)).
  { intros key Hl Hin k0 Hk0. inversion Hk0; subst k0. split; [exact Hin |].
    destruct Hit as [He | Hin']; [left; exact He |].
    right. exists it. split; assumption. }
  apply ro_bind.
  { apply ro_subscript. intros Hn. apply Hexp; [| cbn; tauto].
    left. split; [reflexivity | exact Hn]. }
  intros i ? ? _. apply ro_bind.
  { apply ro_subscript. intros Hn. apply Hexp; [| cbn; tauto].
    right. left. split; [reflexivity | exact Hn]. }
  intros n ? ? _. apply ro_bind.
  { apply ro_subscript. intros Hn. apply Hexp; [| cbn; tauto].
    right. right. split; [reflexivity | exact Hn]. }
  intros v ? ? _. apply Hk.
Qed.

Lemma ro_parcel_key_error {RS : RandomSource} (self : LootGenerator)
    (level : Z) (base : Q) (pool : list LootItem) :
  (forall it, In it pool -> In it (magic_items (lootgen.loot_data self))) ->
  raises_only (key_error_explained (lootgen.loot_data self))
    (_generate_parcel self level base pool).
Proof.
  intros Hpool. unfold _generate_parcel, _generate_coins.
  apply ro_bind.
  { apply ro_bind; [| intros; apply ro_ret].
    eapply ro_weaken; [| apply ro_coins_loop].
    intros e [-> _] k Hk. discriminate Hk. }
  intros cs r0 r0' _.
  apply ro_bind; [apply ro_total; intros r; rewrite random_ok; eauto |].
  intros u r1 r1' _.
  apply ro_bind; [| intros; apply ro_ret].
  destruct (Qltb u (4 # 10) && negb (List.length pool =? 0)%nat) eqn:E.
  - apply ro_bind.
    { eapply ro_weaken; [| apply ro_loot_choice].
      intros e [-> _] k Hk. discriminate Hk. }
    intros it ra rb Hit. apply loot_choice_in in Hit.
    destruct Hit as [[-> _] | Hin];
      [rewrite andb_false_r in E; discriminate |].
    apply ro_item_fields; [| intros; apply ro_ret].
    right. left. apply Hpool. exact Hin.
  - apply ro_bind.
    { eapply ro_weaken; [| apply ro_loot_choice].
      intros e [-> _] k Hk. discriminate Hk. }
    intros it ra rb Hit. apply loot_choice_in in Hit.
    apply ro_item_fields; [| intros; apply ro_ret].
    destruct Hit as [[He _] | Hin]; [left; exact He | right; right; exact Hin].
Qed.

Lemma ro_parcels_loop_key_error {RS : RandomSource} (self : LootGenerator)
    (level : Z) (base : Q) (pool : list LootItem) (n : nat) :
  (forall it, In it pool -> In it (magic_items (lootgen.loot_data self))) ->
  forall parcels,
    raises_only (key_error_explained (lootgen.loot_data self))
      (parcels_loop self level base pool n parcels).
Proof.
  intros Hpool. induction n as [| n IH]; intros parcels; cbn [parcels_loop].
  - apply ro_ret.
  - apply ro_bind; [apply ro_parcel_key_error; exact Hpool | intros; apply IH].
Qed.

(** C8, as stated, fails: a mundane item without ["id"] makes [generate_loot]
    raise [KeyError]. *)
Lemma missing_id_counterexample :
  generate_loot (RS := lcg.source) (PY := interpreters.process_a)
    samples.nameless_goods 5 1 (Some 3)
  = Err (KeyError "id").
Proof. vm_compute. reflexivity. Qed.

(** C8, amended.  An entry that lacks weight, rarity, min_level or max_level
    is read as the entry with weight 1.0, rarity "common", min_level 1 and
    max_level 20: [generate] on a table and on the table with these values
    written out into every magic and mundane entry runs the same, to the same
    record or the same error and the same state of the stream.  The fields
    id, name and gp_value have no default: a [KeyError] of [generate] names
    one of them, and either an entry of the table lacks that field or the
    list of mundane goods is empty. *)
Theorem loot_generation_tolerates_optional_fields (RS : RandomSource)
    (self : LootGenerator) (level rolls : Z) (r : Random) :
  generate
    {| lootgen.loot_data := data_with_defaults (lootgen.loot_data self);
       lootgen.seed := lootgen.seed self |} level rolls r
  = generate self level rolls r
  /\ (forall k r',
         generate self level rolls r = (Err (KeyError k), r') ->
         In k ["id"; "name"; "gp_value"]
         /\ (mundane_goods (lootgen.loot_data self) = []
             \/ exists it,
                  (In it (magic_items (lootgen.loot_data self))
                   \/ In it (mundane_goods (lootgen.loot_data self)))
                  /\ lacks k it)).
Proof.
  split.
  - unfold generate.
    cbn [lootgen.loot_data lootgen.seed data_with_defaults level_budgets_gp
         magic_items].
    destruct (dict_get (str level) (level_budgets_gp (lootgen.loot_data self)))
      as [base |]; [| reflexivity].
    rewrite filter_magic_with_defaults.
    unfold bind. rewrite parcels_loop_with_defaults. reflexivity.
  - intros k r' H.
    assert (Hro : raises_only (key_error_explained (lootgen.loot_data self))
                    (generate self level rolls)).
    { unfold generate.
      destruct (dict_get _ _);
        [| apply ro_raise; intros k0 Hk0; discriminate Hk0].
      apply ro_bind; [| intros; apply ro_ret].
      apply ro_parcels_loop_key_error.
      intros it Hin. apply filter_In in Hin. exact (proj1 Hin). }
    exact (Hro _ _ _ H k eq_refl).
Qed.

(** ** Least and greatest level key *)

Lemma fold_min_spec (ks : list Z) :
  forall k,
    In (fold_left Z.min ks k) (k :: ks)
    /\ (forall x, In x (k :: ks) -> fold_left Z.min ks k <= x).
Proof.
  induction ks as [| y ks IH]; intros k; cbn [fold_left].
  - split; [left; reflexivity |]. intros x [<- | []]. lia.
  - destruct (IH (Z.min k y)) as [Hin Hle]. split.
    + destruct Hin as [Hin | Hin]; [| right; right; exact Hin].
      rewrite <- Hin. destruct (Z.min_spec k y) as [[_ ->] | [_ ->]];
        [left | right; left]; reflexivity.
    + intros x [<- | [<- | Hx]].
      * specialize (Hle _ (or_introl eq_refl)). lia.
      * specialize (Hle _ (or_introl eq_refl)). lia.
      * apply Hle. right. exact Hx.
Qed.

Lemma fold_max_spec (ks : list Z) :
  forall k,
    In (fold_left Z.max ks k) (k :: ks)
    /\ (forall x, In x (k :: ks) -> x <= fold_left Z.max ks k).
Proof.
  induction ks as [| y ks IH]; intros k; cbn [fold_left].
  - split; [left; reflexivity |]. intros x [<- | []]. lia.
  - destruct (IH (Z.max k y)) as [Hin Hle]. split.
    + destruct Hin as [Hin | Hin]; [| right; right; exact Hin].
      rewrite <- Hin. destruct (Z.max_spec k y) as [[_ ->] | [_ ->]];
        [right; left | left]; reflexivity.
    + intros x [<- | [<- | Hx]].
      * specialize (Hle _ (or_introl eq_refl)). lia.
      * specialize (Hle _ (or_introl eq_refl)). lia.
      * apply Hle. right. exact Hx.
Qed.




(** ** Dungeon generation as sequential single-encounter calls *)








(** ** Reproducibility from the seed *)

(** Loot generation with a seed does not depend on the interpreter process. *)
Lemma loot_same_in_every_process (RS : RandomSource) (PY1 PY2 : Interpreter)
    (data : LootData) (level rolls seed : Z) :
  generate_loot (PY := PY1) data level rolls (Some seed)
  = generate_loot (PY := PY2) data level rolls (Some seed).
Proof. reflexivity. Qed.

Lemma encounter_internal_same_set_order (RS : RandomSource)
    (PY1 PY2 : Interpreter) (self : EncounterGenerator) (level : Z)
    (biome slot : string) (r : Random) :
  @set_order PY1 = @set_order PY2 ->
  _generate_encounter_internal (PY := PY1) self level biome slot r
  = _generate_encounter_internal (PY := PY2) self level biome slot r.
Proof.
  intros H.
  unfold _generate_encounter_internal, _generate_combat_encounter,
    _generate_noncombat_encounter.
  rewrite H. reflexivity.
Qed.

Lemma rooms_loop_same_set_order (RS : RandomSource) (PY1 PY2 : Interpreter)
    (self : EncounterGenerator) (base_level : Z) (biome : string)
    (slots : list string) :
  @set_order PY1 = @set_order PY2 ->
  forall idx rooms r,
    rooms_loop (PY := PY1) self base_level biome idx slots rooms r
    = rooms_loop (PY := PY2) self base_level biome idx slots rooms r.
Proof.
  intros H. induction slots as [| slot rest IH]; intros idx rooms r;
    [reflexivity |].
  cbn [rooms_loop]. unfold bind.
  rewrite (encounter_internal_same_set_order RS PY1 PY2 _ _ _ _ _ H).
  destruct (_generate_encounter_internal self _ biome slot r) as [[e | err] r1];
    [apply IH | reflexivity].
Qed.

(** With a seed, two processes that iterate sets of strings in the same order
    return the same encounter and the same dungeon. *)
Lemma seeded_runs_agree_for_one_set_order (RS : RandomSource)
    (PY1 PY2 : Interpreter) (t : Tables) (data : LootData) (level : Z)
    (biome slot : string) (seed : Z) :
  @set_order PY1 = @set_order PY2 ->
  api.generate_single_encounter (PY := PY1) t data level biome slot (Some seed)
  = api.generate_single_encounter (PY := PY2) t data level biome slot (Some seed)
  /\ api.generate_five_room_dungeon (PY := PY1) t data level biome (Some seed)
     = api.generate_five_room_dungeon (PY := PY2) t data level biome (Some seed).
Proof.
  intros H. split.
  - unfold api.generate_single_encounter, generate_single_encounter.
    cbn [encountergen.__init__ get_default]. unfold bind.
    rewrite (encounter_internal_same_set_order RS PY1 PY2 _ _ _ _ _ H).
    reflexivity.
  - unfold api.generate_five_room_dungeon, generate_five_room_dungeon.
    cbn [encountergen.__init__ get_default]. unfold bind.
    rewrite (rooms_loop_same_set_order RS PY1 PY2 _ _ _ _ H).
    reflexivity.
Qed.

(** C1.  With the same tables, the same seed 1234 and the same inputs, a
    process that iterates the set of merged tags as (ambush, raiders) and one
    that iterates it as (raiders, ambush) return different encounter records
    and different dungeon records: the ["tags"] lists come out in different
    orders.  Loot records are the same in both. *)
Theorem tag_order_varies_between_processes :
  api.generate_single_encounter (RS := lcg.source)
    (PY := interpreters.process_a)
    samples.combat_only samples.loot_tables 5 "dungeon" "entrance" (Some 1234)
  <> api.generate_single_encounter (RS := lcg.source)
       (PY := interpreters.process_b)
       samples.combat_only samples.loot_tables 5 "dungeon" "entrance" (Some 1234)
  /\ api.generate_five_room_dungeon (RS := lcg.source)
       (PY := interpreters.process_a)
       samples.combat_only samples.loot_tables 5 "dungeon" (Some 1234)
     <> api.generate_five_room_dungeon (RS := lcg.source)
          (PY := interpreters.process_b)
          samples.combat_only samples.loot_tables 5 "dungeon" (Some 1234)
  /\ generate_loot (RS := lcg.source) (PY := interpreters.process_a)
       samples.loot_tables 5 2 (Some 1234)
     = generate_loot (RS := lcg.source) (PY := interpreters.process_b)
         samples.loot_tables 5 2 (Some 1234).
Proof.
  repeat split.
  - vm_compute. intros H. inversion H.
  - vm_compute. intros H. inversion H.
Qed.

(** * Further properties of the generators *)

From Stdlib Require Import Sorted.

(** ** Level clamping *)

(** X1.  When every key of the budget table reads as an integer and there is
    at least one, [_clamp_level] returns a level between the least and the
    greatest key: the level itself when it lies between them, the least key
    below and the greatest key above. *)
Theorem clamp_level_within_keys (level : Z) (budgets : option (list (string * Q)))
    (keys : list Z) :
  int_keys (dict_keys (get_default budgets [])) = Some keys ->
  keys <> [] ->
  exists lo hi,
    In lo keys /\ In hi keys
    /\ (forall k, In k keys -> lo <= k <= hi)
    /\ lo <= _clamp_level level budgets <= hi
    /\ (lo <= level <= hi -> _clamp_level level budgets = level)
    /\ (level < lo -> _clamp_level level budgets = lo)
    /\ (hi < level -> _clamp_level level budgets = hi).
Proof.
  intros Hk Hne. unfold _clamp_level. rewrite Hk. cbn [get_default].
  destruct keys as [| k ks]; [contradiction |].
  destruct (fold_min_spec ks k) as [Hmin_in Hmin].
  destruct (fold_max_spec ks k) as [Hmax_in Hmax].
  exists (fold_left Z.min ks k), (fold_left Z.max ks k).
  pose proof (Hmin k (or_introl eq_refl)) as H1.
  pose proof (Hmax k (or_introl eq_refl)) as H2.
  repeat split; try assumption.
  - apply Hmin. assumption.
  - apply Hmax. assumption.
  - destruct (level <? _) eqn:E1; [lia |].
    destruct (_ <? level) eqn:E2; [lia |]. apply Z.ltb_ge in E1. lia.
  - destruct (level <? _) eqn:E1; [lia |].
    destruct (_ <? level) eqn:E2; [lia |]. apply Z.ltb_ge in E2. lia.
  - intros [Ha Hb].
    destruct (level <? _) eqn:E1; [apply Z.ltb_lt in E1; lia |].
    destruct (_ <? level) eqn:E2; [apply Z.ltb_lt in E2; lia |]. reflexivity.
  - intros Hlt. apply Z.ltb_lt in Hlt. rewrite Hlt. reflexivity.
  - intros Hlt.
    destruct (level <? _) eqn:E1; [apply Z.ltb_lt in E1; lia |].
    apply Z.ltb_lt in Hlt. rewrite Hlt. reflexivity.
Qed.

Lemma clamp_level_within_keys_witness :
  exists lo hi,
    In lo [1; 10] /\ In hi [1; 10]
    /\ (forall k, In k [1; 10] -> lo <= k <= hi)
    /\ lo <= _clamp_level 12 (Some [("1", 50%Q); ("10", 5000%Q)]) <= hi
    /\ (lo <= 12 <= hi ->
        _clamp_level 12 (Some [("1", 50%Q); ("10", 5000%Q)]) = 12)
    /\ (12 < lo -> _clamp_level 12 (Some [("1", 50%Q); ("10", 5000%Q)]) = lo)
    /\ (hi < 12 -> _clamp_level 12 (Some [("1", 50%Q); ("10", 5000%Q)]) = hi).
Proof.
  apply (clamp_level_within_keys 12 (Some [("1", 50%Q); ("10", 5000%Q)]) [1; 10]).
  - reflexivity.
  - discriminate.
Defined.

(** X2.  On a budget table whose keys all read as integers (an absent or an
    empty table among them) [_clamp_level] is idempotent, and monotone in the
    level. *)
Theorem clamp_level_idempotent_monotone (budgets : option (list (string * Q)))
    (keys : list Z) (l1 l2 : Z) :
  int_keys (dict_keys (get_default budgets [])) = Some keys ->
  _clamp_level (_clamp_level l1 budgets) budgets = _clamp_level l1 budgets
  /\ (l1 <= l2 -> _clamp_level l1 budgets <= _clamp_level l2 budgets).
Proof.
  intros Hk. unfold _clamp_level. rewrite Hk. cbn [get_default].
  destruct keys as [| k ks].
  - split; lia.
  - pose proof (proj2 (fold_min_spec ks k) k (or_introl eq_refl)) as H1.
    pose proof (proj2 (fold_max_spec ks k) k (or_introl eq_refl)) as H2.
    set (lo := fold_left Z.min ks k) in *.
    set (hi := fold_left Z.max ks k) in *.
    split.
    + destruct (l1 <? lo) eqn:E1.
      * rewrite Z.ltb_irrefl.
        destruct (hi <? lo) eqn:E2; [apply Z.ltb_lt in E2; lia | reflexivity].
      * destruct (hi <? l1) eqn:E2.
        -- destruct (hi <? lo) eqn:E3; [apply Z.ltb_lt in E3; lia |].
           rewrite Z.ltb_irrefl. reflexivity.
        -- rewrite E1, E2. reflexivity.
    + intros Hle.
      destruct (l1 <? lo) eqn:E1; destruct (l2 <? lo) eqn:E2;
        destruct (hi <? l1) eqn:E3; destruct (hi <? l2) eqn:E4;
        rewrite ?Z.ltb_lt, ?Z.ltb_ge in *; lia.
Qed.

Lemma clamp_level_idempotent_monotone_witness :
  _clamp_level (_clamp_level 0 (Some [("1", 50%Q); ("10", 5000%Q)]))
    (Some [("1", 50%Q); ("10", 5000%Q)])
  = _clamp_level 0 (Some [("1", 50%Q); ("10", 5000%Q)])
  /\ (0 <= 12 ->
      _clamp_level 0 (Some [("1", 50%Q); ("10", 5000%Q)])
      <= _clamp_level 12 (Some [("1", 50%Q); ("10", 5000%Q)])).
Proof.
  apply (clamp_level_idempotent_monotone
           (Some [("1", 50%Q); ("10", 5000%Q)]) [1; 10] 0 12).
  reflexivity.
Defined.

(** ** Indexing by id *)

Lemma dict_get_set_same {V : Type} (k : string) (v : V) (d : list (string * V)) :
  dict_get k (dict_set k v d) = Some v.
Proof.
  induction d as [| [k' v'] rest IH]; cbn [dict_set dict_get].
  - rewrite String.eqb_refl. reflexivity.
  - destruct (String.eqb k k') eqn:E; cbn [dict_get].
    + rewrite String.eqb_refl. reflexivity.
    + rewrite E. exact IH.
Qed.

Lemma dict_get_set_other {V : Type} (k k' : string) (v : V)
    (d : list (string * V)) :
  k <> k' -> dict_get k (dict_set k' v d) = dict_get k d.
Proof.
  intros Hne. induction d as [| [k2 v2] rest IH]; cbn [dict_set dict_get].
  - destruct (String.eqb_spec k k'); [contradiction | reflexivity].
  - destruct (String.eqb_spec k' k2) as [-> | Hne2]; cbn [dict_get].
    + destruct (String.eqb_spec k k2); [contradiction | reflexivity].
    + destruct (String.eqb k k2); [reflexivity | exact IH].
Qed.

Lemma dict_set_keys_in {V : Type} (k k' : string) (v : V)
    (d : list (string * V)) :
  In k (dict_keys (dict_set k' v d)) <-> k = k' \/ In k (dict_keys d).
Proof.
  induction d as [| [k2 v2] rest IH]; cbn [dict_set].
  - cbn. intuition congruence.
  - destruct (String.eqb_spec k' k2) as [-> | Hne]; cbn in *.
    + intuition congruence.
    + rewrite IH. intuition congruence.
Qed.

Lemma dict_set_nodup {V : Type} (k : string) (v : V) (d : list (string * V)) :
  NoDup (dict_keys d) -> NoDup (dict_keys (dict_set k v d)).
Proof.
  induction d as [| [k2 v2] rest IH]; intros Hnd; cbn [dict_set].
  - repeat constructor. intros [].
  - inversion Hnd as [| x l Hnot Hrest]; subst.
    destruct (String.eqb_spec k k2) as [-> | Hne]; cbn.
    + constructor; assumption.
    + constructor; [| exact (IH Hrest)].
      intros Hin. apply dict_set_keys_in in Hin.
      destruct Hin as [-> | Hin]; [apply Hne; reflexivity | exact (Hnot Hin)].
Qed.

Lemma find_app_last {A : Type} (p : A -> bool) (l : list A) (x : A) :
  find p (l ++ [x])
  = match find p l with
    | Some y => Some y
    | None => if p x then Some x else None
    end.
Proof.
  induction l as [| y l IH]; cbn [app find]; [reflexivity |].
  destruct (p y); [reflexivity | exact IH].
Qed.

(** Whether an item carries the string id [k]. *)
Definition has_id {A : Type} (key : A -> option string) (k : string) (it : A)
  : bool :=
  match key it with
  | Some k' => String.eqb k k'
  | None => false
  end.

Lemma index_by_id_fold {A : Type} (key : A -> option string) (k : string)
    (items : list A) :
  forall out,
    dict_get k
      (fold_left (fun out it =>
                    match key it with
                    | Some id_val => dict_set id_val it out
                    | None => out
                    end) items out)
    = match find (has_id key k) (rev items) with
      | Some it => Some it
      | None => dict_get k out
      end
    /\ (NoDup (dict_keys out) ->
        NoDup (dict_keys
                 (fold_left (fun out it =>
                               match key it with
                               | Some id_val => dict_set id_val it out
                               | None => out
                               end) items out))).
Proof.
  induction items as [| x l IH]; intros out; cbn [fold_left rev].
  - split; [reflexivity | tauto].
  - rewrite find_app_last.
    destruct (IH (match key x with
                  | Some id_val => dict_set id_val x out
                  | None => out
                  end)) as [Hget Hnd].
    split.
    + rewrite Hget. destruct (find (has_id key k) (rev l)); [reflexivity |].
      unfold has_id. destruct (key x) as [k' |]; [| reflexivity].
      destruct (String.eqb_spec k k') as [<- | Hne].
      * apply dict_get_set_same.
      * apply dict_get_set_other. exact Hne.
    + intros H. apply Hnd. destruct (key x); [apply dict_set_nodup |]; exact H.
Qed.

(** X3.  Looking an id up in the index built by [_index_by_id] returns the
    last item of the list that carries this id as a string (items without a
    string id are not indexed); the index has no two entries for one id. *)
Theorem index_by_id_last_wins {A : Type} (key : A -> option string)
    (items : list A) (k : string) :
  dict_get k (_index_by_id key items) = find (has_id key k) (rev items)
  /\ NoDup (dict_keys (_index_by_id key items)).
Proof.
  unfold _index_by_id. destruct (index_by_id_fold key k items []) as [Hget Hnd].
  split.
  - rewrite Hget. destruct (find _ _); reflexivity.
  - apply Hnd. constructor.
Qed.

(** ** The weighted selector of [encountergen] *)

Lemma Qmax0_nonneg (w : Q) : (0 <= Qmax0 w)%Q.
Proof.
  unfold Qmax0. destruct (Qle_bool 0 w) eqn:E; [| lra].
  apply Qle_bool_iff. exact E.
Qed.

Lemma scan_in {A : Type} (items : list (A * Q)) :
  forall r acc item, scan r acc items = Some item -> In item (map fst items).
Proof.
  induction items as [| [x w] rest IH]; intros r acc item H; cbn [scan] in H.
  - discriminate H.
  - destruct (Qle_bool r (acc + Qmax0 w)).
    + inversion H. left. reflexivity.
    + right. exact (IH _ _ _ H).
Qed.

(** X4.  On a non-empty list [encountergen._weighted_choice] never raises and
    returns a candidate of the list.  When the clamped total is not positive
    it returns the first candidate and draws nothing; otherwise it takes
    exactly one [random()] draw, and a draw of exactly 0 returns the first
    candidate whatever its weight (the total being at most 2^1023, within
    the range of a float). *)
Theorem encounter_choice_member (RS : RandomSource) {A : Type}
    (x : A) (w : Q) (rest : list (A * Q)) (r : Random) :
  exists item r',
    encountergen._weighted_choice ((x, w) :: rest) r = (Ok item, r')
    /\ In item (map fst ((x, w) :: rest))
    /\ ((total_weight ((x, w) :: rest) <= 0)%Q -> item = x /\ r' = r)
    /\ ((0 < total_weight ((x, w) :: rest))%Q -> r' = snd (rng_random r))
    /\ ((0 < total_weight ((x, w) :: rest))%Q ->
        (total_weight ((x, w) :: rest) <= inject_Z (2 ^ 1023))%Q ->
        (fst (rng_random r) == 0)%Q ->
        item = x).
Proof.
  unfold encountergen._weighted_choice.
  destruct (Qle_bool (total_weight ((x, w) :: rest)) 0) eqn:E.
  - exists x, r. apply Qle_bool_iff in E.
    split; [reflexivity |]. split; [left; reflexivity |].
    split; [tauto |]. split; intros H; lra.
  - assert (Hpos : (0 < total_weight ((x, w) :: rest))%Q).
    { apply Qnot_le_lt. intros H. apply Qle_bool_iff in H. congruence. }
    rewrite (bind_ok _ _ _ _ _ (random_ok r)).
    set (u := fst (rng_random r)) in *.
    destruct (scan (u * total_weight ((x, w) :: rest)) 0%Q ((x, w) :: rest))
      as [item |] eqn:Es.
    + exists item, (snd (rng_random r)).
      split; [reflexivity |]. split; [exact (scan_in _ _ _ _ Es) |].
      split; [intros H; lra |]. split; [reflexivity |].
      intros _ _ Hz. cbn [scan] in Es.
      assert (Hr : Qle_bool (u * total_weight ((x, w) :: rest)) (0 + Qmax0 w)
                   = true).
      { apply Qle_bool_iff. rewrite Hz. pose proof (Qmax0_nonneg w). lra. }
      rewrite Hr in Es. inversion Es. reflexivity.
    + cbn [scan] in Es.
      destruct (Qle_bool (u * total_weight ((x, w) :: rest)) (0 + Qmax0 w))
        eqn:Er; [discriminate Es |].
      destruct (rev ((x, w) :: rest)) as [| [y wy] l] eqn:Erev.
      { apply (f_equal (@List.length _)) in Erev.
        rewrite length_rev in Erev. discriminate Erev. }
      exists y, (snd (rng_random r)).
      split; [reflexivity |]. split.
      * apply (in_map fst) with (x := (y, wy)). apply in_rev.
        rewrite Erev. left. reflexivity.
      * split; [intros H; lra |]. split; [reflexivity |].
        intros _ _ Hz.
        assert (Hr : Qle_bool (u * total_weight ((x, w) :: rest))
                       (0 + Qmax0 w) = true).
        { apply Qle_bool_iff. rewrite Hz. pose proof (Qmax0_nonneg w). lra. }
        congruence.
Qed.

(** ** The selector of [lootgen] *)

Lemma choices_member {RS : RandomSource} {A : Type} (x : A) (population : list A)
    (w : Q) (weights : list Q) (r : Random) :
  Forall (fun w => 0 < w)%Q (w :: weights) ->
  exists y, choices (x :: population) (w :: weights) r
            = (Ok y, snd (rng_random r))
            /\ In y (x :: population).
Proof.
  intros Hws. inversion Hws as [| w0 l Hw Hrest]; subst.
  unfold choices. cbn [accumulate].
  assert (Htotal : (0 < last (w :: accumulate_from w weights) 0%Q)%Q).
  { destruct weights as [| w' ws']; [exact Hw |].
    pose proof (last_accumulate_positive (w' :: ws') w 0%Q Hw Hrest
                  ltac:(discriminate)) as H.
    cbn [accumulate_from last] in *. exact H. }
  destruct (Qle_bool (last (w :: accumulate_from w weights) 0%Q) 0%Q) eqn:E.
  { apply Qle_bool_iff in E. lra. }
  rewrite (bind_ok _ _ _ _ _ (random_ok r)).
  set (i := bisect _ _ _ _ _).
  assert (Hi : (i < List.length (x :: population))%nat).
  { pose proof (bisect_range (S (List.length (x :: population)))
                  (w :: accumulate_from w weights)
                  (fst (rng_random r)
                   * last (w :: accumulate_from w weights) 0%Q)%Q
                  0 (List.length (x :: population) - 1) ltac:(lia)) as H.
    fold i in H. cbn [List.length] in *. lia. }
  destruct (nth_error (x :: population) i) as [y |] eqn:En.
  - exists y. split; [reflexivity | exact (nth_error_In _ _ En)].
  - apply nth_error_None in En. lia.
Qed.

Lemma positive_weights (l : list LootItem) :
  (forall x, In x l -> weight_positive x) ->
  Forall (fun w => 0 < w)%Q (map (fun x => get_default (item_weight x) 1%Q) l).
Proof.
  induction l as [| y l IH]; intros Hl; constructor.
  - pose proof (Hl y (or_introl eq_refl)) as Hy. unfold weight_positive in Hy.
    destruct (item_weight y) as [w |]; [exact (Hy w eq_refl) | reflexivity].
  - apply IH. intros z Hz. apply Hl. right. exact Hz.
Qed.

(** The weights of a pool, summed; an entry without weight counts 1.0. *)
Definition pool_weight (items : list LootItem) : Q :=
  fold_right (fun it total => (get_default (item_weight it) 1 + total)%Q)
    0%Q items.

(** X5.  [lootgen._weighted_choice] on an empty pool returns the empty item
    [{}] and draws nothing.  On a non-empty pool an item it returns is an
    item of the pool and exactly one [random()] draw is taken; it does return
    one when the weights that are present are positive (their sum being at
    most 2^1023, within the range of a float).  An entry without weight is
    selected as the same entry with weight 1.0: the selector runs the same on
    the pool with the defaults written out. *)
Theorem loot_choice_member (RS : RandomSource) (items : list LootItem)
    (r : Random) :
  (items = [] -> lootgen._weighted_choice items r = (Ok no_item, r))
  /\ (forall y r',
         items <> [] ->
         lootgen._weighted_choice items r = (Ok y, r') ->
         In y items /\ r' = snd (rng_random r)
         /\ lootgen._weighted_choice (map with_defaults items) r
            = (Ok (with_defaults y), r'))
  /\ (forall e r',
         lootgen._weighted_choice items r = (Err e, r') ->
         lootgen._weighted_choice (map with_defaults items) r = (Err e, r'))
  /\ (items <> [] ->
      (forall it, In it items -> weight_positive it) ->
      (pool_weight items <= inject_Z (2 ^ 1023))%Q ->
      exists y, lootgen._weighted_choice items r = (Ok y, snd (rng_random r))).
Proof.
  destruct items as [| it rest].
  - split; [reflexivity |]. split; [intros y r' H; contradiction H; reflexivity |].
    split; [intros e r' H; discriminate H |].
    intros H; contradiction H; reflexivity.
  - split; [discriminate |]. split; [| split].
    + intros y r' _ H. rewrite loot_choice_with_defaults.
      rewrite (bind_ok _ _ _ _ _ H).
      unfold lootgen._weighted_choice in H.
      destruct (choices_in _ _ _ _ _ H) as [Hin Hr].
      repeat split; assumption.
    + intros e r' H. rewrite loot_choice_with_defaults.
      unfold bind. rewrite H. reflexivity.
    + intros _ Hw _. unfold lootgen._weighted_choice. cbn [map].
      destruct (choices_member it rest
                  (get_default (item_weight it) 1%Q)
                  (map (fun x => get_default (item_weight x) 1%Q) rest) r)
        as (y & Hrun & _).
      { exact (positive_weights (it :: rest) Hw). }
      exists y. exact Hrun.
Qed.

(** ** Uniform choice *)

Lemma choice_member {RS : RandomSource} {A : Type} (x : A) (l : list A)
    (r : Random) :
  exists y,
    choice (x :: l) r
    = (Ok y, snd (rng_randbelow (Z.of_nat (List.length (x :: l))) r))
    /\ In y (x :: l).
Proof.
  unfold choice, bind, _randbelow.
  pose proof (rng_randbelow_range (Z.of_nat (List.length (x :: l))) r
                ltac:(cbn [List.length]; lia)) as Hk.
  destruct (rng_randbelow (Z.of_nat (List.length (x :: l))) r) as [k r1].
  cbn [fst snd] in *.
  destruct (nth_error (x :: l) (Z.to_nat k)) as [y |] eqn:E.
  - exists y. split; [reflexivity | exact (nth_error_In _ _ E)].
  - apply nth_error_None in E. lia.
Qed.

(** ** Encounter type selection *)

Definition row_contains (roll : Z) (row : TypeRow) : Prop :=
  get_default (row_min row) (get_default (row_max row) 1) <= roll
  <= get_default (row_max row)
       (get_default (row_min row) (get_default (row_max row) 1)).

Lemma find_row_spec (roll : Z) (rows : list TypeRow) :
  (find_row roll rows = "combat"
   /\ forall row, In row rows -> ~ row_contains roll row)
  \/ exists before row after,
       rows = (before ++ row :: after)%list
       /\ (forall row', In row' before -> ~ row_contains roll row')
       /\ row_contains roll row
       /\ find_row roll rows = get_default (row_type row) "combat".
Proof.
  induction rows as [| row rest IH]; cbn [find_row].
  - left. split; [reflexivity | intros row []].
  - destruct ((_ <=? roll) && (roll <=? _)) eqn:E.
    + right. exists [], row, rest. split; [reflexivity |].
      split; [intros row' [] |]. split; [| reflexivity].
      apply andb_true_iff in E. unfold row_contains. lia.
    + assert (Hnot : ~ row_contains roll row).
      { unfold row_contains. apply andb_false_iff in E.
        destruct E as [E | E]; apply Z.leb_gt in E; lia. }
      destruct IH as [[Hc Hall] | (before & row' & after & -> & Hb & Hin & Hr)].
      * left. split; [exact Hc |]. intros r0 [<- | Hr0]; [exact Hnot |].
        exact (Hall _ Hr0).
      * right. exists (row :: before), row', after.
        split; [reflexivity |]. split; [| split; assumption].
        intros r0 [<- | Hr0]; [exact Hnot | exact (Hb _ Hr0)].
Qed.

(** X6.  [_choose_encounter_type] never raises.  Without encounter-type
    tables it returns "combat" and draws nothing.  Otherwise it draws twice
    (a table, then a die roll between 1 and the die size, at least 1); the
    table passes the biome and slot gates whenever some table does; and the
    type returned is that of the first row whose range contains the roll
    ("combat" when that row names no type), or "combat" when no row does. *)
Theorem choose_encounter_type_spec (RS : RandomSource)
    (self : EncounterGenerator) (slot biome : string) (r : Random) :
  exists t r',
    _choose_encounter_type self slot biome r = (Ok t, r')
    /\ (or_list (encounter_types (tables self)) [] = [] ->
        t = "combat" /\ r' = r)
    /\ (or_list (encounter_types (tables self)) [] <> [] ->
        exists table roll,
          In table (or_list (encounter_types (tables self)) [])
          /\ ((exists t0, In t0 (or_list (encounter_types (tables self)) [])
                          /\ gate_ok biome (tt_biomes t0) = true
                          /\ gate_ok slot (tt_slots t0) = true) ->
              gate_ok biome (tt_biomes table) = true
              /\ gate_ok slot (tt_slots table) = true)
          /\ 1 <= roll <= Z.max 1 (get_default (tt_die table) 20)
          /\ ((t = "combat"
               /\ forall row, In row (or_list (tt_rows table) []) ->
                              ~ row_contains roll row)
              \/ exists before row after,
                   or_list (tt_rows table) [] = (before ++ row :: after)%list
                   /\ (forall row', In row' before -> ~ row_contains roll row')
                   /\ row_contains roll row
                   /\ t = get_default (row_type row) "combat")
          /\ exists n,
               r' = snd (rng_randbelow
                           (Z.max 1 (get_default (tt_die table) 20))
                           (snd (rng_randbelow n r)))).
Proof.
  unfold _choose_encounter_type.
  destruct (or_list (encounter_types (tables self)) []) as [| t0 ts] eqn:Et.
  - exists "combat", r. split; [reflexivity |].
    split; [intros _; split; reflexivity | intros H; contradiction H; reflexivity].
  - set (tbls := t0 :: ts) in *.
    set (gate := fun t => gate_ok biome (tt_biomes t) && gate_ok slot (tt_slots t)).
    set (cands := match filter gate tbls with [] => tbls | _ => filter gate tbls end).
    assert (Hc : cands <> [] /\ (forall t, In t cands -> In t tbls)
                 /\ ((exists t, In t tbls /\ gate t = true) ->
                     forall t, In t cands -> gate t = true)).
    { subst cands. destruct (filter gate tbls) as [| c cs] eqn:Ef.
      - split; [discriminate |]. split; [tauto |].
        intros (t & Hin & Hg) t1 _. exfalso.
        assert (Hf : In t (filter gate tbls)) by (apply filter_In; tauto).
        rewrite Ef in Hf. exact Hf.
      - split; [discriminate |]. rewrite <- Ef.
        split; intros; [| intros]; try (apply filter_In in H; tauto).
        apply filter_In in H0. tauto. }
    destruct Hc as (Hne & Hsub & Hgate).
    destruct cands as [| c cs] eqn:Ec; [congruence |].
    destruct (choice_member c cs r) as (table & Hch & Hin).
    rewrite (bind_ok _ _ _ _ _ Hch).
    destruct (randint_ok 1 (Z.max 1 (get_default (tt_die table) 20))
                (snd (rng_randbelow (Z.of_nat (List.length (c :: cs))) r))
                ltac:(lia))
      as (roll & r2 & Hroll & Hrange).
    rewrite (bind_ok _ _ _ _ _ Hroll).
    eexists. exists r2. split; [reflexivity |]. split; [discriminate |].
    intros _. exists table, roll.
    split; [apply Hsub; exact Hin |]. split.
    + intros (t1 & Ht1 & Hb & Hs).
      assert (Hg : gate table = true).
      { apply Hgate; [| exact Hin]. exists t1. split; [exact Ht1 |].
        unfold gate. rewrite Hb, Hs. reflexivity. }
      unfold gate in Hg. apply andb_true_iff in Hg. exact Hg.
    + split; [exact Hrange |]. split; [apply find_row_spec |].
      exists (Z.of_nat (List.length (c :: cs))).
      unfold randint in Hroll.
      destruct (Z.max 1 (get_default (tt_die table) 20) <? 1) eqn:E;
        [apply Z.ltb_lt in E; lia |].
      replace (Z.max 1 (get_default (tt_die table) 20) - 1 + 1)
        with (Z.max 1 (get_default (tt_die table) 20)) in Hroll by lia.
      unfold bind, _randbelow, ret in Hroll.
      destruct (rng_randbelow (Z.max 1 (get_default (tt_die table) 20)) _)
        as [k r3].
      inversion Hroll. reflexivity.
Qed.

(** ** Environment selection *)

Lemma index_by_id_get {A : Type} (key : A -> option string) (items : list A)
    (k : string) :
  dict_get k (_index_by_id key items) = find (has_id key k) (rev items).
Proof.
  unfold _index_by_id. rewrite (proj1 (index_by_id_fold key k items [])).
  destruct (find _ _); reflexivity.
Qed.

(** X7.  On a generator built by [__init__], [_select_environment] never
    raises.  Without presets it returns the neutral descriptor and draws
    nothing.  With presets, a non-empty [specific_id] that is the id of a
    preset returns the last preset with that id and draws nothing; otherwise
    one draw picks a preset of the table, and the preset picked matches the
    biome and the tags whenever some preset does. *)
Theorem select_environment_spec (RS : RandomSource) (PY : Interpreter)
    (t : Tables) (seed_arg : option Z) (data : LootData) (biome : string)
    (tags : list string) (specific_id : option string) (r : Random) :
  exists env r',
    _select_environment (fst (__init__ t seed_arg data)) biome tags
      specific_id r = (Ok env, r')
    /\ (or_list (environment_presets t) [] = [] ->
        env = neutral_environment /\ r' = r)
    /\ (or_list (environment_presets t) [] <> [] ->
        exists p,
          In p (or_list (environment_presets t) [])
          /\ env = environment_of p
          /\ (forall id q,
                 specific_id = Some id -> id <> "" ->
                 find (has_id env_id id) (rev (or_list (environment_presets t) []))
                 = Some q ->
                 p = q /\ r' = r)
          /\ (specific_id = None \/ specific_id = Some ""
              \/ (exists id,
                     specific_id = Some id
                     /\ find (has_id env_id id)
                          (rev (or_list (environment_presets t) [])) = None) ->
              (exists n, r' = snd (rng_randbelow n r))
              /\ ((exists q, In q (or_list (environment_presets t) [])
                             /\ env_candidate biome tags q = true) ->
                  env_candidate biome tags p = true))).
Proof.
  unfold _select_environment. cbn [encountergen.__init__ fst tables _env_index].
  destruct (or_list (environment_presets t) []) as [| p0 ps] eqn:Ep.
  - exists neutral_environment, r. split; [reflexivity |].
    split; [intros _; split; reflexivity | intros H; contradiction H; reflexivity].
  - assert (Hidx : get_default (environment_presets t) [] = p0 :: ps).
    { destruct (environment_presets t) as [[| a l] |]; cbn in *; congruence. }
    rewrite Hidx.
    set (presets := p0 :: ps) in *.
    set (specific :=
           match specific_id with
           | Some EmptyString => None
           | Some sid => dict_get sid (_index_by_id env_id presets)
           | None => None
           end).
    assert (Hspec : specific
                    = match specific_id with
                      | Some EmptyString => None
                      | Some sid => find (has_id env_id sid) (rev presets)
                      | None => None
                      end).
    { subst specific. destruct specific_id as [[| c s] |]; try reflexivity.
      apply index_by_id_get. }
    destruct specific as [env |] eqn:Es.
    + exists (environment_of env), r. split; [reflexivity |].
      split; [discriminate |]. intros _. exists env.
      assert (Hfind : exists id, specific_id = Some id /\ id <> ""
                                 /\ find (has_id env_id id) (rev presets)
                                    = Some env).
      { destruct specific_id as [[| c s] |]; try discriminate.
        exists (String c s). repeat split; [discriminate | congruence]. }
      destruct Hfind as (id & Hid & Hne & Hf).
      split; [apply in_rev; apply (find_some _ _ Hf) |].
      split; [reflexivity |]. split.
      * intros id' q Hid' _ Hq. rewrite Hid in Hid'. inversion Hid'; subst id'.
        rewrite Hf in Hq. inversion Hq. split; reflexivity.
      * intros [H | [H | (id' & H & Hn)]]; congruence.
    + set (cands := match filter (env_candidate biome tags) presets with
                    | [] => presets
                    | _ => filter (env_candidate biome tags) presets
                    end).
      assert (Hc : cands <> [] /\ (forall q, In q cands -> In q presets)
                   /\ ((exists q, In q presets
                                  /\ env_candidate biome tags q = true) ->
                       forall q, In q cands ->
                                 env_candidate biome tags q = true)).
      { subst cands.
        destruct (filter (env_candidate biome tags) presets) as [| c cs] eqn:Ef.
        - split; [discriminate |]. split; [tauto |].
          intros (q & Hin & Hg) q1 _. exfalso.
          assert (Hf : In q (filter (env_candidate biome tags) presets))
            by (apply filter_In; tauto).
          rewrite Ef in Hf. exact Hf.
        - split; [discriminate |]. rewrite <- Ef.
          split; [intros q Hq | intros _ q Hq]; apply filter_In in Hq; tauto. }
      destruct Hc as (Hne & Hsub & Hgate).
      destruct cands as [| c cs] eqn:Ec; [congruence |].
      destruct (choice_member c cs r) as (p & Hch & Hin).
      rewrite (bind_ok _ _ _ _ _ Hch).
      eexists. eexists. split; [reflexivity |]. split; [discriminate |].
      intros _. exists p. split; [apply Hsub; exact Hin |].
      split; [reflexivity |]. split.
      * intros id q Hid Hne' Hq. exfalso.
        rewrite Hid in Hspec. destruct id as [| ch s]; [congruence |].
        congruence.
      * intros _. split; [eexists; reflexivity |].
        intros Hex. exact (Hgate Hex p Hin).
Qed.

(** ** Enemy groups *)

(** The count range an entry configures: [min] defaults to 1, [max] to [min],
    and an inverted range collapses to [min]. *)
Definition entry_cmin (entry : EnemyEntry) : Z :=
  get_default
    (match entry_count entry with Some c => count_min c | None => None end) 1.

Definition entry_cmax (entry : EnemyEntry) : Z :=
  let cmax :=
    get_default
      (match entry_count entry with Some c => count_max c | None => None end)
      (entry_cmin entry) in
  if cmax <? entry_cmin entry then entry_cmin entry else cmax.

Definition enemy_of_entry (entries : list EnemyEntry) (enemy : json) : Prop :=
  exists entry c,
    In entry entries
    /\ json_get "monster_id" enemy = Some (opt_json JStr (entry_monster_id entry))
    /\ json_get "count" enemy = Some (JInt c)
    /\ entry_cmin entry <= c <= entry_cmax entry
    /\ 1 <= c.

Lemma enemies_loop_spec {RS : RandomSource} (self : EncounterGenerator)
    (group : EnemyGroup) (entries : list EnemyEntry) :
  forall (out : list json) (r : Random),
  exists new r',
    enemies_loop self group entries out r = (Ok (out ++ new)%list, r')
    /\ (List.length new <= List.length entries)%nat
    /\ Forall (enemy_of_entry entries) new
    /\ ((forall entry, In entry entries -> 1 <= entry_cmin entry) ->
        List.length new = List.length entries).
Proof.
  induction entries as [| entry rest IH]; intros out r; cbn [enemies_loop].
  - exists [], r. rewrite app_nil_r. repeat split; constructor.
  - fold (entry_cmin entry). 
    change (if get_default
                 match entry_count entry with
                 | Some c => count_max c
                 | None => None
                 end (entry_cmin entry) <? entry_cmin entry
            then entry_cmin entry
            else get_default
                   match entry_count entry with
                   | Some c => count_max c
                   | None => None
                   end (entry_cmin entry))
      with (entry_cmax entry).
    assert (Hle : entry_cmin entry <= entry_cmax entry).
    { unfold entry_cmax. destruct (_ <? _) eqn:E; [lia |].
      apply Z.ltb_ge in E. exact E. }
    destruct (randint_ok _ _ r Hle) as (count & r1 & Hrun & Hc).
    rewrite (bind_ok _ _ _ _ _ Hrun).
    assert (Hweak : forall l, Forall (enemy_of_entry rest) l ->
                              Forall (enemy_of_entry (entry :: rest)) l).
    { intros l Hl. eapply Forall_impl; [| exact Hl].
      intros e (en & c & Hin & H). exists en, c. split; [right |]; assumption. }
    destruct (count <=? 0) eqn:E.
    + destruct (IH out r1) as (new & r' & Hloop & Hlen & Hall & Hfull).
      exists new, r'. rewrite Hloop. cbn [List.length].
      repeat split; [lia | exact (Hweak _ Hall) |].
      intros Hmin. specialize (Hmin entry (or_introl eq_refl)).
      apply Z.leb_le in E. lia.
    + apply Z.leb_gt in E.
      destruct (IH (out ++ [enemy_json group (entry_monster_id entry)
                              match entry_monster_id entry with
                              | Some m => dict_get m (_monster_index self)
                              | None => None
                              end count])%list r1)
        as (new & r' & Hloop & Hlen & Hall & Hfull).
      eexists (_ :: new), r'. rewrite Hloop, <- app_assoc. cbn [app List.length].
      repeat split; [lia | |].
      * constructor; [| exact (Hweak _ Hall)].
        exists entry, count. split; [left; reflexivity |].
        repeat split; try reflexivity; lia.
      * intros Hmin. f_equal. apply Hfull.
        intros en Hin. apply Hmin. right. exact Hin.
Qed.

(** X9.  [_instantiate_enemy_group] raises "missing enemy_group_id" when the
    id is absent or empty and "Enemy group not found" when it is not indexed,
    in both cases before any draw.  For an indexed group it never raises:
    every enemy returned comes from an entry of the group, with that entry's
    monster id and a count within the entry's range and at least 1; there are
    at most as many enemies as entries, and exactly as many when every entry
    has a minimum of at least 1. *)
Theorem instantiate_enemy_group_spec (RS : RandomSource)
    (self : EncounterGenerator) (gid : option string) (level : Z) (r : Random) :
  (gid = None \/ gid = Some "" ->
   _instantiate_enemy_group self gid level r = (Err MissingEnemyGroupId, r))
  /\ (forall g, gid = Some g -> g <> "" ->
                dict_get g (_enemy_group_index self) = None ->
                _instantiate_enemy_group self gid level r
                = (Err (EnemyGroupNotFound g), r))
  /\ (forall g group,
         gid = Some g -> g <> "" ->
         dict_get g (_enemy_group_index self) = Some group ->
         exists out r',
           _instantiate_enemy_group self gid level r = (Ok out, r')
           /\ (List.length out
               <= List.length (or_list (group_enemies group) []))%nat
           /\ Forall (enemy_of_entry (or_list (group_enemies group) [])) out
           /\ ((forall entry, In entry (or_list (group_enemies group) []) ->
                              1 <= entry_cmin entry) ->
               List.length out
               = List.length (or_list (group_enemies group) []))).
Proof.
  unfold _instantiate_enemy_group. repeat split.
  - intros [-> | ->]; reflexivity.
  - intros g -> Hne Hget. destruct g as [| c s]; [contradiction |].
    rewrite Hget. reflexivity.
  - intros g group -> Hne Hget. destruct g as [| c s]; [contradiction |].
    rewrite Hget.
    destruct (enemies_loop_spec self group (or_list (group_enemies group) [])
                [] r) as (new & r' & Hloop & H).
    exists new, r'. split; [exact Hloop | exact H].
Qed.

(** ** What an encounter record is made of *)

Lemma encounter_choice_in {RS : RandomSource} {A : Type} (items : list (A * Q))
    (item : A) (r r' : Random) :
  encountergen._weighted_choice items r = (Ok item, r') ->
  In item (map fst items).
Proof.
  unfold encountergen._weighted_choice.
  destruct (Qle_bool (total_weight items) 0).
  - destruct items as [| [x w] rest]; intros H; inversion H. left. reflexivity.
  - intros H. apply bind_inv_ok in H. destruct H as (u & r1 & _ & H).
    destruct (scan _ 0%Q items) as [y |] eqn:Es.
    + inversion H; subst. exact (scan_in _ _ _ _ Es).
    + destruct (rev items) as [| [y w] l] eqn:Er; inversion H; subst.
      apply (in_map fst) with (x := (item, w)). apply in_rev.
      rewrite Er. left. reflexivity.
Qed.

Lemma combat_encounter_parts {RS : RandomSource} {PY : Interpreter}
    (self : EncounterGenerator) (level : Z) (biome slot : string)
    (enc : json) (r r' : Random) :
  _generate_combat_encounter self level biome slot r = (Ok enc, r') ->
  exists template enemies env loot r1 r2 r3,
    In template (or_list (encounter_templates (tables self)) [])
    /\ combat_candidate level biome slot template = true
    /\ _instantiate_enemy_group self (tpl_enemy_group_id template) level r1
       = (Ok enemies, r2)
    /\ _select_environment self biome
         (or_list (tpl_environment_tags template) []) None r2 = (Ok env, r3)
    /\ sub_loot self level (get_default (tpl_loot_rolls template) 1) r3
       = (Ok loot, r')
    /\ enc = encounter_json level "combat" slot biome enemies env
               (set_order (or_list (tpl_tags template) []
                           ++ environment_tags env)%list)
               loot (opt_json (fun j => j) (tpl_id template)) JNull
               (get_default (tpl_notes template) (JStr "")).
Proof.
  unfold _generate_combat_encounter.
  destruct (or_list (encounter_templates (tables self)) []) as [| t ts];
    [discriminate |].
  destruct (filter (combat_candidate level biome slot) (t :: ts))
    as [| c cs] eqn:Ef; [discriminate |].
  intros H.
  apply bind_inv_ok in H. destruct H as (template & r1 & Hch & H).
  apply bind_inv_ok in H. destruct H as (enemies & r2 & Hen & H).
  apply bind_inv_ok in H. destruct H as (env & r3 & Henv & H).
  apply bind_inv_ok in H. destruct H as (loot & r4 & Hloot & H).
  inversion H; subst.
  apply encounter_choice_in in Hch. rewrite map_map in Hch. cbn [fst] in Hch.
  rewrite map_id in Hch. rewrite <- Ef in Hch. apply filter_In in Hch.
  exists template, enemies, env, loot, r1, r2, r3.
  repeat split; try assumption; tauto.
Qed.

Lemma noncombat_encounter_parts {RS : RandomSource} {PY : Interpreter}
    (self : EncounterGenerator) (level : Z) (biome slot enc_type : string)
    (enc : json) (r r' : Random) :
  _generate_noncombat_encounter self level biome slot enc_type r = (Ok enc, r') ->
  (enc = _generate_empty_encounter level biome slot /\ r' = r)
  \/ exists table template env loot r1 r2,
       noncombat_table (tables self) enc_type = Some table
       /\ In template (or_list table [])
       /\ noncombat_candidate level biome slot template = true
       /\ _select_environment self biome
            (or_list (nc_environment_tags template) [])
            (nc_environment_preset_id template) r1 = (Ok env, r2)
       /\ (if get_default (nc_award_loot template) false
           then sub_loot self level (get_default (nc_loot_rolls template) 1) r2
                = (Ok loot, r')
           else loot = JNull /\ r' = r2)
       /\ enc = encounter_json level enc_type slot biome [] env
                  (set_order (or_list (nc_tags template) []
                              ++ environment_tags env)%list)
                  loot JNull (opt_json (fun j => j) (nc_id template))
                  (get_default (nc_notes template) (JStr "")).
Proof.
  unfold _generate_noncombat_encounter.
  destruct (noncombat_table (tables self) enc_type) as [table |];
    [| intros H; inversion H; left; split; reflexivity].
  destruct (or_list table []) as [| e es] eqn:Et;
    [intros H; inversion H; left; split; reflexivity |].
  destruct (filter (noncombat_candidate level biome slot) (e :: es))
    as [| c cs] eqn:Ef; [intros H; inversion H; left; split; reflexivity |].
  intros H. right.
  apply bind_inv_ok in H. destruct H as (template & r1 & Hch & H).
  apply bind_inv_ok in H. destruct H as (env & r2 & Henv & H).
  apply bind_inv_ok in H. destruct H as (loot & r3 & Hloot & H).
  inversion H; subst.
  apply encounter_choice_in in Hch. rewrite map_map in Hch. cbn [fst] in Hch.
  rewrite map_id in Hch. rewrite <- Ef in Hch. apply filter_In in Hch.
  exists table, template, env, loot, r1, r2.
  split; [reflexivity |]. rewrite Et.
  repeat split; try tauto; try assumption.
  destruct (get_default (nc_award_loot template) false); [exact Hloot |].
  inversion Hloot. split; reflexivity.
Qed.

Definition encounter_types_known : list string :=
  ["combat"; "puzzle"; "social"; "exploration"; "empty"].

(** X10.  An encounter returned by [_generate_encounter_internal] repeats its
    inputs ([difficulty] is the level asked, [slot] and [biome] those asked)
    and its [type] is one of combat, puzzle, social, exploration, empty; a
    type name of the table outside these gives an empty encounter.  Only a
    combat encounter has a [template_id], only a puzzle, social or
    exploration encounter a [noncombat_id], and an empty encounter has no
    tags and null loot. *)
Theorem encounter_echoes_inputs (RS : RandomSource) (PY : Interpreter)
    (self : EncounterGenerator) (level : Z) (biome slot : string)
    (enc : json) (r r' : Random) :
  _generate_encounter_internal self level biome slot r = (Ok enc, r') ->
  json_get "difficulty" enc = Some (JInt level)
  /\ json_get "slot" enc = Some (JStr slot)
  /\ json_get "biome" enc = Some (JStr biome)
  /\ exists type meta,
       json_get "type" enc = Some (JStr type)
       /\ In type encounter_types_known
       /\ json_get "meta" enc = Some meta
       /\ (type <> "combat" -> json_get "template_id" meta = Some JNull)
       /\ (type = "combat" \/ type = "empty" ->
           json_get "noncombat_id" meta = Some JNull)
       /\ (type = "empty" ->
           json_get "tags" enc = Some (JList [])
           /\ json_get "loot" enc = Some JNull
           /\ json_get "enemies" enc = Some (JList [])).
Proof.
  unfold _generate_encounter_internal. intros H.
  apply bind_inv_ok in H. destruct H as (enc_type & r1 & _ & H).
  assert (Hempty :
            forall e, e = _generate_empty_encounter level biome slot ->
            json_get "difficulty" e = Some (JInt level)
            /\ json_get "slot" e = Some (JStr slot)
            /\ json_get "biome" e = Some (JStr biome)
            /\ exists type meta,
                 json_get "type" e = Some (JStr type)
                 /\ In type encounter_types_known
                 /\ json_get "meta" e = Some meta
                 /\ (type <> "combat" ->
                     json_get "template_id" meta = Some JNull)
                 /\ (type = "combat" \/ type = "empty" ->
                     json_get "noncombat_id" meta = Some JNull)
                 /\ (type = "empty" ->
                     json_get "tags" e = Some (JList [])
                     /\ json_get "loot" e = Some JNull
                     /\ json_get "enemies" e = Some (JList []))).
  { intros e ->. repeat split. eexists. eexists.
    split; [reflexivity |]. split; [cbn; tauto |].
    split; [reflexivity |]. repeat split. }
  destruct (String.eqb enc_type "combat") eqn:Ec.
  - apply combat_encounter_parts in H.
    destruct H as (tpl & en & env & loot & ? & ? & ? & _ & _ & _ & _ & _ & ->).
    repeat split. eexists. eexists.
    split; [reflexivity |]. split; [left; reflexivity |].
    split; [reflexivity |].
    split; [intros Hne; contradiction Hne; reflexivity |].
    split; [reflexivity | discriminate].
  - destruct (str_in enc_type ["puzzle"; "social"; "exploration"]) eqn:Es.
    + apply noncombat_encounter_parts in H.
      destruct H as [[-> _] | (tb & tpl & env & loot & ? & ? & _ & _ & _ & _ & _ & ->)];
        [apply Hempty; reflexivity |].
      assert (Hty : In enc_type encounter_types_known
                    /\ enc_type <> "combat" /\ enc_type <> "empty").
      { cbn in Es. apply String.eqb_neq in Ec.
        destruct (String.eqb_spec enc_type "puzzle") as [-> | _];
          [cbn; intuition discriminate |].
        destruct (String.eqb_spec enc_type "social") as [-> | _];
          [cbn; intuition discriminate |].
        destruct (String.eqb_spec enc_type "exploration") as [-> | _];
          [cbn; intuition discriminate | discriminate]. }
      destruct Hty as (Hin & Hnc & Hne).
      repeat split. eexists. eexists.
      split; [reflexivity |]. split; [exact Hin |].
      split; [reflexivity |]. split; [reflexivity |].
      split; [intros [Hx | Hx]; contradiction | intros Hx; contradiction].
    + inversion H. apply Hempty. reflexivity.
Qed.

(** ** What a loot record is made of *)

Definition magic_item_json (i n : json) (rarity : option json) (v : Q) : json :=
  JDict [("id", i); ("name", n);
         ("rarity", get_default rarity (JStr "common"));
         ("gp_value", JFloat v)].

Definition mundane_item_json (i n : json) (v : Q) : json :=
  JDict [("id", i); ("name", n); ("gp_value", JFloat v)].

Lemma parcel_parts {RS : RandomSource} (self : LootGenerator) (level : Z)
    (base : Q) (pool : list LootItem) (parcel : json) (r r' : Random) :
  _generate_parcel self level base pool r = (Ok parcel, r') ->
  exists cs it i n v r1 p,
    _generate_coins (coin_values_gp (lootgen.loot_data self))
      (base * (2 # 10))%Q r = (Ok cs, r1)
    /\ item_id it = Some i /\ item_name it = Some n
    /\ item_gp_value it = Some v
    /\ ((In it pool
         /\ p = {| coins := cs;
                   parcel_magic_items :=
                     [magic_item_json i n (item_rarity it) v];
                   parcel_mundane_items := [] |})
        \/ (In it (mundane_goods (lootgen.loot_data self))
            /\ p = {| coins := cs;
                      parcel_magic_items := [];
                      parcel_mundane_items := [mundane_item_json i n v] |}))
    /\ parcel = parcel_json p
                  (py_round2 (_calculate_parcel_value p
                                (coin_values_gp (lootgen.loot_data self)))).
Proof.
  unfold _generate_parcel. intros H.
  apply bind_inv_ok in H. destruct H as (cs & r1 & Hcs & H).
  apply bind_inv_ok in H. destruct H as (u & r2 & _ & H).
  apply bind_inv_ok in H. destruct H as (p & r3 & Hp & H).
  inversion H; subst. clear H.
  destruct (Qltb u (4 # 10) && negb (List.length pool =? 0)%nat) eqn:E;
    apply bind_inv_ok in Hp; destruct Hp as (it & r4 & Hit & Hp);
    apply bind_inv_ok in Hp; destruct Hp as (i & r5 & Hi & Hp);
    apply bind_inv_ok in Hp; destruct Hp as (n & r6 & Hn & Hp);
    apply bind_inv_ok in Hp; destruct Hp as (v & r7 & Hv & Hp);
    apply subscript_inv in Hi; destruct Hi as [Hi _];
    apply subscript_inv in Hn; destruct Hn as [Hn _];
    apply subscript_inv in Hv; destruct Hv as [Hv _];
    inversion Hp; subst; clear Hp;
    apply loot_choice_in in Hit;
    (destruct Hit as [[_ ->] | Hin]; [discriminate Hi |]);
    exists cs, it, i, n, v, r1; eexists;
    (split; [exact Hcs |]); (split; [exact Hi |]); (split; [exact Hn |]);
    (split; [exact Hv |]); (split; [| reflexivity]).
  - left. split; [exact Hin | reflexivity].
  - right. split; [exact Hin | reflexivity].
Qed.

Lemma parcels_loop_spec {RS : RandomSource} (self : LootGenerator) (level : Z)
    (base : Q) (pool : list LootItem) (P : json -> Prop) :
  (forall parcel r r',
      _generate_parcel self level base pool r = (Ok parcel, r') -> P parcel) ->
  forall n parcels out r r',
    parcels_loop self level base pool n parcels r = (Ok out, r') ->
    exists new,
      out = (parcels ++ new)%list /\ List.length new = n /\ Forall P new.
Proof.
  intros HP. induction n as [| n IH]; intros parcels out r r' H;
    cbn [parcels_loop] in H.
  - inversion H. exists []. rewrite app_nil_r. repeat split. constructor.
  - apply bind_inv_ok in H. destruct H as (parcel & r1 & Hp & H).
    destruct (IH _ _ _ _ H) as (new & -> & Hlen & Hall).
    exists (parcel :: new). rewrite <- app_assoc. cbn [app List.length].
    repeat split; [lia |]. constructor; [exact (HP _ _ _ Hp) | exact Hall].
Qed.

(** X11.  A record returned by [generate] has exactly the keys schema, seed,
    encounter_level, rolls, parcels: the schema is "loot.v1", the seed is the
    generator's, the level is the one asked, [rolls] is [max(1, rolls)], and
    there are exactly that many parcels. *)
Theorem generate_record_shape (RS : RandomSource) (self : LootGenerator)
    (level rolls : Z) (out : json) (r r' : Random) :
  generate self level rolls r = (Ok out, r') ->
  exists parcels,
    out = JDict [("schema", JStr "loot.v1");
                 ("seed", JInt (lootgen.seed self));
                 ("encounter_level", JInt level);
                 ("rolls", JInt (Z.max 1 rolls));
                 ("parcels", JList parcels)]
    /\ Z.of_nat (List.length parcels) = Z.max 1 rolls.
Proof.
  unfold generate.
  destruct (dict_get (str level) (level_budgets_gp (lootgen.loot_data self)))
    as [base |]; [| discriminate].
  intros H. apply bind_inv_ok in H. destruct H as (parcels & r1 & Hl & H).
  inversion H; subst. exists parcels. split; [reflexivity |].
  destruct (parcels_loop_spec self level base _ (fun _ => True)
              (fun _ _ _ _ => I) _ _ _ _ _ Hl) as (new & -> & Hlen & _).
  cbn [app]. rewrite Hlen. lia.
Qed.

(** One item per parcel, magic or mundane, each taken from its table. *)
Definition parcel_has_one_item (self : LootGenerator) (level : Z)
    (parcel : json) : Prop :=
  exists it item,
    json_get "id" item = item_id it
    /\ json_get "name" item = item_name it
    /\ json_get "gp_value" item = option_map JFloat (item_gp_value it)
    /\ ((In it (magic_items (lootgen.loot_data self))
         /\ get_default (item_min_level it) 1 <= level
            <= get_default (item_max_level it) 20
         /\ json_get "rarity" item
            = Some (get_default (item_rarity it) (JStr "common"))
         /\ json_get "magic_items" parcel = Some (JList [item])
         /\ json_get "mundane_items" parcel = Some (JList []))
        \/ (In it (mundane_goods (lootgen.loot_data self))
            /\ json_get "magic_items" parcel = Some (JList [])
            /\ json_get "mundane_items" parcel = Some (JList [item]))).

(** X12.  Every parcel of a record returned by [generate] holds exactly one
    item: either one magic item and no mundane item, the magic item being
    copied (id, name, gp_value, rarity or "common") from an entry of
    [magic_items] whose level range, with defaults 1 and 20, contains the
    level asked; or one mundane item and no magic item, copied from an entry
    of [mundane_goods]. *)
Theorem parcels_hold_one_gated_item (RS : RandomSource) (self : LootGenerator)
    (level rolls : Z) (out : json) (r r' : Random) :
  generate self level rolls r = (Ok out, r') ->
  exists parcels,
    json_get "parcels" out = Some (JList parcels)
    /\ Forall (parcel_has_one_item self level) parcels.
Proof.
  unfold generate.
  destruct (dict_get (str level) (level_budgets_gp (lootgen.loot_data self)))
    as [base |]; [| discriminate].
  intros H. apply bind_inv_ok in H. destruct H as (parcels & r1 & Hl & H).
  inversion H; subst. exists parcels. split; [reflexivity |].
  assert (HP : forall parcel r0 r0',
             _generate_parcel self level base
               (_filter_magic_by_level (magic_items (lootgen.loot_data self))
                  level) r0 = (Ok parcel, r0') ->
             parcel_has_one_item self level parcel).
  { intros parcel r0 r0' Hp. apply parcel_parts in Hp.
    destruct Hp as (cs & it & i & n & v & r2 & p & _ & Hi & Hn & Hv & Hp & ->).
    destruct Hp as [[Hin ->] | [Hin ->]].
    - exists it, (magic_item_json i n (item_rarity it) v).
      rewrite Hi, Hn, Hv. repeat split. left.
      apply filter_In in Hin. destruct Hin as [Hin Hok].
      apply magic_level_ok_iff in Hok. repeat split; try assumption; lia.
    - exists it, (mundane_item_json i n v).
      rewrite Hi, Hn, Hv. repeat split. right. repeat split. exact Hin. }
  destruct (parcels_loop_spec self level base _ _ HP _ _ _ _ _ Hl)
    as (new & Heq & _ & Hall).
  cbn [app] in Heq. subst new. exact Hall.
Qed.

(** ** The coins a run issues *)

Lemma py_int_positive (x : Q) : 0 < py_int x -> (0 < x)%Q.
Proof.
  unfold py_int. destruct (Qle_bool 0 x) eqn:E; intros H.
  - apply Qle_bool_iff in E.
    apply Qlt_le_trans with (inject_Z (Qfloor x)); [| apply Qfloor_le].
    rewrite <- (Zlt_Qlt 0). exact H.
  - assert (Hx : (x <= 0)%Q).
    { apply Qlt_le_weak, Qnot_le_lt. intros Hx.
      apply Qle_bool_iff in Hx. congruence. }
    apply Qceiling_resp_le in Hx. change (Qceiling 0%Q) with 0 in Hx. lia.
Qed.

Lemma quotient_positive (rem value : Q) :
  (0 < rem)%Q -> ~ (value == 0)%Q -> (0 < rem / value)%Q -> (0 < value)%Q.
Proof.
  intros Hr Hv Hx. apply Qnot_le_lt. intros Hle.
  assert (Heq : (value * (rem / value) == rem)%Q) by (apply Qmult_div_r; exact Hv).
  assert (Hneg : (0 <= (- value) * (rem / value))%Q).
  { apply Qmult_le_0_compat; lra. }
  set (x := (rem / value)%Q) in *.
  assert (H : ((- value) * x == - (value * x))%Q) by ring.
  rewrite Heq in H. lra.
Qed.

Lemma coins_body_next {RS : RandomSource} (coin : string) (value : Q)
    (st st' : CoinState) (r r' : Random) :
  _generate_coins_body (coin, value) st r = (Ok (Next st'), r') ->
  (st' = st)
  \/ exists qty,
       0 < qty /\ (0 < value)%Q
       /\ st' = {| remaining := (remaining st - inject_Z qty * value)%Q;
                   output := dict_set coin qty (output st) |}.
Proof.
  unfold _generate_coins_body.
  destruct (Qle_bool (remaining st) 0) eqn:E0; [discriminate |].
  destruct (Qeq_bool value 0) eqn:Ev; [discriminate |].
  destruct (py_int (remaining st / value) <=? 0) eqn:Em.
  { intros H. inversion H. left. reflexivity. }
  intros H. apply bind_inv_ok in H. destruct H as (qty & r1 & _ & H).
  destruct (0 <? qty) eqn:Eq; inversion H; subst; [| left; reflexivity].
  right. exists qty. apply Z.ltb_lt in Eq. split; [exact Eq |].
  split; [| reflexivity].
  apply Z.leb_gt in Em.
  apply (quotient_positive (remaining st)).
  - apply Qnot_le_lt. intros Hle. apply Qle_bool_iff in Hle. congruence.
  - intros Hz. apply Qeq_bool_iff in Hz. congruence.
  - apply py_int_positive. exact Em.
Qed.

Lemma dict_set_in {V : Type} (k : string) (v : V) (d : list (string * V))
    (k' : string) (v' : V) :
  In (k', v') (dict_set k v d) -> (k', v') = (k, v) \/ In (k', v') d.
Proof.
  induction d as [| [k2 v2] rest IH]; cbn [dict_set].
  - intros [H | []]. left. symmetry. exact H.
  - destruct (String.eqb k k2); intros [H | H].
    + left. symmetry. exact H.
    + right. right. exact H.
    + right. left. exact H.
    + destruct (IH H) as [H1 | H1]; [left | right; right]; exact H1.
Qed.

(** What every entry of the output of the loop satisfies. *)
Definition coins_issued_ok (table : list (string * Q))
    (coins : list (string * Z)) : Prop :=
  NoDup (dict_keys coins)
  /\ forall coin qty,
       In (coin, qty) coins ->
       1 <= qty /\ exists v, In (coin, v) table /\ (0 < v)%Q.

Lemma coins_loop_issued {RS : RandomSource} (table : list (string * Q))
    (sorted : list (string * Q)) :
  (forall cv, In cv sorted -> In cv table) ->
  forall st st' r r',
    coins_issued_ok table (output st) ->
    _generate_coins_loop sorted st r = (Ok st', r') ->
    coins_issued_ok table (output st').
Proof.
  induction sorted as [| [coin value] rest IH]; intros Hsub st st' r r' Hok H;
    cbn [_generate_coins_loop] in H.
  - inversion H; subst. exact Hok.
  - apply bind_inv_ok in H. destruct H as (c & r1 & Hb & H).
    destruct c as [| st1]; [inversion H; subst; exact Hok |].
    refine (IH (fun cv Hin => Hsub cv (or_intror Hin)) _ _ _ _ _ H).
    apply coins_body_next in Hb. destruct Hb as [-> | (qty & Hq & Hv & ->)];
      [exact Hok |].
    destruct Hok as [Hnd Hall]. split; cbn [output].
    + apply dict_set_nodup. exact Hnd.
    + intros k q Hin. apply dict_set_in in Hin. destruct Hin as [Heq | Hin].
      * inversion Heq; subst. split; [lia |]. exists value.
        split; [apply Hsub; left; reflexivity | exact Hv].
      * exact (Hall _ _ Hin).
Qed.

(** X14.  Whatever the coin table holds, a mixture returned by
    [_generate_coins] lists each denomination at most once, with a count of
    at least 1, and only denominations of the table that have a positive
    value; with a budget of 0 or less it is empty and nothing is drawn. *)
Theorem coins_issued (RS : RandomSource) (coin_values : list (string * Q))
    (budget : Q) (coins : list (string * Z)) (r r' : Random) :
  _generate_coins coin_values budget r = (Ok coins, r') ->
  NoDup (dict_keys coins)
  /\ (forall coin qty,
         In (coin, qty) coins ->
         1 <= qty /\ exists v, In (coin, v) coin_values /\ (0 < v)%Q)
  /\ ((budget <= 0)%Q -> coins = [] /\ r' = r).
Proof.
  unfold _generate_coins. intros H.
  apply bind_inv_ok in H. destruct H as (st & r1 & Hl & H).
  inversion H; subst.
  assert (Hok : coins_issued_ok coin_values (output st)).
  { refine (coins_loop_issued coin_values (coins_sorted coin_values) _
              {| remaining := budget; output := [] |} st r r' _ Hl).
    - intros cv Hin.
      exact (Permutation_in _ (coins_sorted_perm coin_values) Hin).
    - split; [constructor | intros coin qty []]. }
  destruct Hok as [Hnd Hall]. split; [exact Hnd |]. split; [exact Hall |].
  intros Hb. apply Qle_bool_iff in Hb.
  rewrite (coins_loop_depleted _ {| remaining := budget; output := [] |} r Hb)
    in Hl.
  inversion Hl. split; reflexivity.
Qed.

(** ** The order of the denominations *)

Definition value_desc (a b : string * Q) : Prop := (snd b <= snd a)%Q.

Lemma insert_coin_sorted (c : string * Q) (l : list (string * Q)) :
  Sorted value_desc l -> Sorted value_desc (insert_coin c l).
Proof.
  induction l as [| d rest IH]; intros Hs; cbn [insert_coin].
  - repeat constructor.
  - inversion Hs as [| x l' Hrest Hhd]; subst.
    destruct (Qltb (snd c) (snd d)) eqn:E.
    + assert (Hcd : (snd c <= snd d)%Q).
      { unfold Qltb in E. apply negb_true_iff in E.
        apply Qlt_le_weak, Qnot_le_lt. intros H.
        apply Qle_bool_iff in H. congruence. }
      constructor; [exact (IH Hrest) |].
      destruct rest as [| e rest']; cbn [insert_coin].
      * constructor. exact Hcd.
      * destruct (Qltb (snd c) (snd e)); constructor;
          [inversion Hhd; assumption | exact Hcd].
    + constructor; [exact Hs |]. constructor.
      unfold Qltb in E. apply negb_false_iff, Qle_bool_iff in E. exact E.
Qed.

Lemma sorted_descending (coin_values : list (string * Q)) :
  Sorted value_desc (coins_sorted coin_values).
Proof.
  unfold coins_sorted.
  induction coin_values as [| c l IH]; cbn [fold_right]; [constructor |].
  apply insert_coin_sorted. exact IH.
Qed.

Lemma value_desc_transitive : Relations_1.Transitive value_desc.
Proof. intros x y z Hxy Hyz. unfold value_desc in *. lra. Qed.

(** X15.  The order in which [_generate_coins] visits the denominations is a
    rearrangement of the coin table in which no denomination comes before one
    of greater value. *)
Theorem coins_sorted_descending (coin_values : list (string * Q)) :
  Permutation (coins_sorted coin_values) coin_values
  /\ (forall before a between b after,
         coins_sorted coin_values
         = (before ++ a :: between ++ b :: after)%list ->
         (snd b <= snd a)%Q).
Proof.
  split; [apply coins_sorted_perm |].
  intros before a between b after Heq.
  pose proof (Sorted_StronglySorted value_desc_transitive
                (sorted_descending coin_values)) as Hs.
  rewrite Heq in Hs.
  clear Heq. induction before as [| x before IH]; cbn [app] in Hs.
  - inversion Hs as [| y l _ Hall]; subst.
    rewrite Forall_forall in Hall. apply (Hall b).
    apply in_or_app. right. left. reflexivity.
  - inversion Hs; subst. apply IH. assumption.
Qed.

(** ** Where the errors of loot generation come from *)

(** An error raised while parcels are generated is explained by the tables:
    a division by zero by a coin worth 0, rejected weights by an entry whose
    weight is not positive.  The random module's index and range errors, and
    the unknown-level error, do not occur there. *)
Definition parcel_error_explained (data : LootData) (e : PyError) : Prop :=
  (e = ZeroDivisionError ->
   exists c v, In (c, v) (coin_values_gp data) /\ (v == 0)%Q)
  /\ (e = ChoicesTotalNotPositive ->
      exists it w,
        (In it (magic_items data) \/ In it (mundane_goods data))
        /\ item_weight it = Some w /\ (w <= 0)%Q)
  /\ e <> IndexError /\ e <> EmptyRange
  /\ (forall l, e <> LevelNotFound l).

Lemma ro_parcel_explained {RS : RandomSource} (self : LootGenerator)
    (level : Z) (base : Q) (pool : list LootItem) :
  (forall it, In it pool -> In it (magic_items (lootgen.loot_data self))) ->
  raises_only (parcel_error_explained (lootgen.loot_data self))
    (_generate_parcel self level base pool).
Proof.
  intros Hpool. unfold _generate_parcel, _generate_coins.
  assert (Hkey : forall k,
             parcel_error_explained (lootgen.loot_data self) (KeyError k)).
  { intros k. repeat split; discriminate. }
  apply ro_bind.
  { apply ro_bind; [| intros; apply ro_ret].
    eapply ro_weaken; [| apply ro_coins_loop].
    intros e [-> (c & v & Hin & Hz)].
    repeat split; try discriminate.
    intros _. exists c, v. split; [| exact Hz].
    exact (Permutation_in _ (coins_sorted_perm _) Hin). }
  intros cs r0 r0' _.
  apply ro_bind; [apply ro_total; intros r; rewrite random_ok; eauto |].
  intros u r1 r1' _.
  apply ro_bind; [| intros; apply ro_ret].
  destruct (Qltb u (4 # 10) && negb (List.length pool =? 0)%nat).
  - apply ro_bind.
    { eapply ro_weaken; [| apply ro_loot_choice].
      intros e [-> (it & w & Hin & Hw & Hle)].
      repeat split; try discriminate.
      intros _. exists it, w. repeat split; try assumption.
      left. apply Hpool. exact Hin. }
    intros it ? ? _.
    apply ro_bind; [apply ro_subscript; intros _; apply Hkey |].
    intros i ? ? _.
    apply ro_bind; [apply ro_subscript; intros _; apply Hkey |].
    intros n ? ? _.
    apply ro_bind; [apply ro_subscript; intros _; apply Hkey |].
    intros v ? ? _. apply ro_ret.
  - apply ro_bind.
    { eapply ro_weaken; [| apply ro_loot_choice].
      intros e [-> (it & w & Hin & Hw & Hle)].
      repeat split; try discriminate.
      intros _. exists it, w. repeat split; try assumption.
      right. exact Hin. }
    intros it ? ? _.
    apply ro_bind; [apply ro_subscript; intros _; apply Hkey |].
    intros i ? ? _.
    apply ro_bind; [apply ro_subscript; intros _; apply Hkey |].
    intros n ? ? _.
    apply ro_bind; [apply ro_subscript; intros _; apply Hkey |].
    intros v ? ? _. apply ro_ret.
Qed.

Lemma ro_parcels_loop_explained {RS : RandomSource} (self : LootGenerator)
    (level : Z) (base : Q) (pool : list LootItem) (n : nat) :
  (forall it, In it pool -> In it (magic_items (lootgen.loot_data self))) ->
  forall parcels,
    raises_only (parcel_error_explained (lootgen.loot_data self))
      (parcels_loop self level base pool n parcels).
Proof.
  intros Hpool. induction n as [| n IH]; intros parcels; cbn [parcels_loop].
  - apply ro_ret.
  - apply ro_bind; [apply ro_parcel_explained; exact Hpool | intros; apply IH].
Qed.

(** X16.  An error of [generate] is explained by the table.  The
    unknown-level error names the level asked, which has no budget, and is
    raised before any draw; a [ZeroDivisionError] comes with a coin worth 0;
    the [ValueError] of [random.choices] for rejected weights comes with a
    magic or mundane entry whose weight is present and not positive.  The
    index and range errors of the random module do not occur. *)
Theorem loot_errors (RS : RandomSource) (self : LootGenerator)
    (level rolls : Z) (e : PyError) (r r' : Random) :
  generate self level rolls r = (Err e, r') ->
  (forall l,
      e = LevelNotFound l ->
      l = level
      /\ dict_get (str level) (level_budgets_gp (lootgen.loot_data self)) = None
      /\ r' = r)
  /\ (e = ZeroDivisionError ->
      exists c v,
        In (c, v) (coin_values_gp (lootgen.loot_data self)) /\ (v == 0)%Q)
  /\ (e = ChoicesTotalNotPositive ->
      exists it w,
        (In it (magic_items (lootgen.loot_data self))
         \/ In it (mundane_goods (lootgen.loot_data self)))
        /\ item_weight it = Some w /\ (w <= 0)%Q)
  /\ e <> IndexError /\ e <> EmptyRange.
Proof.
  unfold generate.
  destruct (dict_get (str level) (level_budgets_gp (lootgen.loot_data self)))
    as [base |] eqn:Eb.
  - intros H.
    assert (Hro : raises_only (parcel_error_explained (lootgen.loot_data self))
                    (parcels <- parcels_loop self level base
                                  (_filter_magic_by_level
                                     (magic_items (lootgen.loot_data self))
                                     level)
                                  (Z.to_nat (Z.max 1 rolls)) [] ;;
                     ret (JDict [("schema", JStr "loot.v1");
                                 ("seed", JInt (lootgen.seed self));
                                 ("encounter_level", JInt level);
                                 ("rolls", JInt (Z.max 1 rolls));
                                 ("parcels", JList parcels)]))).
    { apply ro_bind; [| intros; apply ro_ret].
      apply ro_parcels_loop_explained.
      intros it Hin. apply filter_In in Hin. exact (proj1 Hin). }
    destruct (Hro _ _ _ H) as (Hz & Hc & Hi & Hr & Hl).
    repeat split; try assumption.
    + exfalso. exact (Hl l H0).
    + exfalso. exact (Hl l H0).
    + exfalso. exact (Hl l H0).
  - intros H. inversion H; subst.
    repeat split; try discriminate; inversion H0; reflexivity.
Qed.

(** ** Where the errors of encounter generation come from *)

Lemma encounter_choice_ok {RS : RandomSource} {A : Type} (x : A) (w : Q)
    (rest : list (A * Q)) (r : Random) :
  exists item r', encountergen._weighted_choice ((x, w) :: rest) r = (Ok item, r').
Proof.
  unfold encountergen._weighted_choice. cbv zeta.
  destruct (Qle_bool (total_weight ((x, w) :: rest)) 0); [do 2 eexists; reflexivity |].
  rewrite (bind_ok _ _ _ _ _ (random_ok r)).
  destruct (scan _ 0%Q ((x, w) :: rest)); [do 2 eexists; reflexivity |].
  destruct (rev ((x, w) :: rest)) as [| [y wy] l] eqn:E; [| do 2 eexists; reflexivity].
  apply (f_equal (@List.length _)) in E. rewrite length_rev in E.
  discriminate E.
Qed.

Lemma choose_encounter_type_ok {RS : RandomSource} (self : EncounterGenerator)
    (slot biome : string) (r : Random) :
  exists t r', _choose_encounter_type self slot biome r = (Ok t, r').
Proof.
  unfold _choose_encounter_type.
  destruct (or_list (encounter_types (tables self)) []) as [| t0 ts];
    [do 2 eexists; reflexivity |].
  set (cands := match filter _ (t0 :: ts) with [] => t0 :: ts | _ => _ end).
  assert (Hne : cands <> []).
  { subst cands. destruct (filter _ (t0 :: ts)); discriminate. }
  destruct cands as [| c cs]; [congruence |].
  destruct (choice_member c cs r) as (table & Hch & _).
  rewrite (bind_ok _ _ _ _ _ Hch).
  destruct (randint_ok 1 (Z.max 1 (get_default (tt_die table) 20))
              (snd (rng_randbelow (Z.of_nat (List.length (c :: cs))) r))
              ltac:(lia)) as (roll & r2 & Hroll & _).
  rewrite (bind_ok _ _ _ _ _ Hroll). do 2 eexists. reflexivity.
Qed.

Lemma select_environment_ok {RS : RandomSource} (self : EncounterGenerator)
    (biome : string) (tags : list string) (sid : option string) (r : Random) :
  exists env r', _select_environment self biome tags sid r = (Ok env, r').
Proof.
  unfold _select_environment.
  destruct (or_list (environment_presets (tables self)) []) as [| p0 ps];
    [do 2 eexists; reflexivity |].
  destruct (match sid with
            | Some EmptyString => None
            | Some s => dict_get s (_env_index self)
            | None => None
            end); [do 2 eexists; reflexivity |].
  set (cands := match filter _ (p0 :: ps) with [] => p0 :: ps | _ => _ end).
  assert (Hne : cands <> []).
  { subst cands. destruct (filter _ (p0 :: ps)); discriminate. }
  destruct cands as [| c cs]; [congruence |].
  destruct (choice_member c cs r) as (p & Hch & _).
  rewrite (bind_ok _ _ _ _ _ Hch). do 2 eexists. reflexivity.
Qed.

(** The error was raised by the loot generation of an encounter at [level]:
    by [generate_loot] on the generator's loot data, for [rolls] parcels and
    a sub-seed drawn from the stream. *)
Definition raised_by_loot {RS : RandomSource} {PY : Interpreter}
    (self : EncounterGenerator) (level rolls : Z) (e : PyError) : Prop :=
  exists sub_seed,
    0 <= sub_seed <= 999999
    /\ generate_loot (loot_data self) level rolls (Some sub_seed) = Err e.

Lemma sub_loot_error {RS : RandomSource} {PY : Interpreter}
    (self : EncounterGenerator) (level rolls : Z) (e : PyError)
    (r r' : Random) :
  sub_loot self level rolls r = (Err e, r') ->
  raised_by_loot self level rolls e.
Proof.
  unfold sub_loot. intros H.
  destruct (randint_ok 0 999999 r ltac:(lia)) as (k & r2 & Hk & Hrange).
  apply bind_inv_err in H. destruct H as [H | (s & r1 & Hs & H)];
    [congruence |].
  rewrite Hs in Hk. inversion Hk; subst k r2.
  exists s. split; [exact Hrange |].
  destruct (generate_loot (loot_data self) level rolls (Some s)) as [l | e0];
    [discriminate H | inversion H; reflexivity].
Qed.

(** What explains an error of combat generation. *)
Definition combat_error_explained {RS : RandomSource} {PY : Interpreter}
    (self : EncounterGenerator) (level : Z) (biome slot : string)
    (e : PyError) : Prop :=
  (e = NoTemplatesDefined
   /\ or_list (encounter_templates (tables self)) [] = [])
  \/ (e = NoTemplatesMatch level biome slot
      /\ or_list (encounter_templates (tables self)) [] <> []
      /\ forall tpl,
           In tpl (or_list (encounter_templates (tables self)) []) ->
           combat_candidate level biome slot tpl = false)
  \/ exists tpl,
       In tpl (or_list (encounter_templates (tables self)) [])
       /\ combat_candidate level biome slot tpl = true
       /\ ((e = MissingEnemyGroupId
            /\ (tpl_enemy_group_id tpl = None
                \/ tpl_enemy_group_id tpl = Some ""))
           \/ (exists g,
                  e = EnemyGroupNotFound g
                  /\ tpl_enemy_group_id tpl = Some g
                  /\ dict_get g (_enemy_group_index self) = None)
           \/ raised_by_loot self level
                (get_default (tpl_loot_rolls tpl) 1) e).

(** What explains an error of non-combat generation. *)
Definition noncombat_error_explained {RS : RandomSource} {PY : Interpreter}
    (self : EncounterGenerator) (level : Z) (biome slot enc_type : string)
    (e : PyError) : Prop :=
  exists table tpl,
    noncombat_table (tables self) enc_type = Some table
    /\ In tpl (or_list table [])
    /\ noncombat_candidate level biome slot tpl = true
    /\ nc_award_loot tpl = Some true
    /\ raised_by_loot self level (get_default (nc_loot_rolls tpl) 1) e.

Lemma filter_nil_all {A : Type} (f : A -> bool) (l : list A) :
  filter f l = [] -> forall x, In x l -> f x = false.
Proof.
  induction l as [| y l IH]; intros H x Hin; [contradiction |].
  cbn [filter] in H. destruct (f y) eqn:E; [discriminate H |].
  destruct Hin as [<- | Hin]; [exact E | exact (IH H x Hin)].
Qed.

Lemma combat_error_parts {RS : RandomSource} {PY : Interpreter}
    (self : EncounterGenerator) (level : Z) (biome slot : string)
    (e : PyError) (r r' : Random) :
  _generate_combat_encounter self level biome slot r = (Err e, r') ->
  combat_error_explained self level biome slot e.
Proof.
  unfold _generate_combat_encounter, combat_error_explained.
  destruct (or_list (encounter_templates (tables self)) []) as [| t ts] eqn:Et.
  { intros H. inversion H. left. split; reflexivity. }
  destruct (filter (combat_candidate level biome slot) (t :: ts))
    as [| c cs] eqn:Ef.
  { intros H. inversion H. right. left.
    split; [reflexivity |]. split; [discriminate |].
    exact (filter_nil_all _ _ Ef). }
  intros H. right. right.
  apply bind_inv_err in H. destruct H as [H | (tpl & r1 & Hch & H)].
  { cbn [map] in H.
    destruct (encounter_choice_ok c
                (let base_weight := get_default (tpl_weight c) 1%Q in
                 let weight :=
                   (base_weight * _compute_faction_weight self c slot biome)%Q in
                 if Qltb 0 weight then weight else 0%Q)
                (map (fun tpl =>
                        let base_weight := get_default (tpl_weight tpl) 1%Q in
                        let weight :=
                          (base_weight
                           * _compute_faction_weight self tpl slot biome)%Q in
                        (tpl, if Qltb 0 weight then weight else 0%Q)) cs) r)
      as (i & r0 & Hok).
    cbv zeta in Hok, H. congruence. }
  apply encounter_choice_in in Hch. rewrite map_map in Hch. cbn [fst] in Hch.
  rewrite map_id, <- Ef in Hch. apply filter_In in Hch.
  exists tpl. split; [tauto |]. split; [tauto |].
  apply bind_inv_err in H. destruct H as [H | (enemies & r2 & _ & H)].
  { unfold _instantiate_enemy_group in H.
    destruct (tpl_enemy_group_id tpl) as [[| ch g] |].
    - inversion H. left. split; [reflexivity | right; reflexivity].
    - destruct (dict_get (String ch g) (_enemy_group_index self))
        as [group |] eqn:Eg.
      + destruct (enemies_loop_spec self group
                    (or_list (group_enemies group) []) [] r1)
          as (new & rz & Hok & _).
        congruence.
      + inversion H. right. left. exists (String ch g).
        repeat split. exact Eg.
    - inversion H. left. split; [reflexivity | left; reflexivity]. }
  apply bind_inv_err in H. destruct H as [H | (env & r3 & _ & H)].
  { destruct (select_environment_ok self biome
                (or_list (tpl_environment_tags tpl) []) None r2)
      as (i & r0 & Hok).
    congruence. }
  apply bind_inv_err in H. destruct H as [H | (loot & r4 & _ & H)];
    [| discriminate H].
  right. right. exact (sub_loot_error _ _ _ _ _ _ H).
Qed.

Lemma noncombat_error_parts {RS : RandomSource} {PY : Interpreter}
    (self : EncounterGenerator) (level : Z) (biome slot enc_type : string)
    (e : PyError) (r r' : Random) :
  _generate_noncombat_encounter self level biome slot enc_type r
  = (Err e, r') ->
  noncombat_error_explained self level biome slot enc_type e.
Proof.
  unfold _generate_noncombat_encounter, noncombat_error_explained.
  intros H.
  destruct (noncombat_table _ _) as [table |]; [| discriminate].
  exists table.
  destruct (or_list table []) as [| e0 es] eqn:Et; [discriminate |].
  destruct (filter _ (e0 :: es)) as [| c cs] eqn:Ef; [discriminate |].
  apply bind_inv_err in H. destruct H as [H | (tpl & r1 & Hch & H)].
  { destruct (encounter_choice_ok c
                (get_default (nc_weight c) 1%Q)
                (map (fun t => (t, get_default (nc_weight t) 1%Q)) cs) r)
      as (i & r0 & Hok).
    cbn [map] in H. congruence. }
  apply encounter_choice_in in Hch. rewrite map_map in Hch. cbn [fst] in Hch.
  rewrite map_id, <- Ef in Hch. apply filter_In in Hch.
  exists tpl. split; [reflexivity |]. split; [tauto |]. split; [tauto |].
  apply bind_inv_err in H. destruct H as [H | (env & r2 & _ & H)].
  { destruct (select_environment_ok self biome
                (or_list (nc_environment_tags tpl) [])
                (nc_environment_preset_id tpl) r1) as (i & r0 & Hok).
    congruence. }
  apply bind_inv_err in H. destruct H as [H | (loot & r3 & _ & H)];
    [| discriminate H].
  destruct (nc_award_loot tpl) as [[|] |]; cbn [get_default] in H;
    [| discriminate H | discriminate H].
  split; [reflexivity |]. exact (sub_loot_error _ _ _ _ _ _ H).
Qed.

(** X17.  An error of [_generate_encounter_internal] is explained by the
    tables.  It is one of the set-up errors of combat generation: no template
    defined, with an empty template list; no template matching, naming the
    level, biome and slot asked, with templates of which none is a candidate;
    a missing enemy group id or an enemy group not found, with a candidate
    template whose group id is absent, empty or not indexed.  Or it was
    raised by the loot generation of the encounter, at the level asked, for a
    candidate combat template or for a candidate non-combat entry that awards
    loot.  Type selection, weighted selection, environment selection and the
    enemy loop raise nothing. *)
Theorem encounter_errors (RS : RandomSource) (PY : Interpreter)
    (self : EncounterGenerator) (level : Z) (biome slot : string)
    (e : PyError) (r r' : Random) :
  _generate_encounter_internal self level biome slot r = (Err e, r') ->
  combat_error_explained self level biome slot e
  \/ exists enc_type,
       noncombat_error_explained self level biome slot enc_type e.
Proof.
  unfold _generate_encounter_internal. intros H.
  apply bind_inv_err in H. destruct H as [H | (t & r1 & _ & H)].
  { destruct (choose_encounter_type_ok self slot biome r) as (t & r0 & Hok).
    congruence. }
  destruct (String.eqb t "combat").
  - left. exact (combat_error_parts _ _ _ _ _ _ _ H).
  - destruct (str_in t _); [| discriminate H].
    right. exists t. exact (noncombat_error_parts _ _ _ _ _ _ _ _ H).
Qed.

(** ** Rooms of a dungeon *)

Lemma encounter_internal_echo {RS : RandomSource} {PY : Interpreter}
    (self : EncounterGenerator) (level : Z) (biome slot : string)
    (enc : json) (r r' : Random) :
  _generate_encounter_internal self level biome slot r = (Ok enc, r') ->
  json_get "difficulty" enc = Some (JInt level)
  /\ json_get "slot" enc = Some (JStr slot)
  /\ json_get "biome" enc = Some (JStr biome).
Proof.
  unfold _generate_encounter_internal. intros H.
  apply bind_inv_ok in H. destruct H as (enc_type & r1 & _ & H).
  destruct (String.eqb enc_type "combat").
  - apply combat_encounter_parts in H.
    destruct H as (? & ? & ? & ? & ? & ? & ? & _ & _ & _ & _ & _ & ->).
    repeat split.
  - destruct (str_in enc_type _).
    + apply noncombat_encounter_parts in H.
      destruct H as [[-> _] | (? & ? & ? & ? & ? & ? & _ & _ & _ & _ & _ & ->)];
        repeat split.
    + inversion H. repeat split.
Qed.

(** The slot list a dungeon is generated for. *)
Definition resolved_slots (self : EncounterGenerator)
    (slots : option (list string)) : list string :=
  match slots with
  | Some l => l
  | None =>
      match default_order (five_room_progression (tables self)) with
      | Some (s :: l) => s :: l
      | _ => dict_keys (slot_defs self)
      end
  end.

Definition room_of_slot (self : EncounterGenerator) (base_level : Z)
    (biome slot : string) (room : json) : Prop :=
  json_get "slot" room = Some (JStr slot)
  /\ exists encounter,
       json_get "encounter" room = Some encounter
       /\ json_get "difficulty" encounter
          = Some (JInt (_clamp_level
                          (base_level + configured_delta self slot)
                          (combat_budgets (tables self))))
       /\ json_get "slot" encounter = Some (JStr slot)
       /\ json_get "biome" encounter = Some (JStr biome).

Lemma rooms_loop_rooms {RS : RandomSource} {PY : Interpreter}
    (self : EncounterGenerator) (base_level : Z) (biome : string)
    (slots : list string) :
  forall idx rooms out r r',
    rooms_loop self base_level biome idx slots rooms r = (Ok out, r') ->
    exists new,
      out = (rooms ++ new)%list
      /\ Forall2 (room_of_slot self base_level biome) slots new.
Proof.
  induction slots as [| slot rest IH]; intros idx rooms out r r' H;
    cbn [rooms_loop] in H.
  - inversion H. exists []. rewrite app_nil_r. split; constructor.
  - apply bind_inv_ok in H. destruct H as (enc & r1 & He & H).
    destruct (IH _ _ _ _ _ H) as (new & -> & Hall).
    eexists (_ :: new). rewrite <- app_assoc. split; [reflexivity |].
    constructor; [| exact Hall].
    split; [reflexivity |]. exists enc. split; [reflexivity |].
    exact (encounter_internal_echo _ _ _ _ _ _ _ He).
Qed.

(** X19.  A dungeon returned by [generate_five_room_dungeon] repeats the
    generator's seed, the biome and the base level, and has one room per slot
    of the list it was generated for, in order: the list passed, else the
    table's non-empty [default_order], else the keys of its [slots].  Each
    room names its slot and holds an encounter for that slot and the biome
    whose difficulty is [_clamp_level] of the base level plus the slot's
    [difficulty_delta] (0 when the slot or the delta is not configured), over
    the budget table. *)
Theorem dungeon_rooms (RS : RandomSource) (PY : Interpreter)
    (self : EncounterGenerator) (base_level : Z) (biome : string)
    (slots : option (list string)) (dungeon : json) (r r' : Random) :
  generate_five_room_dungeon self base_level biome slots r = (Ok dungeon, r') ->
  exists rooms,
    dungeon = JDict [("schema", JStr "dungeon.5room.v1");
                     ("seed", JInt (encountergen.seed self));
                     ("biome", JStr biome);
                     ("base_level", JInt base_level);
                     ("rooms", JList rooms)]
    /\ Forall2 (room_of_slot self base_level biome)
         (resolved_slots self slots) rooms.
Proof.
  unfold generate_five_room_dungeon. fold (resolved_slots self slots).
  intros H. apply bind_inv_ok in H. destruct H as (rooms & r1 & Hl & H).
  inversion H; subst. exists rooms. split; [reflexivity |].
  destruct (rooms_loop_rooms _ _ _ _ _ _ _ _ _ Hl) as (new & -> & Hall).
  exact Hall.
Qed.

(** ** Tags and loot of an encounter *)

Lemma set_order_spec {PY : Interpreter} (xs : list string) :
  NoDup (set_order xs) /\ forall t, In t (set_order xs) <-> In t xs.
Proof.
  pose proof (set_order_perm xs) as Hp. split.
  - apply (Permutation_NoDup (Permutation_sym Hp)). apply NoDup_nodup.
  - intros t. split; intros H.
    + apply (Permutation_in _ Hp) in H. apply nodup_In in H. exact H.
    + apply (Permutation_in _ (Permutation_sym Hp)). apply nodup_In. exact H.
Qed.

(** X20.  In an encounter returned by [_generate_encounter_internal] the
    [tags] list has no duplicate.  An empty encounter has no tags.  In a
    combat encounter one candidate template of the combat table accounts for
    the record: its id and notes are the [meta] of the record, the enemies
    are those of its enemy group, the environment was selected for its
    environment tags, and a tag is in [tags] exactly when it is a tag of this
    template or of that environment.  In a puzzle, social or exploration
    encounter the same holds of one candidate entry of the type's table. *)
Theorem encounter_tags_merged (RS : RandomSource) (PY : Interpreter)
    (self : EncounterGenerator) (level : Z) (biome slot : string)
    (enc : json) (r r' : Random) :
  _generate_encounter_internal self level biome slot r = (Ok enc, r') ->
  exists tags env,
    json_get "tags" enc = Some (json_strs tags)
    /\ json_get "environment" enc = Some (environment_json env)
    /\ NoDup tags
    /\ ((enc = _generate_empty_encounter level biome slot /\ tags = [])
        \/ (exists tpl enemies r1 r2 r3,
               In tpl (or_list (encounter_templates (tables self)) [])
               /\ combat_candidate level biome slot tpl = true
               /\ json_get "type" enc = Some (JStr "combat")
               /\ json_get "meta" enc
                  = Some (JDict [("template_id",
                                  opt_json (fun j => j) (tpl_id tpl));
                                 ("noncombat_id", JNull);
                                 ("notes",
                                  get_default (tpl_notes tpl) (JStr ""))])
               /\ _instantiate_enemy_group self (tpl_enemy_group_id tpl)
                    level r1 = (Ok enemies, r2)
               /\ json_get "enemies" enc = Some (JList enemies)
               /\ _select_environment self biome
                    (or_list (tpl_environment_tags tpl) []) None r2
                  = (Ok env, r3)
               /\ (forall t,
                      In t tags
                      <-> In t (or_list (tpl_tags tpl) [])
                          \/ In t (environment_tags env)))
        \/ (exists enc_type table tpl r1 r2,
               noncombat_table (tables self) enc_type = Some table
               /\ In tpl (or_list table [])
               /\ noncombat_candidate level biome slot tpl = true
               /\ json_get "type" enc = Some (JStr enc_type)
               /\ json_get "meta" enc
                  = Some (JDict [("template_id", JNull);
                                 ("noncombat_id",
                                  opt_json (fun j => j) (nc_id tpl));
                                 ("notes",
                                  get_default (nc_notes tpl) (JStr ""))])
               /\ _select_environment self biome
                    (or_list (nc_environment_tags tpl) [])
                    (nc_environment_preset_id tpl) r1
                  = (Ok env, r2)
               /\ (forall t,
                      In t tags
                      <-> In t (or_list (nc_tags tpl) [])
                          \/ In t (environment_tags env)))).
Proof.
  unfold _generate_encounter_internal. intros H.
  apply bind_inv_ok in H. destruct H as (enc_type & r1 & _ & H).
  assert (Hempty : forall e,
             e = _generate_empty_encounter level biome slot ->
             exists tags env,
               json_get "tags" e = Some (json_strs tags)
               /\ json_get "environment" e = Some (environment_json env)
               /\ NoDup tags
               /\ (e = _generate_empty_encounter level biome slot
                   /\ tags = [])).
  { intros e ->. exists [], neutral_environment.
    repeat split. constructor. }
  destruct (String.eqb enc_type "combat").
  - apply combat_encounter_parts in H.
    destruct H as (tpl & en & env & loot & ra & rb & rc
                   & Hin & Hc & Hen & Henv & _ & ->).
    destruct (set_order_spec (or_list (tpl_tags tpl) []
                              ++ environment_tags env)%list) as [Hnd Hiff].
    eexists. exists env. split; [reflexivity |]. split; [reflexivity |].
    split; [exact Hnd |]. right. left.
    exists tpl, en, ra, rb, rc.
    repeat split; try assumption; try reflexivity.
    + intros Ht. apply Hiff, in_app_iff in Ht. exact Ht.
    + intros Ht. apply Hiff, in_app_iff. exact Ht.
  - destruct (str_in enc_type _).
    + apply noncombat_encounter_parts in H.
      destruct H as [[-> _] | (tb & tpl & env & loot & ra & rb
                               & Ht & Hin & Hc & Henv & _ & ->)].
      * destruct (Hempty _ eq_refl) as (tags & env & Ha & Hb & Hc & Hd).
        exists tags, env. repeat split; try assumption. left. exact Hd.
      * destruct (set_order_spec (or_list (nc_tags tpl) []
                                  ++ environment_tags env)%list)
          as [Hnd Hiff].
        eexists. exists env. split; [reflexivity |]. split; [reflexivity |].
        split; [exact Hnd |]. right. right.
        exists enc_type, tb, tpl, ra, rb.
        repeat split; try assumption; try reflexivity.
        -- intros Hx. apply Hiff, in_app_iff in Hx. exact Hx.
        -- intros Hx. apply Hiff, in_app_iff. exact Hx.
    + inversion H.
      destruct (Hempty _ eq_refl) as (tags & env & Ha & Hb & Hc & Hd).
      exists tags, env. repeat split; try assumption. left. exact Hd.
Qed.

Lemma sub_loot_parts {RS : RandomSource} {PY : Interpreter}
    (self : EncounterGenerator) (level rolls : Z) (loot : json)
    (r r' : Random) :
  sub_loot self level rolls r = (Ok loot, r') ->
  exists sub_seed parcels,
    0 <= sub_seed <= 999999
    /\ loot = JDict [("schema", JStr "loot.v1");
                     ("seed", JInt sub_seed);
                     ("encounter_level", JInt level);
                     ("rolls", JInt (Z.max 1 rolls));
                     ("parcels", JList parcels)]
    /\ Z.of_nat (List.length parcels) = Z.max 1 rolls
    /\ r' = snd (rng_randbelow 1000000 r).
Proof.
  unfold sub_loot. intros H.
  apply bind_inv_ok in H. destruct H as (s & r1 & Hs & H).
  destruct (randint_ok 0 999999 r ltac:(lia)) as (k & r2 & Hk & Hrange).
  rewrite Hs in Hk. inversion Hk; subst k r2.
  assert (Hr1 : r1 = snd (rng_randbelow 1000000 r)).
  { unfold randint, bind, _randbelow, ret in Hs. cbn in Hs.
    destruct (rng_randbelow 1000000 r). inversion Hs. reflexivity. }
  destruct (generate_loot (loot_data self) level rolls (Some s))
    as [l | e] eqn:E; inversion H; subst.
  unfold generate_loot in E. cbn [lootgen.__init__ get_default] in E.
  destruct (generate _ level rolls (Random_seed s)) as [res r3] eqn:Eg.
  cbn [fst] in E. subst res. unfold generate in Eg. cbn [lootgen.loot_data] in Eg.
  destruct (dict_get (str level) (level_budgets_gp (loot_data self)))
    as [base |]; [| discriminate].
  apply bind_inv_ok in Eg. destruct Eg as (parcels & r4 & Hl & Eg).
  inversion Eg; subst. exists s, parcels.
  split; [exact Hrange |]. split; [reflexivity |]. split; [| reflexivity].
  destruct (parcels_loop_spec _ level base _ (fun _ => True)
              (fun _ _ _ _ => I) _ _ _ _ _ Hl) as (new & -> & Hlen & _).
  cbn [app]. rewrite Hlen. lia.
Qed.

Definition loot_record (level : Z) (loot : json) : Prop :=
  exists sub_seed rolls parcels,
    0 <= sub_seed <= 999999
    /\ 1 <= rolls
    /\ loot = JDict [("schema", JStr "loot.v1");
                     ("seed", JInt sub_seed);
                     ("encounter_level", JInt level);
                     ("rolls", JInt rolls);
                     ("parcels", JList parcels)]
    /\ Z.of_nat (List.length parcels) = rolls.

(** X21.  The [loot] of an encounter returned by
    [_generate_encounter_internal] is null or a loot.v1 record for the
    encounter's own level, whose seed is a sub-seed between 0 and 999999 drawn
    from the generator's stream (not the generator's seed) and whose parcels
    are as many as its [rolls], at least 1.  A combat encounter always has
    such a record. *)
Theorem encounter_loot (RS : RandomSource) (PY : Interpreter)
    (self : EncounterGenerator) (level : Z) (biome slot : string)
    (enc : json) (r r' : Random) :
  _generate_encounter_internal self level biome slot r = (Ok enc, r') ->
  exists loot,
    json_get "loot" enc = Some loot
    /\ (loot = JNull \/ loot_record level loot)
    /\ (json_get "type" enc = Some (JStr "combat") -> loot_record level loot).
Proof.
  unfold _generate_encounter_internal. intros H.
  apply bind_inv_ok in H. destruct H as (enc_type & r1 & _ & H).
  assert (Hrec : forall rolls loot ra rb,
             sub_loot self level rolls ra = (Ok loot, rb) ->
             loot_record level loot).
  { intros rolls loot ra rb Hs. apply sub_loot_parts in Hs.
    destruct Hs as (s & parcels & Hr & -> & Hlen & _).
    exists s, (Z.max 1 rolls), parcels. repeat split; try lia; assumption. }
  destruct (String.eqb enc_type "combat") eqn:Ec.
  - apply combat_encounter_parts in H.
    destruct H as (tpl & en & env & loot & ? & ? & ? & _ & _ & _ & _ & Hl & ->).
    exists loot. split; [reflexivity |].
    split; [right |]; eauto.
  - destruct (str_in enc_type _) eqn:Es.
    + apply String.eqb_neq in Ec.
      apply noncombat_encounter_parts in H.
      destruct H as [[-> _] | (tb & tpl & env & loot & ? & ? & _ & _ & _ & _ & Hl & ->)].
      * exists JNull. split; [reflexivity |]. split; [left; reflexivity |].
        discriminate.
      * exists loot. split; [reflexivity |]. split.
        -- destruct (get_default (nc_award_loot tpl) false);
             [right; eauto | left; tauto].
        -- cbn. intros Ht. inversion Ht. contradiction.
    + inversion H. exists JNull. split; [reflexivity |].
      split; [left; reflexivity | discriminate].
Qed.

(** ** Coin tables without a positive value *)

(** X22.  With a positive budget and a coin table that has no positive value
    but has a denomination worth 0, [_generate_coins] raises
    [ZeroDivisionError] before any draw. *)
Theorem coins_without_positive_value (RS : RandomSource)
    (coin_values : list (string * Q)) (budget : Q) (r : Random) :
  (0 < budget)%Q ->
  (forall c v, In (c, v) coin_values -> (v <= 0)%Q) ->
  (exists c v, In (c, v) coin_values /\ (v == 0)%Q) ->
  _generate_coins coin_values budget r = (Err ZeroDivisionError, r).
Proof.
  intros Hb Hle (c & v & Hin & Hz).
  pose proof (coins_sorted_perm coin_values) as Hp.
  pose proof (Sorted_StronglySorted value_desc_transitive
                (sorted_descending coin_values)) as Hs.
  apply (Permutation_in _ (Permutation_sym Hp)) in Hin.
  unfold _generate_coins.
  destruct (coins_sorted coin_values) as [| [c0 v0] rest] eqn:Ec;
    [contradiction |].
  assert (Hv0 : (v0 == 0)%Q).
  { assert (H1 : (v0 <= 0)%Q).
    { apply (Hle c0). apply (Permutation_in _ Hp). left. reflexivity. }
    assert (H2 : (v <= v0)%Q).
    { destruct Hin as [Heq | Hin]; [inversion Heq; lra |].
      inversion Hs as [| x l _ Hall]; subst.
      rewrite Forall_forall in Hall. exact (Hall _ Hin). }
    lra. }
  cbn [_generate_coins_loop]. unfold bind, _generate_coins_body.
  cbn [remaining].
  assert (E0 : Qle_bool budget 0 = false).
  { destruct (Qle_bool budget 0) eqn:E; [| reflexivity].
    apply Qle_bool_iff in E. lra. }
  rewrite E0. apply Qeq_bool_iff in Hv0. rewrite Hv0. reflexivity.
Qed.

(** ** Budgets of clamped levels *)

(** [_get_budget_for_level] of [encountergen.py]: the budget under the key
    [str(level)], [None] when there is none. *)
Definition _get_budget_for_level (level : Z)
    (budgets : option (list (string * Q))) : option Q :=
  let b := or_list budgets [] in
  let key := str level in
  dict_get key b.

Lemma int_keys_forall2 (ks : list string) :
  forall zs, int_keys ks = Some zs ->
             Forall2 (fun k z => int_of_str k = Some z) ks zs.
Proof.
  induction ks as [| k rest IH]; intros zs H; cbn [int_keys] in H.
  - inversion H. constructor.
  - destruct (int_of_str k) as [z |] eqn:Ek; [| discriminate].
    destruct (int_keys rest) as [zs' |]; [| discriminate].
    inversion H; subst. constructor; [exact Ek | apply IH; reflexivity].
Qed.

Lemma forall2_in_right {A B : Type} (R : A -> B -> Prop) (l : list A)
    (l' : list B) (b : B) :
  Forall2 R l l' -> In b l' -> exists a, In a l /\ R a b.
Proof.
  induction 1 as [| x y l l' Hxy _ IH]; intros Hin; [contradiction |].
  destruct Hin as [<- | Hin].
  - exists x. split; [left; reflexivity | exact Hxy].
  - destruct (IH Hin) as (a & Ha & HR). exists a. split; [right |]; assumption.
Qed.

Lemma dict_get_key_present {V : Type} (d : list (string * V)) (k : string) :
  In k (dict_keys d) -> dict_get k d <> None.
Proof.
  induction d as [| [k' v] rest IH]; intros Hin; [contradiction |].
  cbn [dict_get]. destruct (String.eqb_spec k k'); [discriminate |].
  destruct Hin as [Heq | Hin]; [cbn in Heq; congruence | exact (IH Hin)].
Qed.

(** X23.  When the budget table is not empty and every key is the decimal
    numeral of the integer it reads as, a level that [_clamp_level] changes
    is moved to a level that has a budget: for every level, the clamped level
    either is the level itself or has an entry under
    [_get_budget_for_level]. *)
Theorem clamped_level_has_budget (level : Z)
    (budgets : option (list (string * Q))) :
  get_default budgets [] <> [] ->
  (forall k, In k (dict_keys (get_default budgets [])) ->
             exists z, int_of_str k = Some z /\ str z = k) ->
  _clamp_level level budgets = level
  \/ _get_budget_for_level (_clamp_level level budgets) budgets <> None.
Proof.
  intros Hne Hcanon.
  assert (Hor : or_list budgets [] = get_default budgets []).
  { destruct budgets as [[| x l] |]; reflexivity. }
  assert (Hkeys : exists k ks,
             int_keys (dict_keys (get_default budgets [])) = Some (k :: ks)).
  { assert (H : forall l : list (string * Q),
               (forall k, In k (dict_keys l) ->
                          exists z, int_of_str k = Some z /\ str z = k) ->
               exists zs, int_keys (dict_keys l) = Some zs
                          /\ List.length zs = List.length l).
    { induction l as [| [k v] rest IH]; intros Hc.
      - exists []. split; reflexivity.
      - destruct (Hc k (or_introl eq_refl)) as (z & Hz & _).
        destruct (IH (fun k' Hk' => Hc k' (or_intror Hk'))) as (zs & Hzs & Hlen).
        exists (z :: zs). cbn [dict_keys map fst int_keys] in *.
        unfold dict_keys in Hzs. rewrite Hz, Hzs.
        split; [reflexivity | cbn; lia]. }
    destruct (H _ Hcanon) as (zs & Hzs & Hlen).
    destruct zs as [| k ks]; [| eauto].
    destruct (get_default budgets []); [contradiction | discriminate Hlen]. }
  destruct Hkeys as (k & ks & Hk).
  assert (Hbudget : forall z, In z (k :: ks) ->
                              _get_budget_for_level z budgets <> None).
  { intros z Hz.
    destruct (forall2_in_right _ _ _ _ (int_keys_forall2 _ _ Hk) Hz)
      as (key & Hin & Hkey).
    destruct (Hcanon key Hin) as (z' & Hz' & Hstr).
    assert (z' = z) by congruence. subst z'.
    unfold _get_budget_for_level. cbv zeta. rewrite Hor, Hstr.
    apply dict_get_key_present. exact Hin. }
  unfold _clamp_level at 1 2. rewrite Hk. cbn [get_default].
  destruct (level <? fold_left Z.min ks k);
    [right; apply Hbudget; apply fold_min_spec |].
  destruct (fold_left Z.max ks k <? level);
    [right; apply Hbudget; apply fold_max_spec | left; reflexivity].
Qed.

Lemma sample_budget_keys_canonical (k : string) :
  In k (dict_keys (get_default (Some [("1", 50%Q); ("10", 5000%Q)]) [])) ->
  exists z, int_of_str k = Some z /\ str z = k.
Proof.
  intros [<- | [<- | []]]; [exists 1 | exists 10]; split; reflexivity.
Defined.

Lemma clamped_level_has_budget_witness :
  _clamp_level 12 (Some [("1", 50%Q); ("10", 5000%Q)]) = 12
  \/ _get_budget_for_level
       (_clamp_level 12 (Some [("1", 50%Q); ("10", 5000%Q)]))
       (Some [("1", 50%Q); ("10", 5000%Q)]) <> None.
Proof.
  apply (clamped_level_has_budget 12 (Some [("1", 50%Q); ("10", 5000%Q)])).
  - discriminate.
  - exact sample_budget_keys_canonical.
Defined.

(** * Loading the tables

    The data directory is a map from file names to what the file holds:
    [None] when there is no such file, otherwise parsed JSON or text that
    [json.load] rejects. *)

Module loading.

Inductive File : Type :=
| Parsed (data : json)
| Malformed.

Definition Directory : Type := string -> option File.

Inductive LoadError : Type :=
| FileNotFoundError (name : string)   (* _load_json, required file *)
| JSONDecodeError (name : string)     (* json.load *)
| SystemExit (code : Z)               (* sys.exit(1) of _load_loot_data *)
| MissingRequiredKey (key : string)   (* "loot_data.json missing required key" *)
| NotIterable.                        (* [k in data] on a number, bool or null *)

Inductive loaded (A : Type) : Type :=
| Loaded (a : A)
| Failed (e : LoadError).
Arguments Loaded {A} a.
Arguments Failed {A} e.

Definition and_then {A B : Type} (m : loaded A) (f : A -> loaded B) : loaded B :=
  match m with
  | Loaded a => f a
  | Failed e => Failed e
  end.

(** [_load_json(data_dir / name, required)]. *)
Definition _load_json (dir : Directory) (name : string) (required : bool)
  : loaded json :=
  match dir name with
  | None => if required then Failed (FileNotFoundError name) else Loaded (JDict [])
  | Some (Parsed data) => Loaded data
  | Some Malformed => Failed (JSONDecodeError name)
  end.

(** The dataclass [Tables], holding the loaded files as they are. *)
Record RawTables : Type := {
  raw_encounter_types : json;
  raw_five_room_progression : json;
  raw_combat_budgets : json;
  raw_encounter_templates : json;
  raw_enemy_groups : json;
  raw_monsters : json;
  raw_factions : json;
  raw_environment_presets : json;
  raw_puzzle_tables : json;
  raw_social_tables : json;
  raw_exploration_tables : json
}.

(** [Tables.load(data_dir)]. *)
Definition Tables_load (dir : Directory) : loaded RawTables :=
  and_then (_load_json dir "encounter_types.json" true) (fun encounter_types =>
  and_then (_load_json dir "five_room_progression.json" true) (fun progression =>
  and_then (_load_json dir "combat_budgets.json" false) (fun combat_budgets =>
  and_then (_load_json dir "encounter_tables.json" true) (fun templates =>
  and_then (_load_json dir "enemy_groups.json" true) (fun enemy_groups =>
  and_then (_load_json dir "monsters.json" true) (fun monsters =>
  and_then (_load_json dir "factions.json" false) (fun factions =>
  and_then (_load_json dir "environment_presets.json" false) (fun presets =>
  and_then (_load_json dir "puzzle_tables.json" false) (fun puzzle =>
  and_then (_load_json dir "social_tables.json" false) (fun social =>
  and_then (_load_json dir "exploration_tables.json" false) (fun exploration =>
  Loaded {| raw_encounter_types := encounter_types;
            raw_five_room_progression := progression;
            raw_combat_budgets := combat_budgets;
            raw_encounter_templates := templates;
            raw_enemy_groups := enemy_groups;
            raw_monsters := monsters;
            raw_factions := factions;
            raw_environment_presets := presets;
            raw_puzzle_tables := puzzle;
            raw_social_tables := social;
            raw_exploration_tables := exploration |}))))))))))).

Definition required_files : list string :=
  ["encounter_types.json"; "five_room_progression.json";
   "encounter_tables.json"; "enemy_groups.json"; "monsters.json"].

Definition optional_files : list string :=
  ["combat_budgets.json"; "factions.json"; "environment_presets.json";
   "puzzle_tables.json"; "social_tables.json"; "exploration_tables.json"].

(** [k in s] on a string: [k] occurs in [s]. *)
Fixpoint is_substring (k s : string) : bool :=
  String.prefix k s
  || match s with
     | EmptyString => false
     | String _ s' => is_substring k s'
     end.

(** [k in data] for a string [k]; [None] is a [TypeError]. *)
Definition py_in (k : string) (data : json) : option bool :=
  match data with
  | JDict kv => Some (match dict_get k kv with Some _ => true | None => false end)
  | JList l =>
      Some (existsb (fun j => match j with
                              | JStr s => String.eqb k s
                              | _ => false
                              end) l)
  | JStr s => Some (is_substring k s)
  | _ => None
  end.

Definition required_keys : list string :=
  ["coin_values_gp"; "level_budgets_gp"; "magic_items"; "mundane_goods"].

(** [for k in required_keys: if k not in data: raise ValueError(...)]. *)
Fixpoint check_keys (keys : list string) (data : json) : loaded json :=
  match keys with
  | [] => Loaded data
  | k :: rest =>
      match py_in k data with
      | None => Failed NotIterable
      | Some false => Failed (MissingRequiredKey k)
      | Some true => check_keys rest data
      end
  end.

(** [_load_loot_data(data_dir, filename)]. *)
Definition _load_loot_data (dir : Directory) (filename : string) : loaded json :=
  match dir filename with
  | None => Failed (SystemExit 1)
  | Some Malformed => Failed (SystemExit 1)
  | Some (Parsed data) => check_keys required_keys data
  end.

End loading.

Import loading.

Definition content_or_empty (dir : Directory) (name : string) : json :=
  match dir name with
  | Some (Parsed data) => data
  | _ => JDict []
  end.

Definition file_ok (dir : Directory) (name : string) (required : bool) : Prop :=
  dir name <> Some Malformed /\ (required = true -> dir name <> None).

Definition file_bad (dir : Directory) (name : string) (required : bool)
    (e : LoadError) : Prop :=
  (dir name = None /\ required = true /\ e = FileNotFoundError name)
  \/ (dir name = Some Malformed /\ e = JSONDecodeError name).

Lemma load_json_cases (dir : Directory) (name : string) (required : bool) :
  (_load_json dir name required = Loaded (content_or_empty dir name)
   /\ file_ok dir name required)
  \/ (exists e, _load_json dir name required = Failed e
                /\ file_bad dir name required e).
Proof.
  unfold _load_json, content_or_empty, file_ok, file_bad.
  destruct (dir name) as [[data |] |].
  - left. split; [reflexivity |]. split; [discriminate | intros _; discriminate].
  - right. eexists. split; [reflexivity |]. right. split; reflexivity.
  - destruct required.
    + right. eexists. split; [reflexivity |]. left. repeat split.
    + left. split; [reflexivity |]. split; discriminate.
Qed.

Ltac load_failed name Hb :=
  split;
  [ split;
    [ intros (t & Ht); discriminate Ht
    | intros [H1 H2]; exfalso;
      destruct Hb as [(Hn & Hr & _) | (Hm & _)];
      [ first [ discriminate Hr
              | apply (H1 name); [cbn; tauto | exact Hn] ]
      | apply (H2 name); [cbn; tauto | exact Hm] ] ]
  | split;
    [ intros t Ht; discriminate Ht
    | intros e' He'; inversion He'; subst;
      destruct Hb as [(Hn & Hr & ->) | (Hm & ->)];
      [ first [ discriminate Hr
              | left; exists name;
                split; [cbn; tauto | split; [assumption | reflexivity]] ]
      | right; exists name;
        split; [cbn; tauto | split; [assumption | reflexivity]] ] ] ].

Ltac load_step dir name required H :=
  let e := fresh "e" in
  let L := fresh "L" in
  let Hb := fresh "Hb" in
  destruct (load_json_cases dir name required) as [(L & H) | (e & L & Hb)];
  rewrite L; cbn [and_then];
  [ | load_failed name Hb ].

(** X24.  [Tables.load] succeeds exactly when the five required files
    (encounter_types, five_room_progression, encounter_tables, enemy_groups,
    monsters) exist and no file of the eleven holds malformed JSON.  It then
    holds each file's content, with the empty dict [{}] for every optional
    file that is absent.  When it fails, the error is [FileNotFoundError] for
    a required file that is absent or a decode error for a malformed file. *)
Theorem tables_load_spec (dir : Directory) :
  ((exists t, Tables_load dir = Loaded t)
   <-> (forall name, In name required_files -> dir name <> None)
       /\ (forall name, In name (required_files ++ optional_files)%list ->
                        dir name <> Some Malformed))
  /\ (forall t,
         Tables_load dir = Loaded t ->
         t = {| raw_encounter_types := content_or_empty dir "encounter_types.json";
                raw_five_room_progression :=
                  content_or_empty dir "five_room_progression.json";
                raw_combat_budgets := content_or_empty dir "combat_budgets.json";
                raw_encounter_templates :=
                  content_or_empty dir "encounter_tables.json";
                raw_enemy_groups := content_or_empty dir "enemy_groups.json";
                raw_monsters := content_or_empty dir "monsters.json";
                raw_factions := content_or_empty dir "factions.json";
                raw_environment_presets :=
                  content_or_empty dir "environment_presets.json";
                raw_puzzle_tables := content_or_empty dir "puzzle_tables.json";
                raw_social_tables := content_or_empty dir "social_tables.json";
                raw_exploration_tables :=
                  content_or_empty dir "exploration_tables.json" |})
  /\ (forall e,
         Tables_load dir = Failed e ->
         (exists name, In name required_files /\ dir name = None
                       /\ e = FileNotFoundError name)
         \/ (exists name, In name (required_files ++ optional_files)%list
                          /\ dir name = Some Malformed
                          /\ e = JSONDecodeError name)).
Proof.
  unfold Tables_load.
  load_step dir "encounter_types.json" true K1.
  load_step dir "five_room_progression.json" true K2.
  load_step dir "combat_budgets.json" false K3.
  load_step dir "encounter_tables.json" true K4.
  load_step dir "enemy_groups.json" true K5.
  load_step dir "monsters.json" true K6.
  load_step dir "factions.json" false K7.
  load_step dir "environment_presets.json" false K8.
  load_step dir "puzzle_tables.json" false K9.
  load_step dir "social_tables.json" false K10.
  load_step dir "exploration_tables.json" false K11.
  unfold file_ok in *. split; [| split].
  - split; [intros _ | intros _; eexists; reflexivity]. split.
    + intros name Hin. cbn in Hin.
      repeat (destruct Hin as [<- | Hin]; [tauto |]). contradiction.
    + intros name Hin. cbn in Hin.
      repeat (destruct Hin as [<- | Hin]; [tauto |]). contradiction.
  - intros t Ht. inversion Ht. reflexivity.
  - intros e He. discriminate He.
Qed.

Lemma check_keys_spec (data : json) (kv : list (string * json)) :
  data = JDict kv ->
  forall keys,
    (check_keys keys data = Loaded data
     /\ forall k, In k keys -> dict_get k kv <> None)
    \/ exists before k after,
         keys = (before ++ k :: after)%list
         /\ (forall k', In k' before -> dict_get k' kv <> None)
         /\ dict_get k kv = None
         /\ check_keys keys data = Failed (MissingRequiredKey k).
Proof.
  intros ->. induction keys as [| k rest IH]; cbn [check_keys py_in].
  - left. split; [reflexivity | intros k []].
  - destruct (dict_get k kv) as [v |] eqn:E.
    + destruct IH as [[Hok Hall] | (before & k0 & after & -> & Hb & Hk & Hf)].
      * left. split; [exact Hok |]. intros k' [<- | Hin];
          [congruence | exact (Hall _ Hin)].
      * right. exists (k :: before), k0, after.
        split; [reflexivity |]. split; [| split; assumption].
        intros k' [<- | Hin]; [congruence | exact (Hb _ Hin)].
    + right. exists [], k, rest. split; [reflexivity |].
      split; [intros k' [] |]. split; [exact E | reflexivity].
Qed.

(** X25.  [_load_loot_data] exits with status 1 when the file is absent or
    malformed.  On a file that holds a JSON object it returns the object when
    the four keys coin_values_gp, level_budgets_gp, magic_items and
    mundane_goods are all present, and otherwise raises the missing-key error
    for the first of them, in that order, that is absent. *)
Theorem load_loot_data_spec (dir : Directory) (filename : string) :
  (dir filename = None \/ dir filename = Some Malformed ->
   _load_loot_data dir filename = Failed (SystemExit 1))
  /\ (forall kv,
         dir filename = Some (Parsed (JDict kv)) ->
         (_load_loot_data dir filename = Loaded (JDict kv)
          /\ forall k, In k required_keys -> dict_get k kv <> None)
         \/ exists before k after,
              required_keys = (before ++ k :: after)%list
              /\ (forall k', In k' before -> dict_get k' kv <> None)
              /\ dict_get k kv = None
              /\ _load_loot_data dir filename
                 = Failed (MissingRequiredKey k)).
Proof.
  unfold _load_loot_data. split.
  - intros [-> | ->]; reflexivity.
  - intros kv ->. exact (check_keys_spec (JDict kv) kv eq_refl required_keys).
Qed.

(** * Sample runs of the further properties *)

Definition sample_loot_run : result json * Z :=
  generate (RS := lcg.source) sample_loot_generator 5 2 1001.

Definition sample_loot : json :=
  match fst sample_loot_run with
  | Ok out => out
  | Err _ => JNull
  end.

Definition sample_coins_run : result (list (string * Z)) * Z :=
  _generate_coins (RS := lcg.source) samples.coin_table 150 42.

Definition sample_coins : list (string * Z) :=
  match fst sample_coins_run with
  | Ok out => out
  | Err _ => []
  end.

Definition error_of {A : Type} (res : result A) : PyError :=
  match res with
  | Err e => e
  | Ok _ => IndexError
  end.

Definition sample_failed_loot_run : result json * Z :=
  generate (RS := lcg.source) sample_loot_generator 99 1 1001.

Definition sample_failed_encounter_run : result json * Z :=
  _generate_encounter_internal (RS := lcg.source)
    (PY := interpreters.process_a) sample_generator 11 "dungeon" "entrance" 1234.

Definition sample_dungeon_run : result json * Z :=
  generate_five_room_dungeon (RS := lcg.source)
    (PY := interpreters.process_a) sample_generator 5 "dungeon" None 1234.

Definition sample_dungeon : json :=
  match fst sample_dungeon_run with
  | Ok out => out
  | Err _ => JNull
  end.

Lemma sample_run_ok : sample_run = (Ok sample_encounter, snd sample_run).
Proof. vm_compute. reflexivity. Defined.

Lemma encounter_echoes_inputs_witness :
  json_get "difficulty" sample_encounter = Some (JInt 5)
  /\ json_get "slot" sample_encounter = Some (JStr "entrance")
  /\ json_get "biome" sample_encounter = Some (JStr "dungeon")
  /\ exists type meta,
       json_get "type" sample_encounter = Some (JStr type)
       /\ In type encounter_types_known
       /\ json_get "meta" sample_encounter = Some meta
       /\ (type <> "combat" -> json_get "template_id" meta = Some JNull)
       /\ (type = "combat" \/ type = "empty" ->
           json_get "noncombat_id" meta = Some JNull)
       /\ (type = "empty" ->
           json_get "tags" sample_encounter = Some (JList [])
           /\ json_get "loot" sample_encounter = Some JNull
           /\ json_get "enemies" sample_encounter = Some (JList [])).
Proof.
  exact (encounter_echoes_inputs lcg.source interpreters.process_a
           sample_generator 5 "dungeon" "entrance" sample_encounter 1234
           (snd sample_run) sample_run_ok).
Defined.

Lemma generate_record_shape_witness :
  exists parcels,
    sample_loot = JDict [("schema", JStr "loot.v1");
                         ("seed", JInt 1001);
                         ("encounter_level", JInt 5);
                         ("rolls", JInt (Z.max 1 2));
                         ("parcels", JList parcels)]
    /\ Z.of_nat (List.length parcels) = Z.max 1 2.
Proof.
  apply (generate_record_shape lcg.source sample_loot_generator 5 2
           sample_loot 1001 (snd sample_loot_run)).
  vm_compute. reflexivity.
Defined.

Lemma parcels_hold_one_gated_item_witness :
  exists parcels,
    json_get "parcels" sample_loot = Some (JList parcels)
    /\ Forall (parcel_has_one_item sample_loot_generator 5) parcels.
Proof.
  apply (parcels_hold_one_gated_item lcg.source sample_loot_generator 5 2
           sample_loot 1001 (snd sample_loot_run)).
  vm_compute. reflexivity.
Defined.

Lemma coins_issued_witness :
  NoDup (dict_keys sample_coins)
  /\ (forall coin qty,
         In (coin, qty) sample_coins ->
         1 <= qty /\ exists v, In (coin, v) samples.coin_table /\ (0 < v)%Q)
  /\ ((150 <= 0)%Q -> sample_coins = [] /\ snd sample_coins_run = 42).
Proof.
  apply (coins_issued lcg.source samples.coin_table 150 sample_coins 42
           (snd sample_coins_run)).
  vm_compute. reflexivity.
Defined.

Lemma loot_errors_witness :
  (forall l,
      error_of (fst sample_failed_loot_run) = LevelNotFound l ->
      l = 99
      /\ dict_get (str 99)
           (level_budgets_gp (lootgen.loot_data sample_loot_generator)) = None
      /\ snd sample_failed_loot_run = 1001)
  /\ (error_of (fst sample_failed_loot_run) = ZeroDivisionError ->
      exists c v,
        In (c, v) (coin_values_gp (lootgen.loot_data sample_loot_generator))
        /\ (v == 0)%Q)
  /\ (error_of (fst sample_failed_loot_run) = ChoicesTotalNotPositive ->
      exists it w,
        (In it (magic_items (lootgen.loot_data sample_loot_generator))
         \/ In it (mundane_goods (lootgen.loot_data sample_loot_generator)))
        /\ item_weight it = Some w /\ (w <= 0)%Q)
  /\ error_of (fst sample_failed_loot_run) <> IndexError
  /\ error_of (fst sample_failed_loot_run) <> EmptyRange.
Proof.
  apply (loot_errors lcg.source sample_loot_generator 99 1
           (error_of (fst sample_failed_loot_run)) 1001
           (snd sample_failed_loot_run)).
  vm_compute. reflexivity.
Defined.

Lemma encounter_errors_witness :
  combat_error_explained (RS := lcg.source) (PY := interpreters.process_a)
    sample_generator 11 "dungeon" "entrance"
    (error_of (fst sample_failed_encounter_run))
  \/ exists enc_type,
       noncombat_error_explained (RS := lcg.source)
         (PY := interpreters.process_a) sample_generator 11 "dungeon"
         "entrance" enc_type (error_of (fst sample_failed_encounter_run)).
Proof.
  apply (encounter_errors lcg.source interpreters.process_a sample_generator
           11 "dungeon" "entrance" (error_of (fst sample_failed_encounter_run))
           1234 (snd sample_failed_encounter_run)).
  vm_compute. reflexivity.
Defined.

Lemma dungeon_rooms_witness :
  exists rooms,
    sample_dungeon = JDict [("schema", JStr "dungeon.5room.v1");
                            ("seed", JInt 1234);
                            ("biome", JStr "dungeon");
                            ("base_level", JInt 5);
                            ("rooms", JList rooms)]
    /\ Forall2 (room_of_slot sample_generator 5 "dungeon")
         ["entrance"; "puzzle"; "setback"; "climax"; "aftermath"] rooms.
Proof.
  apply (dungeon_rooms lcg.source interpreters.process_a sample_generator 5
           "dungeon" None sample_dungeon 1234 (snd sample_dungeon_run)).
  vm_compute. reflexivity.
Defined.

Lemma encounter_tags_merged_witness :
  exists tags env,
    json_get "tags" sample_encounter = Some (json_strs tags)
    /\ json_get "environment" sample_encounter = Some (environment_json env)
    /\ NoDup tags
    /\ ((sample_encounter = _generate_empty_encounter 5 "dungeon" "entrance"
         /\ tags = [])
        \/ (exists tpl enemies r1 r2 r3,
               In tpl (or_list (encounter_templates (tables sample_generator))
                         [])
               /\ combat_candidate 5 "dungeon" "entrance" tpl = true
               /\ json_get "type" sample_encounter = Some (JStr "combat")
               /\ json_get "meta" sample_encounter
                  = Some (JDict [("template_id",
                                  opt_json (fun j => j) (tpl_id tpl));
                                 ("noncombat_id", JNull);
                                 ("notes",
                                  get_default (tpl_notes tpl) (JStr ""))])
               /\ _instantiate_enemy_group (RS := lcg.source) sample_generator
                    (tpl_enemy_group_id tpl) 5 r1 = (Ok enemies, r2)
               /\ json_get "enemies" sample_encounter = Some (JList enemies)
               /\ _select_environment (RS := lcg.source) sample_generator
                    "dungeon" (or_list (tpl_environment_tags tpl) []) None r2
                  = (Ok env, r3)
               /\ (forall t,
                      In t tags
                      <-> In t (or_list (tpl_tags tpl) [])
                          \/ In t (environment_tags env)))
        \/ (exists enc_type table tpl r1 r2,
               noncombat_table (tables sample_generator) enc_type = Some table
               /\ In tpl (or_list table [])
               /\ noncombat_candidate 5 "dungeon" "entrance" tpl = true
               /\ json_get "type" sample_encounter = Some (JStr enc_type)
               /\ json_get "meta" sample_encounter
                  = Some (JDict [("template_id", JNull);
                                 ("noncombat_id",
                                  opt_json (fun j => j) (nc_id tpl));
                                 ("notes",
                                  get_default (nc_notes tpl) (JStr ""))])
               /\ _select_environment (RS := lcg.source) sample_generator
                    "dungeon" (or_list (nc_environment_tags tpl) [])
                    (nc_environment_preset_id tpl) r1
                  = (Ok env, r2)
               /\ (forall t,
                      In t tags
                      <-> In t (or_list (nc_tags tpl) [])
                          \/ In t (environment_tags env)))).
Proof.
  exact (encounter_tags_merged lcg.source interpreters.process_a
           sample_generator 5 "dungeon" "entrance" sample_encounter 1234
           (snd sample_run) sample_run_ok).
Defined.

Lemma encounter_loot_witness :
  exists loot,
    json_get "loot" sample_encounter = Some loot
    /\ (loot = JNull \/ loot_record 5 loot)
    /\ (json_get "type" sample_encounter = Some (JStr "combat") ->
        loot_record 5 loot).
Proof.
  exact (encounter_loot lcg.source interpreters.process_a
           sample_generator 5 "dungeon" "entrance" sample_encounter 1234
           (snd sample_run) sample_run_ok).
Defined.

Lemma worthless_tokens_not_positive (c : string) (v : Q) :
  In (c, v) [("token", 0%Q); ("debt", (-1)%Q)] -> (v <= 0)%Q.
Proof.
  intros [H | [H | []]]; inversion H; discriminate.
Defined.

Lemma coins_without_positive_value_witness :
  _generate_coins (RS := lcg.source) [("token", 0%Q); ("debt", (-1)%Q)] 5 42
  = (Err ZeroDivisionError, 42).
Proof.
  apply (coins_without_positive_value lcg.source
           [("token", 0%Q); ("debt", (-1)%Q)] 5 42).
  - reflexivity.
  - exact worthless_tokens_not_positive.
  - exists "token", 0%Q. split; [left; reflexivity | reflexivity].
Defined.
